(** * TrackingCalories: the metrics calculator of [app.py]

    A shallow embedding of the computational core of [app.py]: the unit
    conversion helpers, [calculate_metrics] and [exercise_recommendations].

    Python's [float] is IEEE 754 binary64; it is modelled by Rocq's primitive
    [float], whose operations are the same correctly rounded ones.  Python's
    [int] is [Z].  Exceptions are modelled by the [result] monad below. *)

From Stdlib Require Import ZArith Lia Bool List String Ascii.
From Stdlib Require Import Floats.
From stdpp Require Import base option gmap strings.

Import ListNotations.
Local Open Scope string_scope.
Local Open Scope list_scope.
Local Open Scope Z_scope.

Set Warnings "-inexact-float".

(** ** Exceptions *)

Inductive exn : Set :=
| ZeroDivisionError
| OverflowError
| ValueError
| KeyError
| TypeError.

Inductive result (A : Type) : Type :=
| Ok (a : A)
| Raise (e : exn).

Arguments Ok {A} a.
Arguments Raise {A} e.

(** Sequencing: the first exception raised ends the computation. *)
#[global] Instance result_bind : MBind result := fun A B k r =>
  match r with
  | Ok a => k a
  | Raise e => Raise e
  end.

(** ** Python's numeric primitives *)

Module Py.

(** [bool(x)] for a float: everything but [0.0] and [-0.0] is true, [nan]
    included. *)
Definition float_truthy (x : float) : bool := negb (x =? 0)%float.

(** [x / y] on floats: division by (either) zero raises. *)
Definition truediv (x y : float) : result float :=
  if (y =? 0)%float then Raise ZeroDivisionError else Ok (x / y)%float.

(** [x ** 2] on a float, with a C library whose [pow] is correctly rounded
    at the exponent 2.  CPython hands the computation to the C library's
    [pow(x, 2.0)] and turns an overflow of a finite argument into
    [OverflowError]; an underflow silently gives zero.  The last bit of
    [pow] is the library's own: [float_pow2] below leaves the library open,
    [float_pow2_rounded] shows that it is [pow2] for a correctly rounded
    library, and the value of the [bmi] field is stated with [float_pow2]. *)
Definition pow2 (x : float) : result float :=
  let y := (x * x)%float in
  if is_finite x && is_infinity y then Raise OverflowError else Ok y.

(** Conversion of an [int] operand of a mixed [float]/[int] operation:
    correctly rounded, ties to even, and [OverflowError] beyond the range. *)
Definition int_to_float (n : Z) : result float :=
  let f := SF2Prim (binary_normalize prec emax n 0 false) in
  if is_infinity f then Raise OverflowError else Ok f.

(** The integer nearest to [m * 2^e], ties to the even one. *)
Definition round_half_even_mag (m : Z) (e : Z) : Z :=
  if 0 <=? e then m * 2 ^ e
  else
    let d := 2 ^ (- e) in
    let q := m / d in
    let r := m mod d in
    match (2 * r) ?= d with
    | Lt => q
    | Gt => q + 1
    | Eq => if Z.even q then q else q + 1
    end.

(** [round(x)] with no [ndigits]: an [int], ties to even; [nan] and the
    infinities raise. *)
Definition round (x : float) : result Z :=
  match Prim2SF x with
  | S754_nan => Raise ValueError
  | S754_infinity _ => Raise OverflowError
  | S754_zero _ => Ok 0
  | S754_finite s m e => Ok (cond_Zopp s (round_half_even_mag (Zpos m) e))
  end.

(** [int(x)] on a float: truncation toward zero. *)
Definition int (x : float) : result Z :=
  match Prim2SF x with
  | S754_nan => Raise ValueError
  | S754_infinity _ => Raise OverflowError
  | S754_zero _ => Ok 0
  | S754_finite s m e => Ok (cond_Zopp s (Z.shiftl (Zpos m) e))
  end.

(** [round(x, 1)]: the double nearest to the decimal with one fractional
    digit that is nearest to the exact value of [x] (ties to the even
    digit).  Not finite values and integers come back unchanged; nothing
    raises. *)
Definition round1 (x : float) : float :=
  match Prim2SF x with
  | S754_finite s m e =>
      if 0 <=? e then x
      else
        match round_half_even_mag (10 * Zpos m) e with
        | Zpos t =>
            SF2Prim (SFdiv prec emax (S754_finite s t 0) (S754_finite false 10 0))
        | _ => if s then neg_zero else zero
        end
  | _ => x
  end.

(** [str.upper] and [str.lower], on the bytes of the string.  Only ASCII
    letters matter for the comparisons made by the program: no character
    outside ASCII has upper case "M" or a lower case in "lose". *)
Definition ascii_upper (c : ascii) : ascii :=
  let n := nat_of_ascii c in
  if ((97 <=? n) && (n <=? 122))%nat then ascii_of_nat (n - 32) else c.

Definition ascii_lower (c : ascii) : ascii :=
  let n := nat_of_ascii c in
  if ((65 <=? n) && (n <=? 90))%nat then ascii_of_nat (n + 32) else c.

Fixpoint upper (s : string) : string :=
  match s with
  | EmptyString => EmptyString
  | String c s' => String (ascii_upper c) (upper s')
  end.

Fixpoint lower (s : string) : string :=
  match s with
  | EmptyString => EmptyString
  | String c s' => String (ascii_lower c) (lower s')
  end.

(** [x or d] for an optional string: [None] and the empty string are false. *)
Definition str_or (x : option string) (d : string) : string :=
  match x with
  | Some EmptyString | None => d
  | Some s => s
  end.

End Py.

(** ** Data model *)

(** The columns of [Profile] that the calculator reads.  Despite their names,
    [height_in] holds centimetres and [weight_lb] kilograms: the profile form
    stores [ft_in_to_cm] and [lbs_to_kg] of what the user typed. *)
Record Profile : Type := mkProfile {
  height_in : option float;
  weight_lb : option float;
  age : option Z;
  sex : option string;
  activity : option string;
  goal : option string
}.

Record Metrics : Type := mkMetrics {
  bmi : option float;
  bmr : option Z;
  tdee : option Z;
  target_calories : option Z
}.

(** ** Helpers and calculations *)

Definition ACTIVITY_MULTIPLIERS : gmap string float :=
  <[ "sedentary" := 1.2%float ]>
  (<[ "lightly_active" := 1.375%float ]>
  (<[ "moderately_active" := 1.55%float ]>
  (<[ "very_active" := 1.725%float ]>
  (<[ "extra_active" := 1.9%float ]> ∅)))).

Definition cm_to_m (cm : float) : float := (cm / 100)%float.

Definition kg_to_lbs (kg : float) : float := (kg * 2.20462)%float.

Definition lbs_to_kg (lbs : float) : float := (lbs / 2.20462)%float.

Definition inches_to_cm (inches : float) : float := (inches * 2.54)%float.

Definition ft_in_to_cm (ft inch : float) : float :=
  inches_to_cm (ft * 12 + inch)%float.

(** The inverse of [inches_to_cm] is not a named helper: the profile view
    computes it in line as [p.height_in / 2.54]. *)
Definition cm_to_inches (cm : float) : float := (cm / 2.54)%float.

(** The guard [all([height_in, weight_lb, age, sex])] of line 106: every
    one of the four is present and true in Python's sense. *)
Definition complete (p : Profile) : bool :=
  match height_in p, weight_lb p, age p, sex p with
  | Some h, Some w, Some a, Some s =>
      Py.float_truthy h && Py.float_truthy w && negb (a =? 0)
      && negb (String.eqb s "")
  | _, _, _, _ => false
  end.

Definition unknown_metrics : Metrics := mkMetrics None None None None.

(** Line 118, the unrounded BMR.  The [int] operands [10], [5 * a] and
    [5]/[-161] are converted to floats by the mixed operations. *)
Definition bmr_float (w h : float) (a : Z) (s : string) : result float :=
  a5 ← Py.int_to_float (5 * a);
  Ok (10 * w + 6.25 * h - a5 + (if String.eqb s "M" then 5 else -161))%float.

(** Line 121. *)
Definition activity_multiplier (act : option string) : float :=
  default 1.55%float (ACTIVITY_MULTIPLIERS !! Py.str_or act "moderately_active").

(** Line 125. *)
Definition goal_is_lose (g : option string) : bool :=
  String.eqb (Py.lower (Py.str_or g "maintain")) "lose".

(** Lines 125-128. *)
Definition target_of (lose : bool) (bmr tdee : float) : result Z :=
  if lose then
    t ← Py.round (tdee - 500)%float;
    b ← Py.int bmr;
    Ok (Z.max t b)
  else Py.round tdee.

(** Lines 109-130, once the guard has passed. *)
Definition metrics_of (h w : float) (a : Z) (sx : string)
    (act g : option string) : result Metrics :=
  let s := Py.upper sx in
  h2 ← Py.pow2 (cm_to_m h);
  q ← Py.truediv w h2;
  let bmi := Py.round1 q in
  bmr ← bmr_float w h a s;
  let mult := activity_multiplier act in
  let tdee := (bmr * mult)%float in
  target ← target_of (goal_is_lose g) bmr tdee;
  rb ← Py.round bmr;
  rt ← Py.round tdee;
  Ok (mkMetrics (Some bmi) (Some rb) (Some rt) (Some target)).

Definition calculate_metrics (profile : option Profile) : result Metrics :=
  match profile with
  | None => Ok unknown_metrics
  | Some p =>
      match height_in p, weight_lb p, age p, sex p with
      | Some h, Some w, Some a, Some sx =>
          if complete p then metrics_of h w a sx (activity p) (goal p)
          else Ok unknown_metrics
      | _, _, _, _ => Ok unknown_metrics
      end
  end.

(** ** The square and the C library *)

(** [x ** 2] on a float, as CPython's [float_pow] computes it around the C
    library's [pow], here [c_pow]: the special values are settled first
    (nan, the infinities, zero, and a base of magnitude one); any other
    base is handed to [pow] by its magnitude, the exponent [2] being even;
    an infinite result of [pow] becomes [OverflowError], an underflow to
    zero is returned.  The last bit of the result is the library's. *)
Definition float_pow2 (c_pow : float -> float -> float) (iv : float) : result float :=
  if is_nan iv then Ok iv
  else if is_infinity iv then Ok infinity
  else if (iv =? 0)%float then Ok 0%float
  else if (abs iv =? 1)%float then Ok 1%float
  else
    let ix := c_pow (abs iv) 2%float in
    if is_infinity ix then Raise OverflowError else Ok ix.

(** A C library whose [pow] is correctly rounded at the exponent 2. *)
Definition pow_rounded (x y : float) : float := (x * x)%float.

(** A C library whose [pow] at the exponent 2 gives the double above the
    correctly rounded square. *)
Definition pow_above (x y : float) : float := next_up (x * x)%float.

(** Lines 109-130 with the C library's [pow] made explicit. *)
Definition metrics_of_with (c_pow : float -> float -> float)
    (h w : float) (a : Z) (sx : string) (act g : option string) : result Metrics :=
  let s := Py.upper sx in
  h2 ← float_pow2 c_pow (cm_to_m h);
  q ← Py.truediv w h2;
  let bmi := Py.round1 q in
  bmr ← bmr_float w h a s;
  let mult := activity_multiplier act in
  let tdee := (bmr * mult)%float in
  target ← target_of (goal_is_lose g) bmr tdee;
  rb ← Py.round bmr;
  rt ← Py.round tdee;
  Ok (mkMetrics (Some bmi) (Some rb) (Some rt) (Some target)).

(** Lines 105-130 with the C library's [pow] made explicit. *)
Definition calculate_metrics_with (c_pow : float -> float -> float)
    (profile : option Profile) : result Metrics :=
  match profile with
  | None => Ok unknown_metrics
  | Some p =>
      match height_in p, weight_lb p, age p, sex p with
      | Some h, Some w, Some a, Some sx =>
          if complete p then metrics_of_with c_pow h w a sx (activity p) (goal p)
          else Ok unknown_metrics
      | _, _, _, _ => Ok unknown_metrics
      end
  end.


(** ** Exercise recommendations *)

(** The values held by the recommendation dictionaries. *)
Inductive value : Type :=
| VStr (s : string)
| VInt (n : Z)
| VFloat (x : float).

(** A dictionary display: later keys overwrite earlier ones. *)
Definition dict_of (items : list (string * value)) : gmap string value :=
  fold_left (fun d kv => <[ kv.1 := kv.2 ]> d) items ∅.

(** [d[k]]: a missing key raises. *)
Definition getitem (d : gmap string value) (k : string) : result value :=
  match d !! k with
  | Some v => Ok v
  | None => Raise KeyError
  end.

(** [v + n] for an [int] literal [n]. *)
Definition value_add_int (v : value) (n : Z) : result value :=
  match v with
  | VInt k => Ok (VInt (k + n))
  | VFloat x => f ← Py.int_to_float n; Ok (VFloat (x + f)%float)
  | VStr _ => Raise TypeError
  end.

(** [v in (s1, s2)] for a tuple of strings. *)
Definition value_in_strs (v : value) (ss : list string) : bool :=
  match v with
  | VStr s => existsb (String.eqb s) ss
  | _ => false
  end.

Definition base : list (gmap string value) :=
  [ dict_of [("name", VStr "Brisk Walking"); ("intensity", VStr "Moderate");
             ("duration_min", VInt 30); ("type", VStr "cardio")];
    dict_of [("name", VStr "Jogging"); ("intensity", VStr "Heavy");
             ("duration_min", VInt 20); ("type", VStr "cardio")];
    dict_of [("name", VStr "Cycling (leisure)"); ("intensity", VStr "Low");
             ("duration_min", VInt 30); ("type", VStr "cardio")];
    dict_of [("name", VStr "Bodyweight Circuit"); ("intensity", VStr "Moderate");
             ("duration_min", VInt 25); ("type", VStr "strength")];
    dict_of [("name", VStr "Swimming (moderate)"); ("intensity", VStr "Moderate");
             ("duration_min", VInt 25); ("type", VStr "cardio")];
    dict_of [("name", VStr "Pilates/core"); ("intensity", VStr "Low");
             ("duration_min", VInt 30); ("type", VStr "mobility")] ].

Definition interval_note : value := VStr "Fat-loss focus: try intervals.".

Definition walk_after_meals : gmap string value :=
  dict_of [("name", VStr "Walk after meals"); ("met", VFloat 3.3);
           ("duration_min", VInt 10); ("type", VStr "habit");
           ("note", VStr "Light post-meal walk 2–3x/day")].

Definition full_body_strength : gmap string value :=
  dict_of [("name", VStr "Full-body strength 2x/week"); ("met", VFloat 5);
           ("duration_min", VInt 40); ("type", VStr "strength")].

(** The body of the loop of lines 146-151, for one [x]: the entry to append,
    if any.  [x.copy()] leaves [x] itself untouched. *)
Definition lose_step (x : gmap string value) : result (option (gmap string value)) :=
  t ← getitem x "type";
  if value_in_strs t ["cardio"; "strength"] then
    d ← getitem x "duration_min";
    d' ← value_add_int d 10;
    Ok (Some (<[ "note" := interval_note ]> (<[ "duration_min" := d' ]> x)))
  else Ok None.

Fixpoint lose_loop (xs out : list (gmap string value)) : result (list (gmap string value)) :=
  match xs with
  | [] => Ok out
  | x :: xs' =>
      o ← lose_step x;
      lose_loop xs' (match o with Some y => out ++ [y] | None => out end)
  end.

Definition exercise_recommendations (profile : option Profile)
  : result (list (gmap string value)) :=
  match profile with
  | None => Ok []
  | Some p =>
      if goal_is_lose (goal p) then
        out ← lose_loop base [];
        Ok (out ++ [walk_after_meals])
      else Ok (base ++ [full_body_strength])
  end.

(** ** Definitions used by the statements *)

(** Python's falsy values for the four guarded columns: a missing value, a
    zero, the empty string. *)
Definition falsy_float (o : option float) : Prop :=
  match o with
  | None => True
  | Some x => (x =? 0)%float = true
  end.

Definition falsy_int (o : option Z) : Prop :=
  match o with
  | None => True
  | Some n => n = 0
  end.

Definition falsy_str (o : option string) : Prop :=
  match o with
  | None => True
  | Some s => s = ""
  end.

(** The profile is absent, or one of height, weight, age and sex is missing
    or zero. *)
Definition insufficient (profile : option Profile) : Prop :=
  match profile with
  | None => True
  | Some p =>
      falsy_float (height_in p) \/ falsy_float (weight_lb p) \/
      falsy_int (age p) \/ falsy_str (sex p)
  end.

(** The activity table as the specification words it: five named levels, and
    1.55 for anything else. *)
Definition spec_multiplier (act : option string) : float :=
  match act with
  | None => 1.55
  | Some a =>
      if String.eqb a "sedentary" then 1.2
      else if String.eqb a "lightly_active" then 1.375
      else if String.eqb a "moderately_active" then 1.55
      else if String.eqb a "very_active" then 1.725
      else if String.eqb a "extra_active" then 1.9
      else 1.55
  end%float.

(** [n] is an integer nearest to the exact value of the finite double [x]:
    twice their distance is at most one. *)
Definition nearest_int (x : float) (n : Z) : Prop :=
  match Prim2SF x with
  | S754_zero _ => n = 0
  | S754_finite s m e =>
      let v := cond_Zopp s (Zpos m) in
      if 0 <=? e then n = v * 2 ^ e
      else Z.abs (2 * v - 2 * n * 2 ^ (- e)) <= 2 ^ (- e)
  | _ => False
  end.

(** [n] is the exact value of the finite double [x] with its fraction
    dropped. *)
Definition truncation (x : float) (n : Z) : Prop :=
  match Prim2SF x with
  | S754_zero _ => n = 0
  | S754_finite s m e =>
      if 0 <=? e then n = cond_Zopp s (Zpos m * 2 ^ e)
      else exists k, n = cond_Zopp s k /\ k * 2 ^ (- e) <= Zpos m < (k + 1) * 2 ^ (- e)
  | _ => False
  end.

(** The exact value of a finite double, as a signed mantissa and a binary
    exponent: [fst * 2 ^ snd]. *)
Definition finite_parts (x : float) : option (Z * Z) :=
  match Prim2SF x with
  | S754_zero _ => Some (0, 0)
  | S754_finite s m e => Some (cond_Zopp s (Zpos m), e)
  | _ => None
  end.

(** [|r - v| <= |v| / den] on the exact values of two finite doubles, both
    scaled to the smaller of their exponents. *)
Definition within_rel_tol (den : Z) (v r : float) : bool :=
  match finite_parts v, finite_parts r with
  | Some (mv, ev), Some (mr, er) =>
      let e0 := Z.min ev er in
      den * Z.abs (mr * 2 ^ (er - e0) - mv * 2 ^ (ev - e0))
      <=? Z.abs (mv * 2 ^ (ev - e0))
  | _, _ => false
  end.

(** The same comparison on positive mantissas and exponents, for a tolerance
    of one millionth. *)
Definition close_to (m : positive) (e : Z) (M : positive) (E : Z) : Prop :=
  1000000 * Z.abs (Zpos M * 2 ^ (E - Z.min e E) - Zpos m * 2 ^ (e - Z.min e E))
  <= Zpos m * 2 ^ (e - Z.min e E).

(** The entries the "lose" branch keeps, and what it makes of each. *)
Definition is_cardio_or_strength (x : gmap string value) : bool :=
  match x !! "type" with
  | Some (VStr t) => String.eqb t "cardio" || String.eqb t "strength"
  | _ => false
  end.

Definition duration_min (x : gmap string value) : Z :=
  match x !! "duration_min" with
  | Some (VInt n) => n
  | _ => 0
  end.

Definition lose_entry (x : gmap string value) : gmap string value :=
  <[ "note" := interval_note ]> (<[ "duration_min" := VInt (duration_min x + 10) ]> x).

(** What the loop of the "lose" branch needs of an entry: a type, and an
    integer duration when the type is kept. *)
Definition loop_ready (x : gmap string value) : Prop :=
  (exists t : value, x !! "type" = Some t) /\
  (is_cardio_or_strength x = true -> exists n : Z, x !! "duration_min" = Some (VInt n)).

(** [r] is [x] rounded to one decimal: an integral [x] itself, and otherwise
    the double nearest to [t / 10], for an integer [t] nearest to ten times
    the exact value of [x]. *)
Definition one_decimal_of (x r : float) : Prop :=
  match Prim2SF x with
  | S754_finite s m e =>
      if 0 <=? e then r = x
      else
        exists t : Z,
          0 <= t /\
          Z.abs (2 * (10 * Zpos m) - 2 * t * 2 ^ (- e)) <= 2 ^ (- e) /\
          r = SF2Prim
                match t with
                | Zpos k => SF64div (S754_finite s k 0) (S754_finite false 10 0)
                | _ => S754_zero s
                end
  | _ => r = x
  end.

(** ** Sample profiles *)

(** Height 170 cm, weight 70 kg, age 30, sex M. *)
Definition reference_profile (act g : string) : Profile :=
  mkProfile (Some 170%float) (Some 70%float) (Some 30) (Some "M") (Some act) (Some g).

(** What the profile form stores for a height typed as 1e-170 feet and a
    weight of 154 pounds. *)
Definition tiny_height_profile : Profile :=
  mkProfile (Some (ft_in_to_cm 1e-170 0)) (Some (lbs_to_kg 154)) (Some 30)
            (Some "M") (Some "moderately_active") (Some "maintain").

(** A profile whose age was never filled in. *)
Definition ageless_profile : Profile :=
  mkProfile (Some 170%float) (Some 70%float) None (Some "M") None None.

(** ** Float floor division and remainder *)

Module PyFloat.

(** C's [fmod]: the exact remainder of [x / y], with the sign of [x]. *)
Definition fmod (x y : float) : float :=
  match Prim2SF x, Prim2SF y with
  | S754_nan, _ | _, S754_nan => nan
  | S754_infinity _, _ => nan
  | _, S754_zero _ => nan
  | S754_zero _, _ => x
  | S754_finite _ _ _, S754_infinity _ => x
  | S754_finite sx mx ex, S754_finite sy my ey =>
      let e0 := Z.min ex ey in
      let r := (Zpos mx * 2 ^ (ex - e0)) mod (Zpos my * 2 ^ (ey - e0)) in
      SF2Prim (binary_normalize prec emax (cond_Zopp sx r) e0 sx)
  end.

(** C's [floor]. *)
Definition floor (x : float) : float :=
  match Prim2SF x with
  | S754_finite s m e =>
      if 0 <=? e then x
      else SF2Prim (binary_normalize prec emax (cond_Zopp s (Zpos m) / 2 ^ (- e)) 0 s)
  | _ => x
  end.

(** C's [copysign(0.0, y)]. *)
Definition copysign0 (y : float) : float := if get_sign y then neg_zero else zero.

(** The exact float of an [int] below [2^53]. *)
Definition of_int (n : Z) : float := SF2Prim (binary_normalize prec emax n 0 false).

(** [vx % wx] on floats. *)
Definition mod_ (vx wx : float) : result float :=
  if (wx =? 0)%float then Raise ZeroDivisionError
  else
    let md := fmod vx wx in
    Ok (if negb (md =? 0)%float
        then if xorb (wx <? 0)%float (md <? 0)%float then (md + wx)%float else md
        else copysign0 wx).

(** [vx // wx] on floats. *)
Definition floordiv (vx wx : float) : result float :=
  if (wx =? 0)%float then Raise ZeroDivisionError
  else
    let md := fmod vx wx in
    let div := ((vx - md) / wx)%float in
    let div := if negb (md =? 0)%float && xorb (wx <? 0)%float (md <? 0)%float
               then (div - 1)%float else div in
    Ok (if negb (div =? 0)%float
        then let fl := floor div in
             if (0.5 <? div - fl)%float then (fl + 1)%float else fl
        else copysign0 (vx / wx)%float).

End PyFloat.

(** ** The profile page *)

(** Lines 235-244: what a POST stores.  [ft], [inch], [lb] and [age_raw] are
    the form fields after [float(... or 0)] and [int(... or 0)]; the three
    strings are the raw fields, [None] when absent.  Every column is
    overwritten, so the result does not depend on the profile's old state. *)
Definition profile_update (ft inch lb : float) (age_raw : Z)
    (sex_raw activity_raw goal_raw : option string) : Profile :=
  mkProfile
    (if Py.float_truthy ft || Py.float_truthy inch
     then Some (ft_in_to_cm ft inch) else None)
    (if Py.float_truthy lb then Some (lbs_to_kg lb) else None)
    (if age_raw =? 0 then None else Some age_raw)
    (match Py.upper (Py.str_or sex_raw "") with
     | EmptyString => None
     | s => Some s
     end)
    (Some (Py.str_or activity_raw "moderately_active"))
    (Some (Py.str_or goal_raw "maintain")).

(** What the page hands to its template, lines 250-257; [None] stands for
    the empty string shown for a value that is not there. *)
Record ProfileView : Type := mkProfileView {
  view_metrics : Metrics;
  view_ft : option Z;
  view_inch : option float;
  view_lb : option float
}.

(** Lines 250-255 of [profile], the GET branch. *)
Definition profile_view (p : option Profile) : result ProfileView :=
  metrics ← calculate_metrics p;
  let inches :=
    match p with
    | Some p' =>
        match height_in p' with
        | Some h => if Py.float_truthy h then Some (h / 2.54)%float else None
        | None => None
        end
    | None => None
    end in
  let shown := match inches with
               | Some i => if Py.float_truthy i then Some i else None
               | None => None
               end in
  ft ← match shown with
       | Some i => q ← PyFloat.floordiv i 12; n ← Py.int q; Ok (Some n)
       | None => Ok None
       end;
  inch ← match shown with
         | Some i => r ← PyFloat.mod_ i 12; Ok (Some (Py.round1 r))
         | None => Ok None
         end;
  let lb :=
    match p with
    | Some p' =>
        match weight_lb p' with
        | Some w => if Py.float_truthy w then Some (Py.round1 (kg_to_lbs w)) else None
        | None => None
        end
    | None => None
    end in
  Ok (mkProfileView metrics ft inch lb).

(** A number typed with one decimal, [k / 10], as [float] reads it. *)
Definition decimal1 (k : Z) : float := (PyFloat.of_int k / 10)%float.

(** The integers [start], [start + 1], ..., [n] of them. *)
Fixpoint Zrange (n : nat) (start : Z) : list Z :=
  match n with
  | O => []
  | S n' => start :: Zrange n' (start + 1)
  end.

(** ** The dashboard *)

Module Entry.

(** The columns of [Entry] that the dashboard reads; a date is its
    proleptic Gregorian ordinal, and a NULL column is [None]. *)
Record t : Type := mk {
  user_id : Z;
  date : option Z;
  calories_in : option Z;
  calories_out : option Z
}.

End Entry.

(** The rows the query of lines 266-270 selects, in table order: those of
    the user dated [start] or later.  In SQL a NULL date satisfies no
    comparison.  The query then orders the rows by date, latest first; the
    order among equal dates is the database's. *)
Definition recent_rows (table : list Entry.t) (uid start : Z) : list Entry.t :=
  List.filter
    (fun e => (Entry.user_id e =? uid)
              && match Entry.date e with
                 | Some d => start <=? d
                 | None => false
                 end)
    table.

(** [x or 0] for a nullable integer column. *)
Definition int_or_0 (o : option Z) : Z :=
  match o with
  | Some n => n
  | None => 0
  end.

(** [[e for e in recent if e.date >= week_start]], line 273: comparing a
    missing date raises. *)
Fixpoint week_entries (week_start : Z) (recent : list Entry.t) : result (list Entry.t) :=
  match recent with
  | [] => Ok []
  | e :: recent' =>
      match Entry.date e with
      | None => Raise TypeError
      | Some d =>
          rest ← week_entries week_start recent';
          Ok (if week_start <=? d then e :: rest else rest)
      end
  end.

(** [sum] of integers. *)
Definition py_sum (xs : list Z) : Z := fold_left Z.add xs 0.

(** Lines 272-275: the week's totals, from today's ordinal and the rows the
    query returned.  The two subtractions of days are subtractions of
    ordinals; they stay within [date]'s range from 15 January of year 1
    on. *)
Definition week_totals (today : Z) (recent : list Entry.t) : result (Z * Z) :=
  let week_start := today - 6 in
  week ← week_entries week_start recent;
  Ok (py_sum (List.map (fun e => int_or_0 (Entry.calories_in e)) week),
      py_sum (List.map (fun e => int_or_0 (Entry.calories_out e)) week)).

(** The week's entries of a user, read off the whole table. *)
Definition in_week (uid today : Z) (e : Entry.t) : bool :=
  (Entry.user_id e =? uid)
  && match Entry.date e with
     | Some d => today - 6 <=? d
     | None => false
     end.

(** What the dashboard hands to its template, lines 278-285. *)
Record DashboardView : Type := mkDashboardView {
  dash_recent : list Entry.t;
  dash_week_in : Z;
  dash_week_out : Z;
  dash_metrics : Metrics;
  dash_recs : list (gmap string value)
}.

(** Lines 262-285 of [dashboard]; [recent] is the list the query of lines
    266-270 returned. *)
Definition dashboard (p : option Profile) (today : Z) (recent : list Entry.t)
  : result DashboardView :=
  metrics ← calculate_metrics p;
  week ← week_totals today recent;
  recs ← exercise_recommendations p;
  Ok (mkDashboardView recent (fst week) (snd week) metrics recs).

(** ** Definitions used by the further properties *)

(** The height check, for [f] feet and [k] tenths of an inch. *)
Definition height_comes_back (f k : Z) : bool :=
  let h := ft_in_to_cm (PyFloat.of_int f) (decimal1 k) in
  (Py.float_truthy (PyFloat.of_int f) || Py.float_truthy (decimal1 k))
  && Py.float_truthy h && Py.float_truthy (h / 2.54)%float
  && match PyFloat.floordiv (h / 2.54)%float 12, PyFloat.mod_ (h / 2.54)%float 12 with
     | Ok q, Ok r =>
         match Py.int q with
         | Ok n => (n =? f) && Leibniz.eqb (Py.round1 r) (decimal1 k)
         | Raise _ => false
         end
     | _, _ => false
     end.

(** The weight check, for [k] tenths of a pound. *)
Definition weight_comes_back (k : Z) : bool :=
  Py.float_truthy (decimal1 k) && Py.float_truthy (lbs_to_kg (decimal1 k))
  && Leibniz.eqb (Py.round1 (kg_to_lbs (lbs_to_kg (decimal1 k)))) (decimal1 k).

(** An entry a template can render: a name, a type, a duration of at least
    ten minutes, and either an intensity (a string) or a MET value (a
    float), not both. *)
Definition renderable (x : gmap string value) : bool :=
  match x !! "name", x !! "type", x !! "duration_min" with
  | Some (VStr _), Some (VStr _), Some (VInt n) =>
      (10 <=? n)
      && match x !! "intensity", x !! "met" with
         | Some (VStr _), None => true
         | None, Some (VFloat _) => true
         | _, _ => false
         end
  | _, _, _ => false
  end.

Definition has_note (x : gmap string value) : bool :=
  match x !! "note" with
  | Some (VStr _) => true
  | _ => false
  end.

(** A zero, or a normal double with its exponent between [L] and [U]. *)
Definition tame (L U : Z) (x : spec_float) : Prop :=
  match x with
  | S754_zero _ => True
  | S754_finite _ m e => 2 ^ 52 <= Zpos m < 2 ^ 53 /\ L <= e <= U
  | _ => False
  end.

(** The same on primitive floats. *)
Definition tamef (L U : Z) (x : float) : Prop := tame L U (Prim2SF x).

(** A literal is tame by evaluation. *)
Ltac tame_literal :=
  unfold tamef;
  match goal with
  | |- tame _ _ (Prim2SF ?c) =>
      let v := eval vm_compute in (Prim2SF c) in
      change (Prim2SF c) with v; cbn [tame]; lia
  end.

(** Inversion of one step of a successful computation. *)
Ltac bind_inv H x Hx :=
  match type of H with
  | mbind _ ?r = Ok _ =>
      destruct r as [x |] eqn:Hx; [cbn [mbind result_bind] in H | discriminate H]
  end.

(** * Correctly rounded operations in the normal range *)

Lemma digits2_pos_bounds (p : positive) :
  2 ^ (Zpos (digits2_pos p) - 1) <= Zpos p < 2 ^ Zpos (digits2_pos p).
Proof.
  induction p as [p IH | p IH |]; cbn [digits2_pos].
  - rewrite Pos2Z.inj_succ.
    replace (Z.succ (Zpos (digits2_pos p)) - 1) with (Z.succ (Zpos (digits2_pos p) - 1)) by lia.
    rewrite !Z.pow_succ_r by lia. lia.
  - rewrite Pos2Z.inj_succ.
    replace (Z.succ (Zpos (digits2_pos p)) - 1) with (Z.succ (Zpos (digits2_pos p) - 1)) by lia.
    rewrite !Z.pow_succ_r by lia. lia.
  - cbn. lia.
Qed.

Lemma digits2_pos_unique (p : positive) (d : Z) :
  0 < d -> 2 ^ (d - 1) <= Zpos p < 2 ^ d -> Zpos (digits2_pos p) = d.
Proof.
  intros Hd [Hlo Hhi].
  destruct (digits2_pos_bounds p) as [Hlo' Hhi'].
  set (k := Zpos (digits2_pos p)) in *.
  assert (0 < k) by (subst k; lia).
  destruct (Z.lt_trichotomy k d) as [Hlt | [Heq | Hgt]]; [| exact Heq |].
  - assert (2 ^ k <= 2 ^ (d - 1)) by (apply Z.pow_le_mono_r; lia). lia.
  - assert (2 ^ d <= 2 ^ (k - 1)) by (apply Z.pow_le_mono_r; lia). lia.
Qed.

Lemma shr_1_m (mrs : shr_record) :
  0 <= shr_m mrs -> shr_m (shr_1 mrs) = shr_m mrs / 2.
Proof.
  destruct mrs as [m r s]; cbn [shr_m]; intros Hm.
  destruct m as [| [p | p |] | p]; cbn [shr_1 shr_m]; try lia.
  - reflexivity.
  - rewrite Pos2Z.inj_xI. apply Z.div_unique with (r := 1); lia.
  - rewrite Pos2Z.inj_xO. apply Z.div_unique with (r := 0); lia.
  - reflexivity.
Qed.

Lemma pow2_xO (p : positive) : 2 ^ Zpos p~0 = 2 ^ Zpos p * 2 ^ Zpos p.
Proof. rewrite <- Z.pow_add_r by lia. f_equal. lia. Qed.

Lemma pow2_xI (p : positive) : 2 ^ Zpos p~1 = 2 * (2 ^ Zpos p * 2 ^ Zpos p).
Proof.
  rewrite <- Z.pow_add_r, <- Z.pow_succ_r by lia. f_equal. lia.
Qed.

Lemma iter_pos_shr_1_m (p : positive) (mrs : shr_record) :
  0 <= shr_m mrs ->
  shr_m (SpecFloat.iter_pos shr_1 p mrs) = shr_m mrs / 2 ^ Zpos p.
Proof.
  revert mrs.
  induction p as [p IH | p IH |]; intros mrs Hm; cbn [SpecFloat.iter_pos].
  - assert (H1 : 0 <= shr_m (shr_1 mrs)) by (rewrite shr_1_m by lia; apply Z.div_pos; lia).
    assert (H2 : 0 <= shr_m (SpecFloat.iter_pos shr_1 p (shr_1 mrs)))
      by (rewrite IH by lia; apply Z.div_pos; lia).
    rewrite IH, IH, shr_1_m by lia.
    rewrite !Z.div_div by lia.
    rewrite pow2_xI. reflexivity.
  - assert (H2 : 0 <= shr_m (SpecFloat.iter_pos shr_1 p mrs))
      by (rewrite IH by lia; apply Z.div_pos; lia).
    rewrite IH, IH by lia.
    rewrite Z.div_div by lia.
    rewrite pow2_xO. reflexivity.
  - rewrite shr_1_m by lia. reflexivity.
Qed.

Lemma round_nearest_even_cases (m : Z) (l : location) :
  round_nearest_even m l = m \/ round_nearest_even m l = m + 1.
Proof.
  destruct l as [| []]; cbn; auto. destruct (Z.even m); auto.
Qed.

Lemma shr_record_of_loc_m (m : Z) (l : location) :
  shr_m (shr_record_of_loc m l) = m.
Proof. destruct l as [| []]; reflexivity. Qed.

(** With at least [prec] digits and in the normal range, [shr_fexp] drops
    the digits beyond the 53rd. *)
Lemma shr_fexp_m (m : positive) (e : Z) (l : location) :
  53 <= Zpos (digits2_pos m) ->
  -1074 <= Zpos (digits2_pos m) + e - 53 ->
  exists mrs,
    shr_fexp prec emax (Zpos m) e l = (mrs, e + (Zpos (digits2_pos m) - 53)) /\
    shr_m mrs = Zpos m / 2 ^ (Zpos (digits2_pos m) - 53).
Proof.
  intros Hd He.
  unfold shr_fexp, fexp, SpecFloat.emin, Zdigits2, prec, emax.
  rewrite Z.max_l by lia.
  replace (Zpos (digits2_pos m) + e - 53 - e) with (Zpos (digits2_pos m) - 53) by lia.
  destruct (Zpos (digits2_pos m) - 53) as [| p | p] eqn:Hp; [| | lia]; cbn [shr].
  - eexists; split; [f_equal; lia |].
    rewrite shr_record_of_loc_m, Z.pow_0_r, Z.div_1_r; reflexivity.
  - eexists; split; [reflexivity |].
    rewrite iter_pos_shr_1_m; rewrite shr_record_of_loc_m; [reflexivity | lia].
Qed.

(** The second pass of [binary_round_aux]: a mantissa that rounding carried
    to [2^53] is renormalised, any other is kept. *)
Lemma renormalise (sx : bool) (q : positive) (e1 : Z) :
  2 ^ 52 <= Zpos q <= 2 ^ 53 -> -1074 <= e1 -> e1 + 1 <= 971 ->
  exists (M : positive) (E : Z),
    (let '(mrs, e2) := shr_fexp prec emax (Zpos q) e1 loc_Exact in
     match shr_m mrs with
     | 0 => S754_zero sx
     | Zpos m => if e2 <=? emax - prec then S754_finite sx m e2 else S754_infinity sx
     | Zneg _ => S754_nan
     end) = S754_finite sx M E /\
    2 ^ 52 <= Zpos M < 2 ^ 53 /\
    e1 <= E <= e1 + 1 /\
    Zpos M * 2 ^ (E - e1) = Zpos q.
Proof.
  intros Hq Hlo Hhi.
  destruct (Z.eq_dec (Zpos q) (2 ^ 53)) as [Heq | Hne].
  - assert (Dq : Zpos (digits2_pos q) = 54) by (apply digits2_pos_unique; lia).
    destruct (shr_fexp_m q e1 loc_Exact) as (mrs2 & Hshr2 & Hm2); try lia.
    rewrite Hshr2, Hm2, Dq, Heq.
    change (2 ^ 53 / 2 ^ (54 - 53)) with (Zpos (2 ^ 52)).
    replace (e1 + (54 - 53) <=? emax - prec) with true
      by (symmetry; apply Z.leb_le; unfold emax, prec; lia).
    exists (2 ^ 52)%positive, (e1 + (54 - 53)).
    split; [reflexivity |].
    replace (e1 + (54 - 53) - e1) with 1 by lia.
    repeat split; try lia.
  - assert (Dq : Zpos (digits2_pos q) = 53) by (apply digits2_pos_unique; lia).
    destruct (shr_fexp_m q e1 loc_Exact) as (mrs2 & Hshr2 & Hm2); try lia.
    rewrite Hshr2, Hm2, Dq.
    change (2 ^ (53 - 53)) with 1. rewrite Z.div_1_r.
    replace (e1 + (53 - 53) <=? emax - prec) with true
      by (symmetry; apply Z.leb_le; unfold emax, prec; lia).
    exists q, (e1 + (53 - 53)).
    split; [reflexivity |].
    replace (e1 + (53 - 53) - e1) with 0 by lia.
    repeat split; try lia.
Qed.

(** Faithful rounding: in the normal range [binary_round_aux] returns one of
    the two doubles around the value it is given. *)
Lemma binary_round_aux_faithful (sx : bool) (mx : positive) (ex : Z) (l : location) :
  53 <= Zpos (digits2_pos mx) ->
  -1074 <= Zpos (digits2_pos mx) + ex - 53 ->
  Zpos (digits2_pos mx) + ex <= 1023 ->
  exists (M : positive) (E : Z),
    binary_round_aux prec emax sx (Zpos mx) ex l = S754_finite sx M E /\
    2 ^ 52 <= Zpos M < 2 ^ 53 /\
    Zpos (digits2_pos mx) + ex - 53 <= E <= Zpos (digits2_pos mx) + ex - 52 /\
    (Zpos M - 1) * 2 ^ (E - ex) <= Zpos mx /\
    Zpos mx + 1 <= (Zpos M + 1) * 2 ^ (E - ex).
Proof.
  intros Hd Hlo Hhi.
  destruct (shr_fexp_m mx ex l Hd Hlo) as (mrs & Hshr & Hm).
  destruct (digits2_pos_bounds mx) as [Bl Bh].
  set (d := Zpos (digits2_pos mx)) in *.
  set (p := d - 53) in *.
  assert (Hp : 0 <= p) by (subst p; lia).
  assert (P0 : 0 < 2 ^ p) by (apply Z.pow_pos_nonneg; lia).
  assert (Pl : 2 ^ (d - 1) = 2 ^ 52 * 2 ^ p)
    by (rewrite <- Z.pow_add_r by lia; f_equal; subst p; lia).
  assert (Ph : 2 ^ d = 2 ^ 53 * 2 ^ p)
    by (rewrite <- Z.pow_add_r by lia; f_equal; subst p; lia).
  assert (Hdm := Z.div_mod (Zpos mx) (2 ^ p) ltac:(lia)).
  assert (Hmod := Z.mod_pos_bound (Zpos mx) (2 ^ p) P0).
  rewrite <- Hm in Hdm.
  assert (M1 : 2 ^ 52 <= shr_m mrs < 2 ^ 53) by nia.
  unfold binary_round_aux. rewrite Hshr. cbv beta iota.
  set (e1 := ex + p) in *.
  set (m2 := round_nearest_even (shr_m mrs) (loc_of_shr_record mrs)).
  assert (R : m2 = shr_m mrs \/ m2 = shr_m mrs + 1)
    by apply round_nearest_even_cases.
  clearbody m2.
  destruct m2 as [| q | q]; try lia.
  destruct (renormalise sx q e1) as (M & E & HE & HM & HEe & Hval);
    [lia | subst e1 p; lia | subst e1 p; lia |].
  exists M, E. split; [exact HE |]. split; [exact HM |].
  split; [subst e1 p; lia |].
  replace (E - ex) with ((E - e1) + p) by (subst e1; lia).
  rewrite Z.pow_add_r by lia.
  assert (K1 : 1 <= 2 ^ (E - e1)) by (apply (Z.pow_le_mono_r 2 0); lia).
  set (K := 2 ^ (E - e1)) in *. set (P := 2 ^ p) in *.
  split; nia.
Qed.

Lemma SFmul_faithful (mx my : positive) (ex ey : Z) :
  2 ^ 52 <= Zpos mx < 2 ^ 53 -> 2 ^ 52 <= Zpos my < 2 ^ 53 ->
  -1126 <= ex + ey <= 917 ->
  exists (M : positive) (E : Z),
    SFmul prec emax (S754_finite false mx ex) (S754_finite false my ey)
    = S754_finite false M E /\
    2 ^ 52 <= Zpos M < 2 ^ 53 /\
    ex + ey + 52 <= E <= ex + ey + 54 /\
    (Zpos M - 1) * 2 ^ (E - (ex + ey)) <= Zpos mx * Zpos my /\
    Zpos mx * Zpos my + 1 <= (Zpos M + 1) * 2 ^ (E - (ex + ey)).
Proof.
  intros Hx Hy He. cbn [SFmul xorb].
  destruct (digits2_pos_bounds (mx * my)) as [Bl Bh].
  rewrite Pos2Z.inj_mul in Bl, Bh.
  assert (D : 105 <= Zpos (digits2_pos (mx * my)) <= 106).
  { set (d := Zpos (digits2_pos (mx * my))) in *.
    assert (2 ^ 104 <= Zpos mx * Zpos my < 2 ^ 106) by nia.
    split.
    - destruct (Z_lt_le_dec d 105) as [Hlt |]; [| assumption].
      assert (2 ^ d <= 2 ^ 104) by (apply Z.pow_le_mono_r; lia). lia.
    - destruct (Z_lt_le_dec 106 d) as [Hlt |]; [| assumption].
      assert (2 ^ 106 <= 2 ^ (d - 1)) by (apply Z.pow_le_mono_r; lia). lia. }
  destruct (binary_round_aux_faithful false (mx * my) (ex + ey) loc_Exact)
    as (M & E & HE & HM & HEe & Hl & Hh); try lia.
  rewrite Pos2Z.inj_mul in Hl, Hh.
  exists M, E. repeat split; try assumption; lia.
Qed.

Lemma SFdiv_faithful (mx my : positive) (ex ey : Z) :
  2 ^ 52 <= Zpos mx < 2 ^ 53 -> 2 ^ 52 <= Zpos my < 2 ^ 53 ->
  -1021 <= ex - ey <= 1022 ->
  exists (M : positive) (E : Z),
    SFdiv prec emax (S754_finite false mx ex) (S754_finite false my ey)
    = S754_finite false M E /\
    2 ^ 52 <= Zpos M < 2 ^ 53 /\
    ex - ey - 53 <= E <= ex - ey - 51 /\
    (Zpos M - 1) * 2 ^ (E - (ex - ey - 53)) * Zpos my <= Zpos mx * 2 ^ 53 /\
    Zpos mx * 2 ^ 53 < (Zpos M + 1) * 2 ^ (E - (ex - ey - 53)) * Zpos my.
Proof.
  intros Hx Hy He. cbn [SFdiv xorb]. unfold SFdiv_core_binary, Zdigits2.
  rewrite (digits2_pos_unique mx 53), (digits2_pos_unique my 53) by lia.
  unfold fexp, SpecFloat.emin, prec, emax.
  replace (Z.min (Z.max (53 + ex - (53 + ey) - 53) (3 - 1024 - 53)) (ex - ey))
    with (ex - ey - 53) by lia.
  replace (ex - ey - (ex - ey - 53)) with 53 by lia.
  cbv iota. rewrite Z.shiftl_mul_pow2 by lia.
  assert (Hdiv := Z_div_mod (Zpos mx * 2 ^ 53) (Zpos my) ltac:(lia)).
  destruct (Z.div_eucl (Zpos mx * 2 ^ 53) (Zpos my)) as [q r].
  destruct Hdiv as [Hq Hr].
  assert (Q : 2 ^ 52 <= q < 2 ^ 54) by nia.
  destruct q as [| q | q]; try lia.
  destruct (digits2_pos_bounds q) as [Bl Bh].
  assert (D : 53 <= Zpos (digits2_pos q) <= 54).
  { set (d := Zpos (digits2_pos q)) in *.
    split.
    - destruct (Z_lt_le_dec d 53) as [Hlt |]; [| assumption].
      assert (2 ^ d <= 2 ^ 52) by (apply Z.pow_le_mono_r; lia). lia.
    - destruct (Z_lt_le_dec 54 d) as [Hlt |]; [| assumption].
      assert (2 ^ 54 <= 2 ^ (d - 1)) by (apply Z.pow_le_mono_r; lia). lia. }
  destruct (binary_round_aux_faithful false q (ex - ey - 53) (new_location (Zpos my) r))
    as (M & E & HE & HM & HEe & Hl & Hh); try lia.
  exists M, E. split; [exact HE |]. split; [exact HM |]. split; [lia |].
  set (K := 2 ^ (E - (ex - ey - 53))) in *.
  assert (0 < K) by (apply Z.pow_pos_nonneg; lia).
  split; nia.
Qed.

(** * A conversion and its inverse *)

Section RoundTrip.

(** The conversion factor: a normal double [C * 2^ec]. *)
Variables (C : positive) (ec : Z).
Hypothesis C_normal : 2 ^ 52 <= Zpos C < 2 ^ 53.
Hypothesis ec_range : -60 <= ec <= -40.

Variables (m : positive) (e : Z).
Hypothesis m_normal : 2 ^ 52 <= Zpos m < 2 ^ 53.
Hypothesis e_range : -1060 <= e <= 950.

(** Both round trips end within two roundings of where they started:
    [T] is the start and [X] the end, on a common scale. *)
Lemma close_of_scaled (M : positive) (E k : Z) :
  0 <= k -> E - e = k - 53 ->
  1000000 * Z.abs (Zpos M * 2 ^ k - Zpos m * 2 ^ 53) <= Zpos m * 2 ^ 53 ->
  close_to m e M E.
Proof.
  intros Hk HE Hs. unfold close_to.
  set (e0 := Z.min e E).
  assert (Ha : 0 <= E - e0) by (subst e0; lia).
  assert (Hb : 0 <= e - e0) by (subst e0; lia).
  assert (Hpow : 2 ^ k * 2 ^ (e - e0) = 2 ^ 53 * 2 ^ (E - e0))
    by (rewrite <- !Z.pow_add_r by lia; f_equal; lia).
  assert (Pb : 0 < 2 ^ (e - e0)) by (apply Z.pow_pos_nonneg; lia).
  assert (Pa : 0 < 2 ^ (E - e0)) by (apply Z.pow_pos_nonneg; lia).
  set (X := Zpos M * 2 ^ (E - e0)). set (Y := Zpos m * 2 ^ (e - e0)).
  assert (HX : Zpos M * 2 ^ k * 2 ^ (e - e0) = X * 2 ^ 53) by (subst X; nia).
  assert (HY : Zpos m * 2 ^ 53 * 2 ^ (e - e0) = Y * 2 ^ 53) by (subst Y; nia).
  assert (Hs' : 1000000 * Z.abs (X * 2 ^ 53 - Y * 2 ^ 53) <= Y * 2 ^ 53).
  { rewrite <- HX, <- HY.
    replace (Zpos M * 2 ^ k * 2 ^ (e - e0) - Zpos m * 2 ^ 53 * 2 ^ (e - e0))
      with ((Zpos M * 2 ^ k - Zpos m * 2 ^ 53) * 2 ^ (e - e0)) by ring.
    rewrite Z.abs_mul, (Z.abs_eq (2 ^ (e - e0))) by lia.
    nia. }
  lia.
Qed.

(** Two faithful roundings in a row, on a common scale: [P] is within
    [u1 <= P / 2^52] of [T], and [Q] within [u2 <= Q / 2^52] of [P]. *)
Lemma two_roundings (T P Q u1 u2 : Z) :
  P - u1 <= T <= P + u1 -> Q - u2 <= P <= Q + u2 ->
  2 ^ 52 * u1 <= P -> 2 ^ 52 * u2 <= Q -> 0 <= u1 -> 0 <= u2 ->
  1000000 * Z.abs (Q - T) <= T.
Proof. lia. Qed.

Lemma SF_div_mul_close :
  exists (M : positive) (E : Z),
    SFmul prec emax
      (SFdiv prec emax (S754_finite false m e) (S754_finite false C ec))
      (S754_finite false C ec)
    = S754_finite false M E /\ close_to m e M E.
Proof.
  destruct (SFdiv_faithful m C e ec) as (Mq & Eq_ & Hq & HMq & HEq & Lq & Uq);
    try lia.
  rewrite Hq.
  destruct (SFmul_faithful Mq C Eq_ ec) as (M & E & HM & HMM & HE & Lm & Um);
    try lia.
  exists M, E. split; [exact HM |].
  set (k1 := Eq_ - (e - ec - 53)) in *. set (k2 := E - (Eq_ + ec)) in *.
  apply (close_of_scaled M E (k1 + k2)); [lia | lia |].
  rewrite Z.pow_add_r by lia.
  assert (A0 : 0 < 2 ^ k1) by (apply Z.pow_pos_nonneg; lia).
  assert (B0 : 0 < 2 ^ k2) by (apply Z.pow_pos_nonneg; lia).
  set (A := 2 ^ k1) in *. set (B := 2 ^ k2) in *.
  apply (two_roundings _ (Zpos Mq * (A * Zpos C)) _ (A * Zpos C) (A * B)); nia.
Qed.

Lemma SF_mul_div_close :
  exists (M : positive) (E : Z),
    SFdiv prec emax
      (SFmul prec emax (S754_finite false m e) (S754_finite false C ec))
      (S754_finite false C ec)
    = S754_finite false M E /\ close_to m e M E.
Proof.
  destruct (SFmul_faithful m C e ec) as (Mp & Ep & Hp & HMp & HEp & Lp & Up);
    try lia.
  rewrite Hp.
  destruct (SFdiv_faithful Mp C Ep ec) as (M & E & HM & HMM & HE & Ld & Ud);
    try lia.
  exists M, E. split; [exact HM |].
  set (k1 := Ep - (e + ec)) in *. set (k2 := E - (Ep - ec - 53)) in *.
  apply (close_of_scaled M E (k1 + k2)); [lia | lia |].
  rewrite Z.pow_add_r by lia.
  assert (A0 : 0 < 2 ^ k1) by (apply Z.pow_pos_nonneg; lia).
  assert (B0 : 0 < 2 ^ k2) by (apply Z.pow_pos_nonneg; lia).
  set (A := 2 ^ k1) in *. set (B := 2 ^ k2) in *.
  assert (HC : 1000000 * Z.abs (Zpos M * (A * B * Zpos C) - Zpos m * Zpos C * 2 ^ 53)
               <= Zpos m * Zpos C * 2 ^ 53)
    by (apply (two_roundings _ (Zpos Mp * (A * 2 ^ 53)) _ (A * 2 ^ 53) (A * B * Zpos C));
        nia).
  replace (Zpos M * (A * B * Zpos C) - Zpos m * Zpos C * 2 ^ 53)
    with ((Zpos M * (A * B) - Zpos m * 2 ^ 53) * Zpos C) in HC by ring.
  rewrite Z.abs_mul, (Z.abs_eq (Zpos C)) in HC by lia.
  nia.
Qed.

End RoundTrip.

(** * Primitive floats in the normal range *)

(** A double between two positive normal doubles is positive and normal,
    with an exponent between theirs. *)
Lemma normal_between (lo hi v : float) (mlo mhi : positive) (elo ehi : Z) :
  Prim2SF lo = S754_finite false mlo elo ->
  Prim2SF hi = S754_finite false mhi ehi ->
  -1074 < elo ->
  (lo <=? v)%float = true -> (v <=? hi)%float = true ->
  exists (m : positive) (e : Z),
    Prim2SF v = S754_finite false m e /\
    2 ^ 52 <= Zpos m < 2 ^ 53 /\ elo <= e <= ehi.
Proof.
  intros Hlo Hhi Helo L U.
  rewrite leb_spec in L, U. rewrite Hlo in L. rewrite Hhi in U.
  assert (V := Prim2SF_valid v).
  destruct (Prim2SF v) as [s | s | | s m e]; try discriminate.
  - destruct s; discriminate.
  - unfold SFleb, SFcompare in L, U.
    destruct s; [discriminate |].
    assert (Le : elo <= e)
      by (destruct (Z.compare_spec elo e); [lia | lia | discriminate]).
    assert (Ue : e <= ehi)
      by (destruct (Z.compare_spec e ehi); [lia | lia | discriminate]).
    exists m, e. split; [reflexivity |]. split; [| lia].
    cbn [SpecFloat.valid_binary] in V. unfold bounded, canonical_mantissa in V.
    apply andb_prop in V. destruct V as [V _]. apply Z.eqb_eq in V.
    unfold fexp, SpecFloat.emin, prec, emax in V.
    assert (D : Zpos (digits2_pos m) = 53) by lia.
    destruct (digits2_pos_bounds m) as [Bl Bh]. rewrite D in Bl, Bh.
    change (53 - 1) with 52 in Bl. lia.
Qed.


(** * Python's rounding primitives *)

Lemma cond_Zopp_mul (s : bool) (a b : Z) : cond_Zopp s (a * b) = cond_Zopp s a * b.
Proof. destruct s; cbn [cond_Zopp]; ring. Qed.

(** Below the binary point, [round_half_even_mag] is within one half. *)
Lemma round_half_even_mag_nearest (m e : Z) :
  0 <= m -> e < 0 ->
  0 <= Py.round_half_even_mag m e /\
  Z.abs (2 * m - 2 * Py.round_half_even_mag m e * 2 ^ (- e)) <= 2 ^ (- e).
Proof.
  intros Hm He. unfold Py.round_half_even_mag.
  replace (0 <=? e) with false by (symmetry; apply Z.leb_gt; exact He).
  cbv zeta.
  assert (D : 0 < 2 ^ (- e)) by (apply Z.pow_pos_nonneg; lia).
  assert (Hdm := Z.div_mod m (2 ^ (- e)) ltac:(lia)).
  assert (Hmod := Z.mod_pos_bound m (2 ^ (- e)) D).
  assert (Hq : 0 <= m / 2 ^ (- e)) by (apply Z.div_pos; lia).
  set (d := 2 ^ (- e)) in *. set (q := m / d) in *. set (r := m mod d) in *.
  destruct (Z.compare_spec (2 * r) d) as [E | E | E];
    [destruct (Z.even q) | |]; split; nia.
Qed.

(** [round(x)] returns a nearest integer. *)
Lemma round_is_nearest (x : float) (n : Z) : Py.round x = Ok n -> nearest_int x n.
Proof.
  unfold Py.round, nearest_int.
  destruct (Prim2SF x) as [s | s | | s m e]; intros H; inversion H; subst; clear H.
  - reflexivity.
  - cbv zeta. destruct (0 <=? e) eqn:He.
    + unfold Py.round_half_even_mag. rewrite He. apply cond_Zopp_mul.
    + apply Z.leb_gt in He.
      destruct (round_half_even_mag_nearest (Zpos m) e) as [_ Hn]; [lia | lia |].
      destruct s; cbn [cond_Zopp]; lia.
Qed.

(** [round(x, 1)] rounds to one decimal. *)
Lemma round1_one_decimal (x : float) : one_decimal_of x (Py.round1 x).
Proof.
  unfold one_decimal_of, Py.round1.
  destruct (Prim2SF x) as [s | s | | s m e]; try reflexivity.
  destruct (0 <=? e) eqn:He; [reflexivity |].
  apply Z.leb_gt in He.
  destruct (round_half_even_mag_nearest (10 * Zpos m) e) as [Ht Hn]; [lia | lia |].
  exists (Py.round_half_even_mag (10 * Zpos m) e).
  split; [exact Ht |]. split; [exact Hn |].
  destruct (Py.round_half_even_mag (10 * Zpos m) e) as [| k | k]; try lia.
  - destruct s; reflexivity.
  - reflexivity.
Qed.

(** [int(x)] drops the fraction. *)
Lemma int_is_truncation (x : float) (n : Z) : Py.int x = Ok n -> truncation x n.
Proof.
  unfold Py.int, truncation.
  destruct (Prim2SF x) as [s | s | | s m e]; intros H; inversion H; subst; clear H.
  - reflexivity.
  - destruct (0 <=? e) eqn:He.
    + apply Z.leb_le in He. rewrite Z.shiftl_mul_pow2 by lia. reflexivity.
    + apply Z.leb_gt in He. rewrite Z.shiftl_div_pow2 by lia.
      assert (D : 0 < 2 ^ (- e)) by (apply Z.pow_pos_nonneg; lia).
      assert (Hdm := Z.div_mod (Zpos m) (2 ^ (- e)) ltac:(lia)).
      assert (Hmod := Z.mod_pos_bound (Zpos m) (2 ^ (- e)) D).
      exists (Zpos m / 2 ^ (- e)). split; [reflexivity | nia].
Qed.

(** * The metrics calculator *)

Section Calculator.

Lemma pow2_ok (x y : float) : Py.pow2 x = Ok y -> y = (x * x)%float.
Proof.
  unfold Py.pow2. destruct (is_finite x && is_infinity (x * x)); [discriminate |].
  intros H; inversion H; reflexivity.
Qed.

Lemma truediv_ok (x y q : float) :
  Py.truediv x y = Ok q -> q = (x / y)%float /\ (y =? 0)%float = false.
Proof.
  unfold Py.truediv. destruct (y =? 0)%float; [discriminate |].
  intros H; inversion H; split; reflexivity.
Qed.

(** A profile with the four guarded columns present. *)
Variables (h w : float) (a : Z) (sx : string) (act g : option string).

Lemma calculate_metrics_complete :
  complete (mkProfile (Some h) (Some w) (Some a) (Some sx) act g) = true ->
  calculate_metrics (Some (mkProfile (Some h) (Some w) (Some a) (Some sx) act g))
  = metrics_of h w a sx act g.
Proof. intros Hc. cbn [calculate_metrics height_in weight_lb age sex activity goal]. rewrite Hc. reflexivity. Qed.

(** What a successful run has computed, step by step. *)
Lemma metrics_of_ok (m : Metrics) :
  metrics_of h w a sx act g = Ok m ->
  exists (b : float) (t rb rt : Z),
    (cm_to_m h * cm_to_m h =? 0)%float = false /\
    bmr_float w h a (Py.upper sx) = Ok b /\
    target_of (goal_is_lose g) b (b * activity_multiplier act)%float = Ok t /\
    Py.round b = Ok rb /\
    Py.round (b * activity_multiplier act)%float = Ok rt /\
    m = mkMetrics (Some (Py.round1 (w / (cm_to_m h * cm_to_m h))%float))
                  (Some rb) (Some rt) (Some t).
Proof.
  unfold metrics_of. intros H.
  bind_inv H h2 Hh2. bind_inv H q Hq. bind_inv H b Hb.
  bind_inv H t Ht. bind_inv H rb Hrb. bind_inv H rt Hrt.
  apply pow2_ok in Hh2. subst h2.
  apply truediv_ok in Hq. destruct Hq as [-> Hz].
  inversion H; subst m.
  exists b, t, rb, rt. repeat split; assumption.
Qed.

Lemma bmr_float_ok (s : string) (b : float) :
  bmr_float w h a s = Ok b ->
  exists a5 : float,
    Py.int_to_float (5 * a) = Ok a5 /\
    b = (10 * w + 6.25 * h - a5 + (if String.eqb s "M" then 5 else -161))%float.
Proof.
  unfold bmr_float. intros H. bind_inv H a5 Ha5.
  inversion H. exists a5. split; reflexivity.
Qed.

(** [round] and [int] succeed on every finite double. *)
Lemma round_returns (x : float) :
  is_Some (finite_parts x) -> exists n : Z, Py.round x = Ok n.
Proof.
  unfold finite_parts, Py.round.
  destruct (Prim2SF x); intros [y Hy]; try discriminate Hy; eexists; reflexivity.
Qed.

Lemma int_returns (x : float) :
  is_Some (finite_parts x) -> exists n : Z, Py.int x = Ok n.
Proof.
  unfold finite_parts, Py.int.
  destruct (Prim2SF x); intros [y Hy]; try discriminate Hy; eexists; reflexivity.
Qed.

(** The run succeeds as soon as the squared height neither overflows nor
    vanishes and the BMR, the TDEE and the TDEE less 500 are finite. *)
Lemma metrics_of_returns (h2 b : float) :
  Py.pow2 (cm_to_m h) = Ok h2 ->
  (h2 =? 0)%float = false ->
  bmr_float w h a (Py.upper sx) = Ok b ->
  is_Some (finite_parts b) ->
  is_Some (finite_parts (b * activity_multiplier act)%float) ->
  is_Some (finite_parts (b * activity_multiplier act - 500)%float) ->
  exists m : Metrics, metrics_of h w a sx act g = Ok m.
Proof.
  intros Hp Hz Hb Fb Ft Fd.
  unfold metrics_of, Py.truediv. rewrite Hp. cbn [mbind result_bind].
  rewrite Hz, Hb. cbn [mbind result_bind].
  destruct (round_returns _ Fb) as [rb Hrb].
  destruct (round_returns _ Ft) as [rt Hrt].
  destruct (round_returns _ Fd) as [rd Hrd].
  destruct (int_returns _ Fb) as [tb Htb].
  unfold target_of.
  destruct (goal_is_lose g);
    rewrite ?Hrd, ?Htb, ?Hrt, ?Hrb; cbn [mbind result_bind];
    rewrite ?Hrd, ?Htb, ?Hrt, ?Hrb; cbn [mbind result_bind];
    eexists; reflexivity.
Qed.

End Calculator.

(** The guard passes exactly when nothing is missing or zero. *)
Lemma complete_iff_sufficient (p : Profile) :
  complete p = true <-> ~ insufficient (Some p).
Proof.
  destruct p as [[h |] [w |] [a |] [s |] act g];
    unfold complete, insufficient, Py.float_truthy;
    cbn [height_in weight_lb age sex falsy_float falsy_int falsy_str];
    try (split; [discriminate | intros H; exfalso; apply H; tauto]).
  rewrite !andb_true_iff, !negb_true_iff, Z.eqb_neq.
  split.
  - intros [[[Hh Hw] Ha] Hs] [H | [H | [H | H]]]; try congruence.
    subst s. discriminate Hs.
  - intros H. repeat split.
    + destruct (h =? 0)%float; [exfalso; apply H; tauto | reflexivity].
    + destruct (w =? 0)%float; [exfalso; apply H; tauto | reflexivity].
    + intros ->. apply H; tauto.
    + destruct (String.eqb_spec s ""); [exfalso; apply H; tauto | reflexivity].
Qed.

(** * Claims about [calculate_metrics] *)

(** C1.  With goal "lose" the guardrail of line 126 is [int(bmr)], the
    unrounded BMR with its fraction dropped, not [round(bmr)].  For height
    170 cm, weight 70 kg, age 30, sex M, activity sedentary, the BMR is
    1617.5: the target comes out as 1617, below that BMR and below the 1618
    reported in the [bmr] field of the same result. *)
Theorem guardrail_truncates_bmr :
  calculate_metrics (Some (reference_profile "sedentary" "lose"))
  = Ok (mkMetrics (Some 24.2%float) (Some 1618) (Some 1941) (Some 1617)) /\
  bmr_float 70 170 30 "M" = Ok 1617.5%float /\
  Py.round (1617.5 * 1.2 - 500)%float = Ok 1441 /\
  Z.max 1441 1618 = 1618 /\
  1617 < 1618.
Proof. repeat split; vm_compute; reflexivity. Qed.

(** C2, amended.  When the profile is absent, or one of height, weight, age
    and sex is missing or zero, the result is a [Metrics] with its four
    fields unknown, and nothing is raised. *)
Theorem insufficient_profile_unknown (profile : option Profile) :
  insufficient profile ->
  exists m : Metrics,
    calculate_metrics profile = Ok m /\
    bmi m = None /\ bmr m = None /\ tdee m = None /\ target_calories m = None.
Proof.
  intros H. exists unknown_metrics.
  split; [| repeat split].
  destruct profile as [p |]; [| reflexivity].
  destruct p as [[h |] [w |] [a |] [s |] act g]; try reflexivity.
  cbn [calculate_metrics height_in weight_lb age sex activity goal].
  replace (complete _) with false; [reflexivity |].
  symmetry. unfold complete, Py.float_truthy.
  cbn [height_in weight_lb age sex].
  cbn [insufficient falsy_float falsy_int falsy_str height_in weight_lb age sex] in H.
  destruct H as [H | [H | [H | H]]].
  - rewrite H. reflexivity.
  - rewrite H. cbn [negb]. rewrite andb_false_r. reflexivity.
  - subst a. cbn. rewrite !andb_false_r. reflexivity.
  - subst s. cbn. rewrite !andb_false_r. reflexivity.
Qed.

Lemma insufficient_profile_unknown_witness :
  exists m : Metrics,
    calculate_metrics (Some ageless_profile) = Ok m /\
    bmi m = None /\ bmr m = None /\ tdee m = None /\ target_calories m = None.
Proof.
  apply (insufficient_profile_unknown (Some ageless_profile)).
  right; right; left. exact I.
Defined.

(** C2 as stated fails: a complete profile can make the calculator raise.
    A height typed as 1e-170 feet is stored as a non-zero number of
    centimetres, passes the guard, and its square in metres underflows to
    zero: the BMI division raises [ZeroDivisionError]. *)
Lemma tiny_height_raises :
  complete tiny_height_profile = true /\
  calculate_metrics (Some tiny_height_profile) = Raise ZeroDivisionError.
Proof. split; vm_compute; reflexivity. Qed.

(** C3, amended.  For height 170 cm, weight 70 kg, age 30, sex M, activity
    moderately_active, goal maintain: the BMR is 10*70 + 6.25*170 - 5*30 + 5
    = 1617.5, reported as 1618; the TDEE is round(1617.5 * 1.55) = 2507; the
    target is that TDEE. *)
Theorem reference_profile_metrics :
  calculate_metrics (Some (reference_profile "moderately_active" "maintain"))
  = Ok (mkMetrics (Some 24.2%float) (Some 1618) (Some 2507) (Some 2507)) /\
  bmr_float 70 170 30 "M" = Ok 1617.5%float /\
  (1617.5 * 1.55)%float = 2507.125%float.
Proof. repeat split; vm_compute; reflexivity. Qed.

(** C3 as stated fails: on that profile the [bmr] field is not 1674 and the
    [tdee] field is not 2595. *)
Lemma reference_profile_not_1674 :
  exists m : Metrics,
    calculate_metrics (Some (reference_profile "moderately_active" "maintain")) = Ok m /\
    bmr m <> Some 1674 /\ tdee m <> Some 2595.
Proof.
  eexists. split; [vm_compute; reflexivity |].
  split; discriminate.
Qed.

(** C4.  For a complete profile, the [bmr] field is the float
    [10*w + 6.25*h - 5*a + (5 if sex.upper() == "M" else -161)] rounded by
    [round], which returns an integer nearest to it. *)
Theorem bmr_mifflin_st_jeor (h w : float) (a : Z) (sx : string)
    (act g : option string) (m : Metrics) :
  complete (mkProfile (Some h) (Some w) (Some a) (Some sx) act g) = true ->
  calculate_metrics (Some (mkProfile (Some h) (Some w) (Some a) (Some sx) act g)) = Ok m ->
  exists (a5 : float) (r : Z),
    Py.int_to_float (5 * a) = Ok a5 /\
    bmr m = Some r /\
    Py.round (10 * w + 6.25 * h - a5
              + (if String.eqb (Py.upper sx) "M" then 5 else -161))%float = Ok r /\
    nearest_int (10 * w + 6.25 * h - a5
                 + (if String.eqb (Py.upper sx) "M" then 5 else -161))%float r.
Proof.
  intros Hc Hm. rewrite calculate_metrics_complete in Hm by exact Hc.
  apply metrics_of_ok in Hm.
  destruct Hm as (b & t & rb & rt & _ & Hb & _ & Hrb & _ & ->).
  apply bmr_float_ok in Hb. destruct Hb as (a5 & Ha5 & ->).
  exists a5, rb. repeat split; try assumption.
  apply round_is_nearest. exact Hrb.
Qed.

Lemma bmr_mifflin_st_jeor_witness :
  exists (a5 : float) (r : Z),
    Py.int_to_float (5 * 30) = Ok a5 /\
    bmr (mkMetrics (Some 24.2%float) (Some 1618) (Some 2507) (Some 2507)) = Some r /\
    Py.round (10 * 70 + 6.25 * 170 - a5
              + (if String.eqb (Py.upper "m") "M" then 5 else -161))%float = Ok r /\
    nearest_int (10 * 70 + 6.25 * 170 - a5
                 + (if String.eqb (Py.upper "m") "M" then 5 else -161))%float r.
Proof.
  apply (bmr_mifflin_st_jeor 170 70 30 "m" (Some "moderately_active") (Some "maintain")).
  - reflexivity.
  - vm_compute. reflexivity.
Defined.

(** * The square and the C library *)

Lemma SFeqb_finite_true (s1 s2 : bool) (m1 m2 : positive) (e1 e2 : Z) :
  SFeqb (S754_finite s1 m1 e1) (S754_finite s2 m2 e2) = true ->
  s1 = s2 /\ m1 = m2 /\ e1 = e2.
Proof.
  unfold SFeqb, SFcompare.
  destruct s1, s2; try discriminate;
    destruct (Z.compare_spec e1 e2) as [He | He | He]; try discriminate;
    destruct (Pos.compare_cont Eq m1 m2) eqn:Hm; cbn; try discriminate;
    intros _; apply Pos.compare_eq in Hm; repeat split; assumption.
Qed.

Lemma SFeqb_finite_refl (s : bool) (m : positive) (e : Z) :
  SFeqb (S754_finite s m e) (S754_finite s m e) = true.
Proof.
  unfold SFeqb, SFcompare. rewrite Z.compare_refl.
  destruct s; cbn; rewrite ?Pos.compare_cont_refl; reflexivity.
Qed.

Lemma abs_square (x : float) : (abs x * abs x)%float = (x * x)%float.
Proof.
  apply Prim2SF_inj. rewrite !mul_spec, abs_spec.
  destruct (Prim2SF x) as [[] | [] | | [] m e]; reflexivity.
Qed.

(** With a correctly rounded [pow], the square is the rounded product. *)
Lemma float_pow2_rounded (x : float) : float_pow2 pow_rounded x = Py.pow2 x.
Proof.
  assert (Hx' : x = SF2Prim (Prim2SF x)) by (symmetry; apply SF2Prim_Prim2SF).
  destruct (Prim2SF x) as [s | s | | s m e] eqn:Hx.
  - rewrite Hx'. destruct s; vm_compute; reflexivity.
  - rewrite Hx'. destruct s; vm_compute; reflexivity.
  - rewrite Hx'. vm_compute; reflexivity.
  - assert (Hn : is_nan x = false).
    { unfold is_nan. rewrite FloatAxioms.eqb_spec, Hx, SFeqb_finite_refl. reflexivity. }
    assert (Hi : is_infinity x = false).
    { unfold is_infinity. rewrite FloatAxioms.eqb_spec, abs_spec, Hx. reflexivity. }
    assert (Hz : (x =? 0)%float = false).
    { rewrite FloatAxioms.eqb_spec, Hx. destruct s; reflexivity. }
    unfold float_pow2, pow_rounded, Py.pow2, is_finite.
    rewrite Hn, Hi, Hz, abs_square. cbn [orb negb andb].
    destruct (abs x =? 1)%float eqn:H1; [| reflexivity].
    rewrite FloatAxioms.eqb_spec, abs_spec, Hx in H1.
    change (Prim2SF 1) with (S754_finite false 4503599627370496 (-52)) in H1.
    apply SFeqb_finite_true in H1. destruct H1 as (_ & -> & ->).
    rewrite Hx'. destruct s; vm_compute; reflexivity.
Qed.

Lemma calculate_metrics_with_rounded (profile : option Profile) :
  calculate_metrics_with pow_rounded profile = calculate_metrics profile.
Proof.
  destruct profile as [p |]; [| reflexivity].
  unfold calculate_metrics_with, calculate_metrics.
  destruct (height_in p), (weight_lb p), (age p), (sex p); try reflexivity.
  destruct (complete p); [| reflexivity].
  unfold metrics_of_with, metrics_of. rewrite float_pow2_rounded. reflexivity.
Qed.

Section CalculatorWith.

Variable c_pow : float -> float -> float.
Variables (h w : float) (a : Z) (sx : string) (act g : option string).

Lemma calculate_metrics_with_complete :
  complete (mkProfile (Some h) (Some w) (Some a) (Some sx) act g) = true ->
  calculate_metrics_with c_pow (Some (mkProfile (Some h) (Some w) (Some a) (Some sx) act g))
  = metrics_of_with c_pow h w a sx act g.
Proof.
  intros Hc. cbn [calculate_metrics_with height_in weight_lb age sex activity goal].
  rewrite Hc. reflexivity.
Qed.

(** What a successful run has computed, step by step. *)
Lemma metrics_of_with_ok (m : Metrics) :
  metrics_of_with c_pow h w a sx act g = Ok m ->
  exists (sq b : float) (t rb rt : Z),
    float_pow2 c_pow (cm_to_m h) = Ok sq /\
    (sq =? 0)%float = false /\
    bmr_float w h a (Py.upper sx) = Ok b /\
    target_of (goal_is_lose g) b (b * activity_multiplier act)%float = Ok t /\
    Py.round b = Ok rb /\
    Py.round (b * activity_multiplier act)%float = Ok rt /\
    m = mkMetrics (Some (Py.round1 (w / sq)%float)) (Some rb) (Some rt) (Some t).
Proof.
  unfold metrics_of_with. intros H.
  bind_inv H h2 Hh2. bind_inv H q Hq. bind_inv H b Hb.
  bind_inv H t Ht. bind_inv H rb Hrb. bind_inv H rt Hrt.
  apply truediv_ok in Hq. destruct Hq as [-> Hz].
  inversion H; subst m.
  exists h2, b, t, rb, rt. repeat split; assumption.
Qed.

End CalculatorWith.

(** What [float_pow2] returns: the value settled by CPython for a special
    base, and the C library's own value of [pow] for any other. *)
Lemma float_pow2_ok (c_pow : float -> float -> float) (x sq : float) :
  float_pow2 c_pow x = Ok sq ->
  (is_nan x = true /\ sq = x) \/
  (is_infinity x = true /\ sq = infinity) \/
  ((x =? 0)%float = true /\ sq = 0%float) \/
  ((abs x =? 1)%float = true /\ sq = 1%float) \/
  (is_nan x = false /\ is_infinity x = false /\ (x =? 0)%float = false /\
   (abs x =? 1)%float = false /\
   sq = c_pow (abs x) 2%float /\ is_infinity sq = false).
Proof.
  unfold float_pow2.
  destruct (is_nan x); [intros H; inversion H; tauto |].
  destruct (is_infinity x); [intros H; inversion H; tauto |].
  destruct (x =? 0)%float; [intros H; inversion H; tauto |].
  destruct (abs x =? 1)%float; [intros H; inversion H; tauto |].
  cbv zeta. destruct (is_infinity (c_pow (abs x) 2%float)) eqn:Hi; [discriminate |].
  intros H; inversion H; subst sq. right; right; right; right. tauto.
Qed.

(** A library that is correctly rounded at one base gives the rounded
    product there. *)
Lemma float_pow2_rounded_at (c_pow : float -> float -> float) (x sq : float) :
  c_pow (abs x) 2%float = (x * x)%float ->
  float_pow2 c_pow x = Ok sq -> sq = (x * x)%float.
Proof.
  intros Hc H. apply pow2_ok. rewrite <- float_pow2_rounded, <- H.
  unfold float_pow2, pow_rounded. rewrite Hc, abs_square. reflexivity.
Qed.

(** C5.  For a complete profile, whatever the C library's [pow] is, the
    [bmi] field is the weight divided by the value of [cm_to_m(h) ** 2],
    rounded to one decimal by [round(_, 1)].  That value is the library's
    [pow] of the magnitude of the height in metres and [2.0], unless the
    height in metres is one of the special bases CPython settles itself;
    where the library is correctly rounded it is the rounded product of the
    height in metres with itself. *)
Theorem bmi_one_decimal (c_pow : float -> float -> float)
    (h w : float) (a : Z) (sx : string)
    (act g : option string) (m : Metrics) :
  complete (mkProfile (Some h) (Some w) (Some a) (Some sx) act g) = true ->
  calculate_metrics_with c_pow
    (Some (mkProfile (Some h) (Some w) (Some a) (Some sx) act g)) = Ok m ->
  exists sq x : float,
    float_pow2 c_pow (cm_to_m h) = Ok sq /\
    bmi m = Some x /\
    x = Py.round1 (w / sq)%float /\
    one_decimal_of (w / sq)%float x /\
    cm_to_m h = (h / 100)%float /\
    (is_nan (cm_to_m h) = false -> is_infinity (cm_to_m h) = false ->
     (cm_to_m h =? 0)%float = false -> (abs (cm_to_m h) =? 1)%float = false ->
     sq = c_pow (abs (cm_to_m h)) 2%float) /\
    (c_pow (abs (cm_to_m h)) 2%float = (cm_to_m h * cm_to_m h)%float ->
     sq = (cm_to_m h * cm_to_m h)%float).
Proof.
  intros Hc Hm. rewrite calculate_metrics_with_complete in Hm by exact Hc.
  apply metrics_of_with_ok in Hm.
  destruct Hm as (sq & b & t & rb & rt & Hsq & _ & _ & _ & _ & _ & ->).
  exists sq. eexists. split; [exact Hsq |]. split; [reflexivity |].
  split; [reflexivity |]. split; [apply round1_one_decimal |].
  split; [reflexivity |]. split.
  - intros Hn Hi Hz H1.
    destruct (float_pow2_ok _ _ _ Hsq)
      as [[E _] | [[E _] | [[E _] | [[E _] | (_ & _ & _ & _ & E & _)]]]];
      congruence.
  - intros Hr. exact (float_pow2_rounded_at _ _ _ Hr Hsq).
Qed.

Lemma bmi_one_decimal_witness :
  exists sq x : float,
    float_pow2 pow_above (cm_to_m 165.98) = Ok sq /\
    bmi (mkMetrics (Some 24.2%float) (Some 1560) (Some 2419) (Some 2419)) = Some x /\
    x = Py.round1 (66.80719897 / sq)%float /\
    one_decimal_of (66.80719897 / sq)%float x /\
    cm_to_m 165.98 = (165.98 / 100)%float /\
    (is_nan (cm_to_m 165.98) = false -> is_infinity (cm_to_m 165.98) = false ->
     (cm_to_m 165.98 =? 0)%float = false -> (abs (cm_to_m 165.98) =? 1)%float = false ->
     sq = pow_above (abs (cm_to_m 165.98)) 2%float) /\
    (pow_above (abs (cm_to_m 165.98)) 2%float = (cm_to_m 165.98 * cm_to_m 165.98)%float ->
     sq = (cm_to_m 165.98 * cm_to_m 165.98)%float).
Proof.
  apply (bmi_one_decimal pow_above 165.98 66.80719897 30 "M"
           (Some "moderately_active") (Some "maintain")).
  - reflexivity.
  - vm_compute. reflexivity.
Defined.

(** The last bit of the library's square reaches the [bmi] field: at a
    height of 165.98 cm and a weight of 66.80719897 kg the quotient is
    24.25 with the square above the rounded product (the value glibc's
    [pow] returns there), and just above 24.25 with the rounded product. *)
Lemma bmi_follows_the_library :
  float_pow2 pow_above (cm_to_m 165.98) = Ok 2.75493604%float /\
  float_pow2 pow_rounded (cm_to_m 165.98) = Ok 2.7549360399999996%float /\
  calculate_metrics_with pow_above
    (Some (mkProfile (Some 165.98%float) (Some 66.80719897%float) (Some 30) (Some "M")
                     (Some "moderately_active") (Some "maintain")))
  = Ok (mkMetrics (Some 24.2%float) (Some 1560) (Some 2419) (Some 2419)) /\
  calculate_metrics_with pow_rounded
    (Some (mkProfile (Some 165.98%float) (Some 66.80719897%float) (Some 30) (Some "M")
                     (Some "moderately_active") (Some "maintain")))
  = Ok (mkMetrics (Some 24.3%float) (Some 1560) (Some 2419) (Some 2419)).
Proof. repeat split; vm_compute; reflexivity. Qed.

(** The lookup of line 121 computes the table of the specification. *)
Lemma activity_multiplier_spec (act : option string) :
  activity_multiplier act = spec_multiplier act.
Proof.
  destruct act as [k |]; [| vm_compute; reflexivity].
  destruct k as [| c k]; [vm_compute; reflexivity |].
  unfold activity_multiplier, spec_multiplier. cbn [Py.str_or].
  set (key := String c k).
  destruct (String.eqb_spec key "sedentary") as [-> | N1]; [vm_compute; reflexivity |].
  destruct (String.eqb_spec key "lightly_active") as [-> | N2]; [vm_compute; reflexivity |].
  destruct (String.eqb_spec key "moderately_active") as [-> | N3]; [vm_compute; reflexivity |].
  destruct (String.eqb_spec key "very_active") as [-> | N4]; [vm_compute; reflexivity |].
  destruct (String.eqb_spec key "extra_active") as [-> | N5]; [vm_compute; reflexivity |].
  unfold ACTIVITY_MULTIPLIERS.
  rewrite !lookup_insert_ne by congruence.
  rewrite lookup_empty. reflexivity.
Qed.

(** C6.  For a complete profile, the [tdee] field is the unrounded BMR times
    the activity multiplier, rounded; the multiplier comes from a table of
    five entries, and is 1.55 for an activity that is absent or is none of
    the five keys. *)
Theorem tdee_activity_multiplier (h w : float) (a : Z) (sx : string)
    (act g : option string) (m : Metrics) :
  complete (mkProfile (Some h) (Some w) (Some a) (Some sx) act g) = true ->
  calculate_metrics (Some (mkProfile (Some h) (Some w) (Some a) (Some sx) act g)) = Ok m ->
  exists (b : float) (r : Z),
    bmr_float w h a (Py.upper sx) = Ok b /\
    tdee m = Some r /\
    Py.round (b * spec_multiplier act)%float = Ok r /\
    size ACTIVITY_MULTIPLIERS = 5%nat /\
    ACTIVITY_MULTIPLIERS !! "sedentary" = Some 1.2%float /\
    ACTIVITY_MULTIPLIERS !! "lightly_active" = Some 1.375%float /\
    ACTIVITY_MULTIPLIERS !! "moderately_active" = Some 1.55%float /\
    ACTIVITY_MULTIPLIERS !! "very_active" = Some 1.725%float /\
    ACTIVITY_MULTIPLIERS !! "extra_active" = Some 1.9%float /\
    (forall k : string, ACTIVITY_MULTIPLIERS !! k = None ->
       spec_multiplier (Some k) = 1.55%float) /\
    spec_multiplier None = 1.55%float.
Proof.
  intros Hc Hm. rewrite calculate_metrics_complete in Hm by exact Hc.
  apply metrics_of_ok in Hm.
  destruct Hm as (b & t & rb & rt & _ & Hb & _ & _ & Hrt & ->).
  rewrite activity_multiplier_spec in Hrt.
  exists b, rt.
  do 3 (split; [first [assumption | reflexivity] |]).
  do 6 (split; [vm_compute; reflexivity |]).
  split; [| reflexivity].
  intros k Hk. rewrite <- activity_multiplier_spec.
  unfold activity_multiplier.
  destruct k as [| c k]; [vm_compute; reflexivity |].
  cbn [Py.str_or]. rewrite Hk. reflexivity.
Qed.

Lemma tdee_activity_multiplier_witness :
  exists (b : float) (r : Z),
    bmr_float 70 170 30 (Py.upper "M") = Ok b /\
    tdee (mkMetrics (Some 24.2%float) (Some 1618) (Some 1941) (Some 1941)) = Some r /\
    Py.round (b * spec_multiplier (Some "sedentary"))%float = Ok r /\
    size ACTIVITY_MULTIPLIERS = 5%nat /\
    ACTIVITY_MULTIPLIERS !! "sedentary" = Some 1.2%float /\
    ACTIVITY_MULTIPLIERS !! "lightly_active" = Some 1.375%float /\
    ACTIVITY_MULTIPLIERS !! "moderately_active" = Some 1.55%float /\
    ACTIVITY_MULTIPLIERS !! "very_active" = Some 1.725%float /\
    ACTIVITY_MULTIPLIERS !! "extra_active" = Some 1.9%float /\
    (forall k : string, ACTIVITY_MULTIPLIERS !! k = None ->
       spec_multiplier (Some k) = 1.55%float) /\
    spec_multiplier None = 1.55%float.
Proof.
  apply (tdee_activity_multiplier 170 70 30 "M" (Some "sedentary") (Some "maintain")).
  - reflexivity.
  - vm_compute. reflexivity.
Defined.

(** C9.  For a complete profile, the [tdee] field is [round] of the product
    of the unrounded BMR and the multiplier: one rounding, after the
    multiplication.  With goal "lose" the target is the larger of
    [round(tdee - 500)] and [int(bmr)], the unrounded BMR with its fraction
    dropped. *)
Theorem tdee_rounded_once_guardrail_truncated (h w : float) (a : Z) (sx : string)
    (act g : option string) (m : Metrics) :
  complete (mkProfile (Some h) (Some w) (Some a) (Some sx) act g) = true ->
  calculate_metrics (Some (mkProfile (Some h) (Some w) (Some a) (Some sx) act g)) = Ok m ->
  exists (b : float) (rt : Z),
    bmr_float w h a (Py.upper sx) = Ok b /\
    tdee m = Some rt /\
    Py.round (b * activity_multiplier act)%float = Ok rt /\
    (goal_is_lose g = true ->
     exists t tb : Z,
       Py.round (b * activity_multiplier act - 500)%float = Ok t /\
       Py.int b = Ok tb /\ truncation b tb /\
       target_calories m = Some (Z.max t tb)).
Proof.
  intros Hc Hm. rewrite calculate_metrics_complete in Hm by exact Hc.
  apply metrics_of_ok in Hm.
  destruct Hm as (b & t & rb & rt & _ & Hb & Ht & _ & Hrt & ->).
  exists b, rt. repeat split; try assumption.
  intros Hl. rewrite Hl in Ht. unfold target_of in Ht.
  destruct (Py.round (b * activity_multiplier act - 500)%float) as [t1 |] eqn:Ht1;
    [cbn [mbind result_bind] in Ht | discriminate Ht].
  destruct (Py.int b) as [tb |] eqn:Htb;
    [cbn [mbind result_bind] in Ht | discriminate Ht].
  inversion Ht; subst t.
  exists t1, tb. repeat split; try reflexivity.
  apply int_is_truncation. exact Htb.
Qed.

Lemma tdee_rounded_once_guardrail_truncated_witness :
  exists (b : float) (rt : Z),
    bmr_float 70 170 30 (Py.upper "M") = Ok b /\
    tdee (mkMetrics (Some 24.2%float) (Some 1618) (Some 2507) (Some 2007)) = Some rt /\
    Py.round (b * activity_multiplier (Some "moderately_active"))%float = Ok rt /\
    (goal_is_lose (Some "Lose") = true ->
     exists t tb : Z,
       Py.round (b * activity_multiplier (Some "moderately_active") - 500)%float = Ok t /\
       Py.int b = Ok tb /\ truncation b tb /\
       target_calories (mkMetrics (Some 24.2%float) (Some 1618) (Some 2507) (Some 2007))
       = Some (Z.max t tb)).
Proof.
  apply (tdee_rounded_once_guardrail_truncated
           170 70 30 "M" (Some "moderately_active") (Some "Lose")).
  - reflexivity.
  - vm_compute. reflexivity.
Defined.

(** Rounding the BMR before the multiplication would change the reference
    profile's TDEE from 2507 to 2508. *)
Lemma rounding_bmr_first_differs :
  Py.round (1617.5 * 1.55)%float = Ok 2507 /\ Py.round (1618 * 1.55)%float = Ok 2508.
Proof. split; vm_compute; reflexivity. Qed.

(** Either the guard fails, or the result comes from [metrics_of]. *)
Lemma calculate_metrics_cases (profile : option Profile) (m : Metrics) :
  calculate_metrics profile = Ok m ->
  m = unknown_metrics \/
  exists (h w : float) (a : Z) (sx : string) (act g : option string),
    metrics_of h w a sx act g = Ok m.
Proof.
  destruct profile as [p |]; [| intros H; inversion H; left; reflexivity].
  destruct p as [[h |] [w |] [a |] [s |] act g];
    cbn [calculate_metrics height_in weight_lb age sex activity goal];
    try (intros H; inversion H; left; reflexivity).
  destruct (complete _).
  - intros H. right. exists h, w, a, s, act, g. exact H.
  - intros H; inversion H; left; reflexivity.
Qed.

(** C10.  A returned [Metrics] has its four fields all unknown or all
    known. *)
Theorem metrics_all_or_nothing (profile : option Profile) (m : Metrics) :
  calculate_metrics profile = Ok m ->
  (bmi m = None /\ bmr m = None /\ tdee m = None /\ target_calories m = None) \/
  (exists (x : float) (rb rt t : Z),
     bmi m = Some x /\ bmr m = Some rb /\ tdee m = Some rt /\
     target_calories m = Some t).
Proof.
  intros H. apply calculate_metrics_cases in H.
  destruct H as [-> | (h & w & a & sx & act & g & H)].
  - left. repeat split.
  - right. apply metrics_of_ok in H.
    destruct H as (b & t & rb & rt & _ & _ & _ & _ & _ & ->).
    eexists _, rb, rt, t. repeat split.
Qed.

Lemma metrics_all_or_nothing_witness :
  (bmi (mkMetrics (Some 24.2%float) (Some 1618) (Some 2507) (Some 2507)) = None /\
   bmr (mkMetrics (Some 24.2%float) (Some 1618) (Some 2507) (Some 2507)) = None /\
   tdee (mkMetrics (Some 24.2%float) (Some 1618) (Some 2507) (Some 2507)) = None /\
   target_calories (mkMetrics (Some 24.2%float) (Some 1618) (Some 2507) (Some 2507)) = None) \/
  (exists (x : float) (rb rt t : Z),
     bmi (mkMetrics (Some 24.2%float) (Some 1618) (Some 2507) (Some 2507)) = Some x /\
     bmr (mkMetrics (Some 24.2%float) (Some 1618) (Some 2507) (Some 2507)) = Some rb /\
     tdee (mkMetrics (Some 24.2%float) (Some 1618) (Some 2507) (Some 2507)) = Some rt /\
     target_calories (mkMetrics (Some 24.2%float) (Some 1618) (Some 2507) (Some 2507)) = Some t).
Proof.
  apply (metrics_all_or_nothing
           (Some (reference_profile "moderately_active" "maintain"))).
  vm_compute. reflexivity.
Defined.

(** * Claims about [exercise_recommendations] *)

Lemma lose_step_spec (x : gmap string value) :
  loop_ready x ->
  lose_step x = Ok (if is_cardio_or_strength x then Some (lose_entry x) else None).
Proof.
  intros [[t Ht] Hd]. unfold lose_step, getitem, is_cardio_or_strength in *.
  rewrite Ht in *. cbn [mbind result_bind].
  destruct t as [s | n | f]; cbn [value_in_strs existsb]; try reflexivity.
  rewrite orb_false_r.
  destruct (String.eqb s "cardio" || String.eqb s "strength"); [| reflexivity].
  destruct (Hd eq_refl) as [n Hn]. unfold lose_entry, duration_min.
  rewrite Hn. reflexivity.
Qed.

(** The loop is a filter followed by a map. *)
Lemma lose_loop_spec (xs out : list (gmap string value)) :
  Forall loop_ready xs ->
  lose_loop xs out
  = Ok (out ++ List.map lose_entry (List.filter is_cardio_or_strength xs)).
Proof.
  intros H. revert out.
  induction H as [| x xs Hx _ IH]; intros out; cbn [lose_loop List.filter List.map].
  - rewrite app_nil_r. reflexivity.
  - rewrite (lose_step_spec x Hx). cbn [mbind result_bind].
    destruct (is_cardio_or_strength x); rewrite IH; [| reflexivity].
    cbn [List.map]. rewrite <- app_assoc. reflexivity.
Qed.

Lemma base_loop_ready : Forall loop_ready base.
Proof.
  unfold base.
  repeat (constructor; [split; [eexists; vm_compute; reflexivity
                               | intros _; eexists; vm_compute; reflexivity] |]).
  constructor.
Qed.

(** The branch of line 125 and of line 144 is taken exactly by a goal that
    is, in lower case, the string "lose". *)
Lemma goal_is_lose_iff (g : option string) :
  goal_is_lose g = true <-> exists s : string, g = Some s /\ Py.lower s = "lose".
Proof.
  unfold goal_is_lose. destruct g as [[| c s] |]; cbn [Py.str_or].
  - split; [discriminate |]. intros (s & E & H). inversion E; subst s. discriminate H.
  - rewrite String.eqb_eq. split.
    + intros H. exists (String c s). split; [reflexivity | exact H].
    + intros (s' & E & H). inversion E; subst s'. exact H.
  - split; [discriminate |]. intros (s & E & _). discriminate E.
Qed.

Lemma goal_is_lose_other (g : option string) :
  (forall s : string, g = Some s -> Py.lower s <> "lose") -> goal_is_lose g = false.
Proof.
  intros H. destruct (goal_is_lose g) eqn:E; [| reflexivity].
  apply goal_is_lose_iff in E. destruct E as (s & Hs & Hl).
  exfalso. exact (H s Hs Hl).
Qed.

(** C7.  For a present profile whose goal is "lose" in any letter case, the
    result is the cardio and strength entries of the base catalog, in order,
    each with ten more minutes and the interval note, then the one
    walk-after-meals habit entry; for a profile with any other goal, or with
    none, it is the six entries of the base catalog, then one strength
    entry: seven in all. *)
Theorem exercise_recommendations_by_goal (p : Profile) :
  (forall s : string,
     goal p = Some s -> Py.lower s = "lose" ->
     exercise_recommendations (Some p)
     = Ok (List.map lose_entry (List.filter is_cardio_or_strength base)
           ++ [walk_after_meals])) /\
  ((forall s : string, goal p = Some s -> Py.lower s <> "lose") ->
   exercise_recommendations (Some p) = Ok (base ++ [full_body_strength])) /\
  length base = 6%nat /\
  length (base ++ [full_body_strength]) = 7%nat /\
  Forall (fun x => x !! "type" = Some (VStr "cardio") \/ x !! "type" = Some (VStr "strength"))
         (List.filter is_cardio_or_strength base) /\
  Forall (fun x => lose_entry x !! "duration_min" = Some (VInt (duration_min x + 10)) /\
                   x !! "duration_min" = Some (VInt (duration_min x)) /\
                   lose_entry x !! "note" = Some interval_note /\
                   interval_note = VStr "Fat-loss focus: try intervals.")
         (List.filter is_cardio_or_strength base) /\
  walk_after_meals !! "type" = Some (VStr "habit") /\
  full_body_strength !! "type" = Some (VStr "strength").
Proof.
  split; [| split].
  - intros s Hs Hl.
    assert (E : goal_is_lose (goal p) = true)
      by (apply goal_is_lose_iff; exists s; split; assumption).
    cbn [exercise_recommendations]. rewrite E.
    rewrite (lose_loop_spec base [] base_loop_ready). reflexivity.
  - intros Ho. cbn [exercise_recommendations].
    rewrite (goal_is_lose_other _ Ho). reflexivity.
  - split; [reflexivity |]. split; [reflexivity |].
    split; [| split; [| split; vm_compute; reflexivity]].
    + vm_compute.
      repeat (constructor; [first [left; reflexivity | right; reflexivity] |]).
      constructor.
    + unfold base. cbn [List.filter].
      repeat match goal with
             | |- context [is_cardio_or_strength ?d] =>
                 let b := eval vm_compute in (is_cardio_or_strength d) in
                 change (is_cardio_or_strength d) with b; cbv iota
             end.
      repeat (constructor; [repeat split; vm_compute; reflexivity |]).
      constructor.
Qed.

Lemma exercise_recommendations_by_goal_witness :
  exercise_recommendations (Some (mkProfile None None None None None (Some "Lose")))
  = Ok (List.map lose_entry (List.filter is_cardio_or_strength base) ++ [walk_after_meals]) /\
  exercise_recommendations (Some (mkProfile None None None None None (Some "gain")))
  = Ok (base ++ [full_body_strength]) /\
  exercise_recommendations (Some (mkProfile None None None None None None))
  = Ok (base ++ [full_body_strength]).
Proof.
  split; [| split].
  - apply (proj1 (exercise_recommendations_by_goal
                    (mkProfile None None None None None (Some "Lose"))) "Lose");
      reflexivity.
  - apply (proj1 (proj2 (exercise_recommendations_by_goal
                           (mkProfile None None None None None (Some "gain"))))).
    intros s Hs. inversion Hs. discriminate.
  - apply (proj1 (proj2 (exercise_recommendations_by_goal
                           (mkProfile None None None None None None)))).
    intros s Hs. discriminate Hs.
Defined.

(** * Claims about the unit conversions *)

(** C8, amended.  For every double [v] from 1e-300 to 1e300, converting
    pounds to kilograms and back, and inches to centimetres and back, gives
    [v] again within a relative tolerance of 1e-6. *)
Theorem unit_round_trip (v : float) :
  (1e-300 <=? v)%float = true -> (v <=? 1e300)%float = true ->
  within_rel_tol 1000000 v (kg_to_lbs (lbs_to_kg v)) = true /\
  within_rel_tol 1000000 v (cm_to_inches (inches_to_cm v)) = true.
Proof.
  intros L U.
  destruct (normal_between 1e-300 1e300 v
              6032057205060441 6724873095247260 (-1049) 944)
    as (m & e & Hv & Hm & He); [reflexivity | reflexivity | lia | exact L | exact U |].
  unfold within_rel_tol, finite_parts, kg_to_lbs, lbs_to_kg, cm_to_inches, inches_to_cm.
  rewrite !mul_spec, !div_spec, !mul_spec, Hv.
  split.
  - change (Prim2SF 2.20462) with (S754_finite false 4964362905246771 (-51)).
    destruct (SF_div_mul_close 4964362905246771 (-51)) with (m := m) (e := e)
      as (M & E & HME & Hclose); try lia.
    unfold SF64mul, SF64div. rewrite HME. cbn [cond_Zopp].
    apply Z.leb_le. rewrite (Z.abs_eq (Zpos m * _)); [exact Hclose |].
    apply Z.mul_nonneg_nonneg; [lia | apply Z.pow_nonneg; lia].
  - change (Prim2SF 2.54) with (S754_finite false 5719571526760530 (-51)).
    destruct (SF_mul_div_close 5719571526760530 (-51)) with (m := m) (e := e)
      as (M & E & HME & Hclose); try lia.
    unfold SF64mul, SF64div. rewrite HME. cbn [cond_Zopp].
    apply Z.leb_le. rewrite (Z.abs_eq (Zpos m * _)); [exact Hclose |].
    apply Z.mul_nonneg_nonneg; [lia | apply Z.pow_nonneg; lia].
Qed.

Lemma unit_round_trip_witness :
  within_rel_tol 1000000 154 (kg_to_lbs (lbs_to_kg 154)) = true /\
  within_rel_tol 1000000 154 (cm_to_inches (inches_to_cm 154)) = true.
Proof.
  apply (unit_round_trip 154); reflexivity.
Defined.

(** C8 as stated fails at both ends of the range of the positive doubles.
    The smallest one, 5e-324 pounds, is 0.0 kilograms and stays 0.0; 1e308
    inches overflow to an infinite number of centimetres. *)
Lemma unit_round_trip_fails_at_extremes :
  (0 <? 5e-324)%float = true /\
  kg_to_lbs (lbs_to_kg 5e-324) = 0%float /\
  within_rel_tol 1000000 5e-324 (kg_to_lbs (lbs_to_kg 5e-324)) = false /\
  (0 <? 1e308)%float = true /\
  cm_to_inches (inches_to_cm 1e308) = infinity /\
  within_rel_tol 1000000 1e308 (cm_to_inches (inches_to_cm 1e308)) = false.
Proof. repeat split; vm_compute; reflexivity. Qed.

(** * Further properties of [calculate_metrics] *)

(** X1.  A returned [Metrics] with an unknown field tells that the profile
    was absent or had one of height, weight, age and sex missing or zero: a
    complete profile never yields an unknown field. *)
Theorem unknown_field_means_insufficient (profile : option Profile) (m : Metrics) :
  calculate_metrics profile = Ok m ->
  bmi m = None \/ bmr m = None \/ tdee m = None \/ target_calories m = None ->
  insufficient profile.
Proof.
  intros Hm Hn.
  destruct profile as [p |]; [| exact I].
  destruct p as [[h |] [w |] [a |] [s |] act g];
    cbn [insufficient falsy_float falsy_int falsy_str height_in weight_lb age sex];
    try tauto.
  cbn [calculate_metrics height_in weight_lb age sex activity goal] in Hm.
  destruct (complete _) eqn:Hc.
  - apply metrics_of_ok in Hm.
    destruct Hm as (b & t & rb & rt & _ & _ & _ & _ & _ & ->).
    cbn in Hn. destruct Hn as [Hn | [Hn | [Hn | Hn]]]; discriminate Hn.
  - unfold complete, Py.float_truthy in Hc. cbn [height_in weight_lb age sex] in Hc.
    destruct (h =? 0)%float; [left; reflexivity |].
    destruct (w =? 0)%float; [right; left; reflexivity |].
    destruct (Z.eqb_spec a 0); [right; right; left; assumption |].
    destruct (String.eqb_spec s ""); [right; right; right; assumption |].
    discriminate Hc.
Qed.

Lemma unknown_field_means_insufficient_witness :
  insufficient (Some ageless_profile).
Proof.
  apply (unknown_field_means_insufficient (Some ageless_profile) unknown_metrics).
  - reflexivity.
  - left. reflexivity.
Defined.

(** [round(x)] and [int(x)] of the same float differ by at most one. *)
Lemma round_int_close (x : float) (r t : Z) :
  Py.round x = Ok r -> Py.int x = Ok t -> r - 1 <= t <= r + 1.
Proof.
  unfold Py.round, Py.int.
  destruct (Prim2SF x) as [s | s | | s m e]; intros Hr Ht;
    inversion Hr; inversion Ht; subst; clear Hr Ht; [lia |].
  unfold Py.round_half_even_mag.
  destruct (0 <=? e) eqn:He.
  - apply Z.leb_le in He. rewrite Z.shiftl_mul_pow2 by lia. lia.
  - apply Z.leb_gt in He. rewrite Z.shiftl_div_pow2 by lia. cbv zeta.
    destruct (2 * (Zpos m mod 2 ^ (- e)) ?= 2 ^ (- e));
      [destruct (Z.even (Zpos m / 2 ^ (- e))) | |];
      destruct s; cbn [cond_Zopp]; lia.
Qed.

(** X2.  With goal "lose" (in any letter case), the target of a complete
    profile is at least [round(tdee - 500)], at least [int(bmr)], and at most
    one below the [bmr] field of the same result. *)
Theorem lose_target_floor (h w : float) (a : Z) (sx : string)
    (act g : option string) (m : Metrics) :
  complete (mkProfile (Some h) (Some w) (Some a) (Some sx) act g) = true ->
  goal_is_lose g = true ->
  calculate_metrics (Some (mkProfile (Some h) (Some w) (Some a) (Some sx) act g)) = Ok m ->
  exists (b : float) (t tb rb tc : Z),
    bmr_float w h a (Py.upper sx) = Ok b /\
    Py.round (b * activity_multiplier act - 500)%float = Ok t /\
    Py.int b = Ok tb /\
    bmr m = Some rb /\ target_calories m = Some tc /\
    t <= tc /\ tb <= tc /\ rb - 1 <= tc.
Proof.
  intros Hc Hl Hm. rewrite calculate_metrics_complete in Hm by exact Hc.
  apply metrics_of_ok in Hm.
  destruct Hm as (b & t & rb & rt & _ & Hb & Ht & Hrb & _ & ->).
  rewrite Hl in Ht. unfold target_of in Ht.
  bind_inv Ht t1 Ht1. bind_inv Ht tb Htb. inversion Ht; subst t.
  exists b, t1, tb, rb, (Z.max t1 tb).
  assert (Hclose := round_int_close b rb tb Hrb Htb).
  repeat split; try assumption; try reflexivity; lia.
Qed.

Lemma lose_target_floor_witness :
  exists (b : float) (t tb rb tc : Z),
    bmr_float 70 170 30 (Py.upper "M") = Ok b /\
    Py.round (b * activity_multiplier (Some "sedentary") - 500)%float = Ok t /\
    Py.int b = Ok tb /\
    bmr (mkMetrics (Some 24.2%float) (Some 1618) (Some 1941) (Some 1617)) = Some rb /\
    target_calories (mkMetrics (Some 24.2%float) (Some 1618) (Some 1941) (Some 1617))
    = Some tc /\
    t <= tc /\ tb <= tc /\ rb - 1 <= tc.
Proof.
  apply (lose_target_floor 170 70 30 "M" (Some "sedentary") (Some "lose")).
  - reflexivity.
  - reflexivity.
  - vm_compute. reflexivity.
Defined.

(** X3.  With any goal other than "lose" (absent, empty and unrecognised
    goals included), the target of a complete profile is its [tdee] field. *)
Theorem other_goal_target_is_tdee (h w : float) (a : Z) (sx : string)
    (act g : option string) (m : Metrics) :
  complete (mkProfile (Some h) (Some w) (Some a) (Some sx) act g) = true ->
  goal_is_lose g = false ->
  calculate_metrics (Some (mkProfile (Some h) (Some w) (Some a) (Some sx) act g)) = Ok m ->
  target_calories m = tdee m /\ exists t : Z, tdee m = Some t.
Proof.
  intros Hc Hl Hm. rewrite calculate_metrics_complete in Hm by exact Hc.
  apply metrics_of_ok in Hm.
  destruct Hm as (b & t & rb & rt & _ & _ & Ht & _ & Hrt & ->).
  rewrite Hl in Ht. unfold target_of in Ht.
  assert (t = rt) by congruence. subst t.
  split; [reflexivity | exists rt; reflexivity].
Qed.

Lemma other_goal_target_is_tdee_witness :
  target_calories (mkMetrics (Some 24.2%float) (Some 1618) (Some 2507) (Some 2507))
  = tdee (mkMetrics (Some 24.2%float) (Some 1618) (Some 2507) (Some 2507)) /\
  exists t : Z,
    tdee (mkMetrics (Some 24.2%float) (Some 1618) (Some 2507) (Some 2507)) = Some t.
Proof.
  apply (other_goal_target_is_tdee 170 70 30 "M" (Some "moderately_active") (Some "gain")).
  - reflexivity.
  - reflexivity.
  - vm_compute. reflexivity.
Defined.

(** Changing the case of a string twice is changing it once. *)
Lemma ascii_upper_lower (c : ascii) : Py.ascii_upper (Py.ascii_lower c) = Py.ascii_upper c.
Proof. destruct c as [[] [] [] [] [] [] [] []]; reflexivity. Qed.

Lemma ascii_lower_upper (c : ascii) : Py.ascii_lower (Py.ascii_upper c) = Py.ascii_lower c.
Proof. destruct c as [[] [] [] [] [] [] [] []]; reflexivity. Qed.

Lemma upper_lower (s : string) : Py.upper (Py.lower s) = Py.upper s.
Proof.
  induction s as [| c s IH]; cbn [Py.upper Py.lower]; [reflexivity |].
  rewrite ascii_upper_lower, IH. reflexivity.
Qed.

Lemma lower_upper (s : string) : Py.lower (Py.upper s) = Py.lower s.
Proof.
  induction s as [| c s IH]; cbn [Py.upper Py.lower]; [reflexivity |].
  rewrite ascii_lower_upper, IH. reflexivity.
Qed.

Lemma goal_is_lose_upper (g : string) :
  goal_is_lose (Some (Py.upper g)) = goal_is_lose (Some g).
Proof.
  unfold goal_is_lose.
  destruct g as [| c g]; [reflexivity |].
  cbn [Py.upper Py.str_or]. rewrite <- (lower_upper (String c g)). reflexivity.
Qed.

(** X4.  Sex and goal are read without regard to letter case: writing the
    sex in lower case and the goal in upper case changes neither the result
    nor the exception of [calculate_metrics]. *)
Theorem sex_and_goal_ignore_case (h w : option float) (a : option Z)
    (sx : string) (act : option string) (g : string) :
  calculate_metrics
    (Some (mkProfile h w a (Some (Py.lower sx)) act (Some (Py.upper g))))
  = calculate_metrics (Some (mkProfile h w a (Some sx) act (Some g))).
Proof.
  destruct h as [h |], w as [w |], a as [a |]; try reflexivity.
  cbn [calculate_metrics height_in weight_lb age sex activity goal].
  assert (Hc : complete (mkProfile (Some h) (Some w) (Some a) (Some (Py.lower sx)) act
                                   (Some (Py.upper g)))
               = complete (mkProfile (Some h) (Some w) (Some a) (Some sx) act (Some g))).
  { unfold complete. cbn [height_in weight_lb age sex].
    destruct sx; reflexivity. }
  rewrite Hc. clear Hc.
  destruct (complete (mkProfile (Some h) (Some w) (Some a) (Some sx) act (Some g)));
    [| reflexivity].
  unfold metrics_of. rewrite upper_lower, goal_is_lose_upper. reflexivity.
Qed.

(** An exception comes out of the first step or out of what follows it. *)
Lemma bind_raise {A B : Type} (r : result A) (k : A -> result B) (e : exn) :
  (r ≫= k) = Raise e -> r = Raise e \/ exists x : A, r = Ok x /\ k x = Raise e.
Proof.
  destruct r as [x | e']; cbn [mbind result_bind]; intros H.
  - right. exists x. split; [reflexivity | exact H].
  - left. inversion H. reflexivity.
Qed.

Lemma round_never_zero_division (y : float) : Py.round y <> Raise ZeroDivisionError.
Proof. unfold Py.round. destruct (Prim2SF y); discriminate. Qed.

Lemma int_never_zero_division (y : float) : Py.int y <> Raise ZeroDivisionError.
Proof. unfold Py.int. destruct (Prim2SF y); discriminate. Qed.

Lemma bmr_float_never_zero_division (w h : float) (a : Z) (s : string) :
  bmr_float w h a s <> Raise ZeroDivisionError.
Proof.
  unfold bmr_float, Py.int_to_float.
  destruct (is_infinity _); cbn [mbind result_bind]; discriminate.
Qed.

Lemma target_of_never_zero_division (lose : bool) (b t : float) :
  target_of lose b t <> Raise ZeroDivisionError.
Proof.
  unfold target_of. destruct lose; [| apply round_never_zero_division].
  intros H.
  apply bind_raise in H. destruct H as [H | (x & _ & H)];
    [exact (round_never_zero_division _ H) |].
  apply bind_raise in H. destruct H as [H | (y & _ & H)];
    [exact (int_never_zero_division _ H) | discriminate H].
Qed.

(** X5.  A complete profile makes [calculate_metrics] raise
    [ZeroDivisionError] exactly when the square of the height in metres is
    zero, whatever the weight. *)
Theorem zero_division_iff_height_vanishes (h w : float) (a : Z) (sx : string)
    (act g : option string) :
  complete (mkProfile (Some h) (Some w) (Some a) (Some sx) act g) = true ->
  (calculate_metrics (Some (mkProfile (Some h) (Some w) (Some a) (Some sx) act g))
   = Raise ZeroDivisionError
   <-> (cm_to_m h * cm_to_m h =? 0)%float = true).
Proof.
  intros Hc. rewrite calculate_metrics_complete by exact Hc.
  unfold metrics_of, Py.pow2, Py.truediv.
  set (x := cm_to_m h).
  destruct (x * x =? 0)%float eqn:Hz.
  - assert (Hinf : is_infinity (x * x) = false).
    { unfold is_infinity. rewrite FloatAxioms.eqb_spec, abs_spec.
      rewrite FloatAxioms.eqb_spec in Hz.
      change (Prim2SF 0) with (S754_zero false) in Hz.
      change (Prim2SF infinity) with (S754_infinity false).
      destruct (Prim2SF (x * x)%float) as [s | s | | s m e];
        try reflexivity; try discriminate Hz; destruct s; discriminate Hz. }
    rewrite Hinf, andb_false_r. cbn [mbind result_bind]. rewrite Hz.
    split; reflexivity.
  - split; [| discriminate].
    destruct (is_finite x && is_infinity (x * x)); cbn [mbind result_bind];
      [discriminate |].
    rewrite Hz. cbn [mbind result_bind]. intros H. exfalso.
    apply bind_raise in H. destruct H as [H | (b & _ & H)];
      [exact (bmr_float_never_zero_division _ _ _ _ H) |].
    apply bind_raise in H. destruct H as [H | (t & _ & H)];
      [exact (target_of_never_zero_division _ _ _ H) |].
    apply bind_raise in H. destruct H as [H | (rb & _ & H)];
      [exact (round_never_zero_division _ H) |].
    apply bind_raise in H. destruct H as [H | (rt & _ & H)];
      [exact (round_never_zero_division _ H) | discriminate H].
Qed.

Lemma zero_division_iff_height_vanishes_witness :
  calculate_metrics (Some tiny_height_profile) = Raise ZeroDivisionError
  <-> (cm_to_m (ft_in_to_cm 1e-170 0) * cm_to_m (ft_in_to_cm 1e-170 0) =? 0)%float = true.
Proof.
  apply (zero_division_iff_height_vanishes
           (ft_in_to_cm 1e-170 0) (lbs_to_kg 154) 30 "M"
           (Some "moderately_active") (Some "maintain")).
  reflexivity.
Defined.

Lemma round_ok_finite (x : float) (n : Z) : Py.round x = Ok n -> is_Some (finite_parts x).
Proof.
  unfold Py.round, finite_parts.
  destruct (Prim2SF x); intros H; try discriminate H; eexists; reflexivity.
Qed.

(** X6.  A complete profile makes [calculate_metrics] return a result,
    rather than raise, exactly when: the square of the height in metres
    neither overflows nor is zero; [5 * age] fits a float; and the unrounded
    BMR, the unrounded TDEE and, with goal "lose", the TDEE less 500 are
    finite (neither infinite nor NaN). *)
Theorem complete_profile_returns_iff (h w : float) (a : Z) (sx : string)
    (act g : option string) :
  complete (mkProfile (Some h) (Some w) (Some a) (Some sx) act g) = true ->
  ((exists m : Metrics,
      calculate_metrics (Some (mkProfile (Some h) (Some w) (Some a) (Some sx) act g))
      = Ok m)
   <->
   (is_finite (cm_to_m h) && is_infinity (cm_to_m h * cm_to_m h) = false /\
    (cm_to_m h * cm_to_m h =? 0)%float = false /\
    exists b : float,
      bmr_float w h a (Py.upper sx) = Ok b /\
      is_Some (finite_parts b) /\
      is_Some (finite_parts (b * activity_multiplier act)%float) /\
      (goal_is_lose g = true ->
       is_Some (finite_parts (b * activity_multiplier act - 500)%float)))).
Proof.
  intros Hc. rewrite calculate_metrics_complete by exact Hc.
  split.
  - intros [m Hm]. unfold metrics_of in Hm.
    bind_inv Hm h2 Hh2. bind_inv Hm q Hq. bind_inv Hm b Hb.
    bind_inv Hm t Ht. bind_inv Hm rb Hrb. bind_inv Hm rt Hrt.
    unfold Py.pow2 in Hh2.
    destruct (is_finite (cm_to_m h) && is_infinity (cm_to_m h * cm_to_m h));
      [discriminate Hh2 |].
    inversion Hh2; subst h2.
    apply truediv_ok in Hq. destruct Hq as [_ Hz].
    split; [reflexivity |]. split; [exact Hz |].
    exists b. split; [reflexivity |].
    split; [exact (round_ok_finite _ _ Hrb) |].
    split; [exact (round_ok_finite _ _ Hrt) |].
    intros Hl. rewrite Hl in Ht. unfold target_of in Ht.
    bind_inv Ht t1 Ht1. exact (round_ok_finite _ _ Ht1).
  - intros (Hov & Hz & b & Hb & Fb & Ft & Fd).
    unfold metrics_of, Py.pow2, Py.truediv.
    rewrite Hov. cbn [mbind result_bind]. rewrite Hz, Hb. cbn [mbind result_bind].
    destruct (round_returns _ Fb) as [rb Hrb].
    destruct (round_returns _ Ft) as [rt Hrt].
    destruct (int_returns _ Fb) as [tb Htb].
    unfold target_of.
    destruct (goal_is_lose g).
    + destruct (round_returns _ (Fd eq_refl)) as [rd Hrd].
      rewrite Hrd. cbn [mbind result_bind]. rewrite Htb. cbn [mbind result_bind].
      rewrite Hrb. cbn [mbind result_bind]. rewrite Hrt. cbn [mbind result_bind].
      eexists; reflexivity.
    + rewrite Hrt. cbn [mbind result_bind].
      rewrite Hrb. cbn [mbind result_bind].
      eexists; reflexivity.
Qed.

Lemma complete_profile_returns_iff_witness :
  (exists m : Metrics,
     calculate_metrics (Some (reference_profile "very_active" "lose")) = Ok m)
  <->
  (is_finite (cm_to_m 170) && is_infinity (cm_to_m 170 * cm_to_m 170) = false /\
   (cm_to_m 170 * cm_to_m 170 =? 0)%float = false /\
   exists b : float,
     bmr_float 70 170 30 (Py.upper "M") = Ok b /\
     is_Some (finite_parts b) /\
     is_Some (finite_parts (b * activity_multiplier (Some "very_active"))%float) /\
     (goal_is_lose (Some "lose") = true ->
      is_Some (finite_parts (b * activity_multiplier (Some "very_active") - 500)%float))).
Proof.
  apply (complete_profile_returns_iff 170 70 30 "M" (Some "very_active") (Some "lose")).
  reflexivity.
Defined.

(** * The profile page: what is stored comes back as typed *)

Lemma In_Zrange (n : nat) (start z : Z) :
  start <= z < start + Z.of_nat n -> In z (Zrange n start).
Proof.
  revert start. induction n as [| n IH]; intros start Hz; [lia |].
  cbn [Zrange]. destruct (Z.eq_dec start z) as [-> | Hne]; [left; reflexivity |].
  right. apply IH. lia.
Qed.

(** What a successful view shows of a stored height. *)
Lemma profile_view_height (p : Profile) (v : ProfileView) (h : float) :
  profile_view (Some p) = Ok v ->
  height_in p = Some h ->
  Py.float_truthy h = true -> Py.float_truthy (h / 2.54)%float = true ->
  exists (q r : float) (n : Z),
    PyFloat.floordiv (h / 2.54)%float 12 = Ok q /\ Py.int q = Ok n /\
    PyFloat.mod_ (h / 2.54)%float 12 = Ok r /\
    view_ft v = Some n /\ view_inch v = Some (Py.round1 r).
Proof.
  unfold profile_view. intros H Hh Th Ti.
  rewrite Hh, Th, Ti in H.
  bind_inv H metrics Hmet. bind_inv H ft Hft. bind_inv H inch Hinch.
  bind_inv Hft q Hq. bind_inv Hft n Hn. bind_inv Hinch r Hr.
  inversion Hft; inversion Hinch; inversion H; subst.
  exists q, r, n. repeat split; assumption.
Qed.

(** What a successful view shows of a stored weight. *)
Lemma profile_view_weight (p : Profile) (v : ProfileView) (w : float) :
  profile_view (Some p) = Ok v ->
  weight_lb p = Some w -> Py.float_truthy w = true ->
  view_lb v = Some (Py.round1 (kg_to_lbs w)).
Proof.
  unfold profile_view. intros H Hw Tw.
  rewrite Hw, Tw in H.
  bind_inv H metrics Hmet. bind_inv H ft Hft. bind_inv H inch Hinch.
  inversion H. reflexivity.
Qed.

Lemma height_comes_back_grid :
  forallb (fun f => forallb (fun k => (f =? 0) && (k =? 0) || height_comes_back f k)
                            (Zrange 120 0))
          (Zrange 10 0) = true.
Proof. vm_compute. reflexivity. Qed.

(** X7.  A height typed as 0 to 9 whole feet and 0.0 to 11.9 inches, in
    tenths, and not zero altogether, is shown again by the profile page
    exactly as typed, whenever the page is rendered at all. *)
Theorem height_shown_as_typed (f k : Z) (lb : float) (age_raw : Z)
    (sx act g : option string) (v : ProfileView) :
  0 <= f <= 9 -> 0 <= k <= 119 -> f <> 0 \/ k <> 0 ->
  profile_view
    (Some (profile_update (PyFloat.of_int f) (decimal1 k) lb age_raw sx act g)) = Ok v ->
  view_ft v = Some f /\ view_inch v = Some (decimal1 k).
Proof.
  intros Hf Hk Hnz Hv.
  assert (G := height_comes_back_grid).
  rewrite forallb_forall in G.
  specialize (G f (In_Zrange 10 0 f ltac:(lia))).
  rewrite forallb_forall in G.
  specialize (G k (In_Zrange 120 0 k ltac:(lia))).
  apply orb_prop in G. destruct G as [G | G].
  { apply andb_prop in G. destruct G as [G1 G2]. lia. }
  unfold height_comes_back in G. cbv zeta in G.
  set (h := ft_in_to_cm (PyFloat.of_int f) (decimal1 k)) in *.
  apply andb_prop in G. destruct G as [G G4].
  apply andb_prop in G. destruct G as [G G3].
  apply andb_prop in G. destruct G as [G1 G2].
  destruct (profile_view_height _ v h Hv) as (q & r & n & Hq & Hn & Hr & Vf & Vi);
    [unfold profile_update; cbn [height_in]; rewrite G1; reflexivity
    | exact G2 | exact G3 |].
  rewrite Hq, Hr, Hn in G4.
  apply andb_prop in G4. destruct G4 as [E1 E2].
  apply Z.eqb_eq in E1. apply Leibniz.eqb_spec in E2.
  split; congruence.
Qed.

Lemma height_shown_as_typed_witness :
  view_ft (mkProfileView (mkMetrics (Some 24.1%float) (Some 1617) (Some 2507) (Some 2507))
                         (Some 5) (Some 7%float) (Some 154%float)) = Some 5 /\
  view_inch (mkProfileView (mkMetrics (Some 24.1%float) (Some 1617) (Some 2507) (Some 2507))
                           (Some 5) (Some 7%float) (Some 154%float)) = Some (decimal1 70).
Proof.
  apply (height_shown_as_typed 5 70 154 30 (Some "m") None None).
  - lia.
  - lia.
  - left. lia.
  - vm_compute. reflexivity.
Defined.

Lemma weight_comes_back_range : forallb weight_comes_back (Zrange (Z.to_nat 10000) 1) = true.
Proof. vm_compute. reflexivity. Qed.

(** X8.  A weight typed as 0.1 to 1000.0 pounds, in tenths, is shown again
    by the profile page exactly as typed, whenever the page is rendered at
    all. *)
Theorem weight_shown_as_typed (k : Z) (ft inch : float) (age_raw : Z)
    (sx act g : option string) (v : ProfileView) :
  1 <= k <= 10000 ->
  profile_view (Some (profile_update ft inch (decimal1 k) age_raw sx act g)) = Ok v ->
  view_lb v = Some (decimal1 k).
Proof.
  intros Hk Hv.
  assert (G := weight_comes_back_range).
  rewrite forallb_forall in G.
  specialize (G k (In_Zrange (Z.to_nat 10000) 1 k ltac:(lia))).
  unfold weight_comes_back in G.
  apply andb_prop in G. destruct G as [G G3].
  apply andb_prop in G. destruct G as [G1 G2].
  apply Leibniz.eqb_spec in G3. rewrite <- G3.
  apply (profile_view_weight _ v (lbs_to_kg (decimal1 k)) Hv); [| exact G2].
  unfold profile_update. cbn [weight_lb]. rewrite G1. reflexivity.
Qed.

Lemma weight_shown_as_typed_witness :
  view_lb (mkProfileView (mkMetrics (Some 24.2%float) (Some 1619) (Some 2510) (Some 2510))
                         (Some 5) (Some 7%float) (Some 154.5%float))
  = Some (decimal1 1545).
Proof.
  apply (weight_shown_as_typed 1545 5 7 30 (Some "m") None None).
  - lia.
  - vm_compute. reflexivity.
Defined.

(** * The dashboard's weekly totals *)

Lemma py_sum_from (xs : list Z) (a : Z) : fold_left Z.add xs a = a + py_sum xs.
Proof.
  unfold py_sum. revert a.
  induction xs as [| x xs IH]; intros a; cbn [fold_left]; [lia |].
  rewrite IH, (IH (0 + x)). lia.
Qed.

Lemma py_sum_cons (x : Z) (xs : list Z) : py_sum (x :: xs) = x + py_sum xs.
Proof. unfold py_sum at 1. cbn [fold_left]. rewrite py_sum_from. lia. Qed.

Lemma py_sum_Permutation (xs ys : list Z) : Permutation xs ys -> py_sum xs = py_sum ys.
Proof.
  induction 1 as [| x xs ys _ IH | x y xs | xs ys zs _ IH1 _ IH2];
    rewrite ?py_sum_cons; lia.
Qed.

Lemma filter_Permutation_bool {A : Type} (f : A -> bool) (xs ys : list A) :
  Permutation xs ys -> Permutation (List.filter f xs) (List.filter f ys).
Proof.
  induction 1 as [| x xs ys _ IH | x y xs | xs ys zs _ IH1 _ IH2]; cbn [List.filter].
  - constructor.
  - destruct (f x); [constructor |]; exact IH.
  - destruct (f x), (f y); try reflexivity. constructor.
  - etransitivity; eassumption.
Qed.

(** On rows that all have a date, the comprehension of line 273 is a
    filter. *)
Lemma week_entries_dated (week_start : Z) (recent : list Entry.t) :
  Forall (fun e => Entry.date e <> None) recent ->
  week_entries week_start recent
  = Ok (List.filter (fun e => match Entry.date e with
                              | Some d => week_start <=? d
                              | None => false
                              end) recent).
Proof.
  induction 1 as [| e recent He _ IH]; cbn [week_entries List.filter]; [reflexivity |].
  destruct (Entry.date e) as [d |]; [| congruence].
  rewrite IH. cbn [mbind result_bind]. reflexivity.
Qed.

Lemma recent_rows_dated (table : list Entry.t) (uid start : Z) :
  Forall (fun e => Entry.date e <> None) (recent_rows table uid start).
Proof.
  unfold recent_rows. apply List.Forall_forall. intros e He.
  apply List.filter_In in He. destruct He as [_ He].
  destruct (Entry.date e); [discriminate | rewrite andb_false_r in He; discriminate].
Qed.

(** The week's filter after the query's filter is the week's filter. *)
Lemma week_of_recent_rows (table : list Entry.t) (uid today : Z) :
  List.filter (fun e => match Entry.date e with
                        | Some d => today - 6 <=? d
                        | None => false
                        end)
              (recent_rows table uid (today - 14))
  = List.filter (in_week uid today) table.
Proof.
  unfold recent_rows, in_week.
  induction table as [| e table IH]; cbn [List.filter]; [reflexivity |].
  destruct (Entry.user_id e =? uid); cbn [andb]; [| exact IH].
  destruct (Entry.date e) as [d |] eqn:Hd; [| exact IH].
  destruct (today - 14 <=? d) eqn:E14, (today - 6 <=? d) eqn:E6;
    cbn [List.filter]; rewrite ?Hd, ?E6; try (rewrite IH; reflexivity); try exact IH.
  apply Z.leb_le in E6. apply Z.leb_gt in E14. lia.
Qed.

(** X9.  Whatever order the database returns the selected rows in, the
    week's totals are the sums, over the whole table, of the calories of
    the user's own entries dated six days ago or later (later than today
    included), a NULL calorie count adding 0; rows with a NULL date are
    left out by the query, so the date comparison never raises. *)
Theorem week_totals_of_table (table recent : list Entry.t) (uid today : Z) :
  Permutation recent (recent_rows table uid (today - 14)) ->
  week_totals today recent
  = Ok (py_sum (List.map (fun e => int_or_0 (Entry.calories_in e))
                         (List.filter (in_week uid today) table)),
        py_sum (List.map (fun e => int_or_0 (Entry.calories_out e))
                         (List.filter (in_week uid today) table))).
Proof.
  intros HP. unfold week_totals.
  assert (Hd : Forall (fun e => Entry.date e <> None) recent).
  { eapply Permutation_Forall; [symmetry; exact HP | apply recent_rows_dated]. }
  rewrite (week_entries_dated _ _ Hd). cbn [mbind result_bind].
  assert (HW := filter_Permutation_bool
                  (fun e => match Entry.date e with
                            | Some d => today - 6 <=? d
                            | None => false
                            end) _ _ HP).
  rewrite week_of_recent_rows in HW.
  f_equal. f_equal; apply py_sum_Permutation, Permutation_map, HW.
Qed.

Lemma week_totals_of_table_witness :
  week_totals 739000
    [Entry.mk 1 (Some 739020) (Some 500) None;
     Entry.mk 1 (Some 739000) (Some 2000) (Some 300);
     Entry.mk 1 (Some 738990) None (Some 100)]
  = Ok (py_sum (List.map (fun e => int_or_0 (Entry.calories_in e))
                  (List.filter (in_week 1 739000)
                     [Entry.mk 1 (Some 738990) None (Some 100);
                      Entry.mk 2 (Some 739000) (Some 900) (Some 900);
                      Entry.mk 1 None (Some 700) None;
                      Entry.mk 1 (Some 739000) (Some 2000) (Some 300);
                      Entry.mk 1 (Some 738000) (Some 1500) None;
                      Entry.mk 1 (Some 739020) (Some 500) None])),
        py_sum (List.map (fun e => int_or_0 (Entry.calories_out e))
                  (List.filter (in_week 1 739000)
                     [Entry.mk 1 (Some 738990) None (Some 100);
                      Entry.mk 2 (Some 739000) (Some 900) (Some 900);
                      Entry.mk 1 None (Some 700) None;
                      Entry.mk 1 (Some 739000) (Some 2000) (Some 300);
                      Entry.mk 1 (Some 738000) (Some 1500) None;
                      Entry.mk 1 (Some 739020) (Some 500) None]))).
Proof.
  apply (week_totals_of_table _ _ 1 739000).
  vm_compute.
  apply perm_trans with
    [Entry.mk 1 (Some 739020) (Some 500) None;
     Entry.mk 1 (Some 738990) None (Some 100);
     Entry.mk 1 (Some 739000) (Some 2000) (Some 300)].
  - apply perm_skip. apply perm_swap.
  - apply (Permutation_cons_append
             [Entry.mk 1 (Some 738990) None (Some 100);
              Entry.mk 1 (Some 739000) (Some 2000) (Some 300)]
             (Entry.mk 1 (Some 739020) (Some 500) None)).
Defined.

(** * The shape of the recommendations *)

(** X10.  [exercise_recommendations] never raises.  It returns the
    empty list when there is no profile; six entries, all carrying a note,
    for a profile whose goal is "lose" in any letter case; and seven
    entries for a profile with any other goal or with none.  Every entry has
    a name, a type, a duration of at least ten minutes, and either an
    intensity or a MET value. *)
Theorem recommendations_shape (profile : option Profile) :
  exists recs : list (gmap string value),
    exercise_recommendations profile = Ok recs /\
    forallb renderable recs = true /\
    match profile with
    | None => recs = []
    | Some p =>
        ((exists s : string, goal p = Some s /\ Py.lower s = "lose") ->
         length recs = 6%nat /\ forallb has_note recs = true) /\
        ((forall s : string, goal p = Some s -> Py.lower s <> "lose") ->
         length recs = 7%nat)
    end.
Proof.
  destruct profile as [p |]; cbn [exercise_recommendations].
  - destruct (goal_is_lose (goal p)) eqn:E.
    + rewrite (lose_loop_spec base [] base_loop_ready). cbn [mbind result_bind].
      eexists. split; [reflexivity |].
      split; [vm_compute; reflexivity |].
      split.
      * intros _. split; vm_compute; reflexivity.
      * intros Ho. rewrite (goal_is_lose_other _ Ho) in E. discriminate E.
    + eexists. split; [reflexivity |].
      split; [vm_compute; reflexivity |].
      split.
      * intros Hl. apply goal_is_lose_iff in Hl. congruence.
      * intros _. vm_compute; reflexivity.
  - exists []. repeat split.
Qed.

Lemma recommendations_shape_witness :
  (exists recs : list (gmap string value),
     exercise_recommendations
       (Some (mkProfile None None None None None (Some "LOSE"))) = Ok recs /\
     length recs = 6%nat /\ forallb has_note recs = true) /\
  (exists recs : list (gmap string value),
     exercise_recommendations
       (Some (mkProfile None None None None None (Some "maintain"))) = Ok recs /\
     length recs = 7%nat).
Proof.
  split.
  - destruct (recommendations_shape
                (Some (mkProfile None None None None None (Some "LOSE"))))
      as (recs & Hr & _ & Hl & _).
    exists recs. split; [exact Hr |]. apply Hl.
    exists "LOSE". split; reflexivity.
  - destruct (recommendations_shape
                (Some (mkProfile None None None None None (Some "maintain"))))
      as (recs & Hr & _ & _ & Ho).
    exists recs. split; [exact Hr |]. apply Ho.
    intros s Hs. inversion Hs. discriminate.
Defined.

(** * What a profile update stores *)

Lemma ascii_upper_idempotent (c : ascii) :
  Py.ascii_upper (Py.ascii_upper c) = Py.ascii_upper c.
Proof. destruct c as [[] [] [] [] [] [] [] []]; reflexivity. Qed.

Lemma upper_idempotent (s : string) : Py.upper (Py.upper s) = Py.upper s.
Proof.
  induction s as [| c s IH]; cbn [Py.upper]; [reflexivity |].
  rewrite ascii_upper_idempotent, IH. reflexivity.
Qed.

Lemma str_or_nonempty (x : option string) (d : string) : d <> "" -> Py.str_or x d <> "".
Proof. destruct x as [[| c s] |]; cbn [Py.str_or]; intros H; [exact H | discriminate | exact H]. Qed.

(** X11.  A profile update never stores a falsy value in the age, sex,
    activity or goal columns: a stored age is not zero; a stored sex is not
    empty and is in upper case; activity and goal are always stored and
    never empty. *)
Theorem profile_update_stores_no_blank (ft inch lb : float) (age_raw : Z)
    (sex_raw activity_raw goal_raw : option string) :
  (forall n : Z,
     age (profile_update ft inch lb age_raw sex_raw activity_raw goal_raw) = Some n ->
     n = age_raw /\ n <> 0) /\
  (forall s : string,
     sex (profile_update ft inch lb age_raw sex_raw activity_raw goal_raw) = Some s ->
     s <> "" /\ Py.upper s = s) /\
  (exists act : string,
     activity (profile_update ft inch lb age_raw sex_raw activity_raw goal_raw) = Some act
     /\ act <> "") /\
  (exists g : string,
     goal (profile_update ft inch lb age_raw sex_raw activity_raw goal_raw) = Some g
     /\ g <> "").
Proof.
  unfold profile_update. cbn [age sex activity goal].
  split; [| split; [| split]].
  - intros n. destruct (Z.eqb_spec age_raw 0); intros H; inversion H. subst. split; auto.
  - intros s.
    destruct (Py.upper (Py.str_or sex_raw "")) as [| c u] eqn:Hu; intros H; inversion H.
    split; [discriminate |]. rewrite <- Hu. apply upper_idempotent.
  - eexists. split; [reflexivity |]. apply str_or_nonempty. discriminate.
  - eexists. split; [reflexivity |]. apply str_or_nonempty. discriminate.
Qed.

(** X12.  After an update whose form has both height fields zero, or the
    weight zero, or the age zero, or no sex, the metrics of the stored
    profile are all unknown, and nothing is raised. *)
Theorem blank_form_gives_unknown (ft inch lb : float) (age_raw : Z)
    (sex_raw activity_raw goal_raw : option string) :
  ((ft =? 0)%float = true /\ (inch =? 0)%float = true) \/ (lb =? 0)%float = true \/
  age_raw = 0 \/ sex_raw = None \/ sex_raw = Some "" ->
  calculate_metrics
    (Some (profile_update ft inch lb age_raw sex_raw activity_raw goal_raw))
  = Ok unknown_metrics.
Proof.
  intros H. unfold profile_update, Py.float_truthy.
  destruct H as [[H1 H2] | [H | [H | [H | H]]]].
  - rewrite H1, H2. reflexivity.
  - rewrite H. cbn [negb].
    destruct (negb (ft =? 0)%float || negb (inch =? 0)%float); reflexivity.
  - subst age_raw. cbn [Z.eqb].
    destruct (negb (ft =? 0)%float || negb (inch =? 0)%float);
      destruct (negb (lb =? 0)%float); reflexivity.
  - subst sex_raw. cbn [Py.str_or Py.upper].
    destruct (negb (ft =? 0)%float || negb (inch =? 0)%float);
      destruct (negb (lb =? 0)%float); destruct (age_raw =? 0); reflexivity.
  - subst sex_raw. cbn [Py.str_or Py.upper].
    destruct (negb (ft =? 0)%float || negb (inch =? 0)%float);
      destruct (negb (lb =? 0)%float); destruct (age_raw =? 0); reflexivity.
Qed.

Lemma blank_form_gives_unknown_witness :
  calculate_metrics (Some (profile_update 5 7 0 30 (Some "F") None None))
  = Ok unknown_metrics.
Proof.
  apply (blank_form_gives_unknown 5 7 0 30 (Some "F") None None).
  right; left. reflexivity.
Defined.

(** X13.  The conversions are inverse to each other the other way round as
    well: for every double [v] from 1e-300 to 1e300, kilograms to pounds and
    back gives [v] again within a relative tolerance of 1e-6. *)
Theorem kg_round_trip (v : float) :
  (1e-300 <=? v)%float = true -> (v <=? 1e300)%float = true ->
  within_rel_tol 1000000 v (lbs_to_kg (kg_to_lbs v)) = true.
Proof.
  intros L U.
  destruct (normal_between 1e-300 1e300 v
              6032057205060441 6724873095247260 (-1049) 944)
    as (m & e & Hv & Hm & He); [reflexivity | reflexivity | lia | exact L | exact U |].
  unfold within_rel_tol, finite_parts, kg_to_lbs, lbs_to_kg.
  rewrite div_spec, mul_spec, Hv.
  change (Prim2SF 2.20462) with (S754_finite false 4964362905246771 (-51)).
  destruct (SF_mul_div_close 4964362905246771 (-51)) with (m := m) (e := e)
    as (M & E & HME & Hclose); try lia.
  unfold SF64mul, SF64div. rewrite HME. cbn [cond_Zopp].
  apply Z.leb_le. rewrite (Z.abs_eq (Zpos m * _)); [exact Hclose |].
  apply Z.mul_nonneg_nonneg; [lia | apply Z.pow_nonneg; lia].
Qed.

Lemma kg_round_trip_witness :
  within_rel_tol 1000000 70 (lbs_to_kg (kg_to_lbs 70)) = true.
Proof. apply (kg_round_trip 70); reflexivity. Defined.

(** * Finite arithmetic away from overflow and underflow *)

Lemma tame_weaken (L U L' U' : Z) (x : spec_float) :
  tame L U x -> L' <= L -> U <= U' -> tame L' U' x.
Proof. destruct x; cbn [tame]; try tauto. lia. Qed.

Lemma iter_xO_value (m k : positive) :
  Zpos (Pos.iter xO m k) = Zpos m * 2 ^ Zpos k.
Proof.
  apply (Pos.iter_ind positive xO m (fun p r => Zpos r = Zpos m * 2 ^ Zpos p)).
  - rewrite Pos2Z.inj_xO. change (2 ^ 1) with 2. lia.
  - intros p r IH. rewrite Pos2Z.inj_xO, IH, Pos2Z.inj_succ, Z.pow_succ_r by lia. lia.
Qed.

Lemma digits2_pos_le (m : positive) (K : Z) :
  Zpos m < 2 ^ K -> Zpos (digits2_pos m) <= K.
Proof.
  intros H. destruct (digits2_pos_bounds m) as [Bl _].
  destruct (Z_lt_le_dec K (Zpos (digits2_pos m))) as [Hlt |]; [| assumption].
  assert (K < 0 \/ 0 <= K) as [Hn | Hn] by lia.
  - rewrite Z.pow_neg_r in H by lia. lia.
  - assert (2 ^ K <= 2 ^ (Zpos (digits2_pos m) - 1)) by (apply Z.pow_le_mono_r; lia).
    lia.
Qed.

(** [shl_align] keeps the value. *)
Lemma shl_align_value (m : positive) (e e' : Z) :
  e' <= e -> Zpos (fst (shl_align m e e')) = Zpos m * 2 ^ (e - e').
Proof.
  intros H. unfold shl_align.
  destruct (e' - e) as [| k | k] eqn:Hk; cbn [fst]; try lia.
  - replace (e - e') with 0 by lia. lia.
  - rewrite iter_xO_value. f_equal. f_equal. lia.
Qed.

(** Rounding a mantissa of any length, in the normal range. *)
Lemma binary_round_normal (s : bool) (m : positive) (e : Z) :
  -1074 <= Zpos (digits2_pos m) + e - 53 ->
  Zpos (digits2_pos m) + e <= 1023 ->
  exists (M : positive) (E : Z),
    binary_round prec emax s m e = S754_finite s M E /\
    2 ^ 52 <= Zpos M < 2 ^ 53 /\
    Zpos (digits2_pos m) + e - 53 <= E <= Zpos (digits2_pos m) + e - 52.
Proof.
  intros Hlo Hhi. unfold binary_round, shl_align.
  unfold fexp, SpecFloat.emin, prec, emax.
  rewrite Z.max_l by lia.
  set (d := Zpos (digits2_pos m)) in *.
  destruct (d + e - 53 - e) as [| k | k] eqn:Hk.
  - destruct (binary_round_aux_faithful s m e loc_Exact) as (M & E & HE & HM & HEe & _);
      try (fold d; lia).
    exists M, E. fold d in HEe. repeat split; try assumption; lia.
  - destruct (binary_round_aux_faithful s m e loc_Exact) as (M & E & HE & HM & HEe & _);
      try (fold d; lia).
    exists M, E. fold d in HEe. repeat split; try assumption; lia.
  - assert (Hv := iter_xO_value m k).
    destruct (digits2_pos_bounds m) as [Bl Bh]. fold d in Bl, Bh.
    assert (Hk' : Zpos k = 53 - d) by lia.
    assert (P1 : 2 ^ 52 = 2 ^ (d - 1) * 2 ^ Zpos k)
      by (rewrite <- Z.pow_add_r by lia; f_equal; lia).
    assert (P2 : 2 ^ 53 = 2 ^ d * 2 ^ Zpos k)
      by (rewrite <- Z.pow_add_r by lia; f_equal; lia).
    assert (P0 : 0 < 2 ^ Zpos k) by (apply Z.pow_pos_nonneg; lia).
    assert (D : Zpos (digits2_pos (Pos.iter xO m k)) = 53)
      by (apply digits2_pos_unique; [lia |]; change (53 - 1) with 52; nia).
    destruct (binary_round_aux_faithful s (Pos.iter xO m k) (d + e - 53) loc_Exact)
      as (M & E & HE & HM & HEe & _); try (rewrite D; lia).
    exists M, E. rewrite D in HEe. repeat split; try assumption; lia.
Qed.

Lemma binary_normalize_tame (S e L U : Z) :
  -1074 <= L -> U <= 971 ->
  (S <> 0 -> L <= Zdigits2 S + e - 53 /\ Zdigits2 S + e - 52 <= U) ->
  tame L U (binary_normalize prec emax S e false).
Proof.
  intros HL HU H. unfold binary_normalize.
  destruct S as [| m | m]; [exact I | |].
  - destruct H as [H1 H2]; [discriminate |]. cbn [Zdigits2] in H1, H2.
    destruct (binary_round_normal false m e) as (M & E & HE & HM & HEe); [lia | lia |].
    rewrite HE. cbn [tame]. split; [exact HM | lia].
  - destruct H as [H1 H2]; [discriminate |]. cbn [Zdigits2] in H1, H2.
    destruct (binary_round_normal true m e) as (M & E & HE & HM & HEe); [lia | lia |].
    rewrite HE. cbn [tame]. split; [exact HM | lia].
Qed.

(** Sums and differences of tame doubles are tame. *)
Lemma aligned_sum_tame (sx sy : bool) (mx my : positive) (ex ey L U : Z) :
  2 ^ 52 <= Zpos mx < 2 ^ 53 -> 2 ^ 52 <= Zpos my < 2 ^ 53 ->
  L <= ex <= U -> L <= ey <= U -> -1022 <= L -> U <= 969 ->
  forall sgn : bool,
  tame (L - 52) (U + 2)
    (binary_normalize prec emax
       (cond_Zopp sx (Zpos (fst (shl_align mx ex (Z.min ex ey))))
        + cond_Zopp sgn (cond_Zopp sy (Zpos (fst (shl_align my ey (Z.min ex ey))))))
       (Z.min ex ey) false).
Proof.
  intros Hx Hy Hex Hey HL HU sgn.
  rewrite !shl_align_value by lia.
  set (ez := Z.min ex ey).
  assert (Px : 0 < 2 ^ (ex - ez)) by (apply Z.pow_pos_nonneg; subst ez; lia).
  assert (Py : 0 < 2 ^ (ey - ez)) by (apply Z.pow_pos_nonneg; subst ez; lia).
  assert (Bx : Zpos mx * 2 ^ (ex - ez) < 2 ^ (53 + U - ez)).
  { replace (53 + U - ez) with (53 + (ex - ez) + (U - ex)) by lia.
    rewrite !Z.pow_add_r by (subst ez; lia).
    assert (1 <= 2 ^ (U - ex)) by (apply (Z.pow_le_mono_r 2 0); lia).
    nia. }
  assert (By : Zpos my * 2 ^ (ey - ez) < 2 ^ (53 + U - ez)).
  { replace (53 + U - ez) with (53 + (ey - ez) + (U - ey)) by lia.
    rewrite !Z.pow_add_r by (subst ez; lia).
    assert (1 <= 2 ^ (U - ey)) by (apply (Z.pow_le_mono_r 2 0); lia).
    nia. }
  set (X := Zpos mx * 2 ^ (ex - ez)) in *. set (Y := Zpos my * 2 ^ (ey - ez)) in *.
  set (S := cond_Zopp sx X + cond_Zopp sgn (cond_Zopp sy Y)).
  assert (HS : Z.abs S < 2 ^ (54 + U - ez)).
  { replace (54 + U - ez) with (Z.succ (53 + U - ez)) by lia.
    rewrite Z.pow_succ_r by (subst ez; lia).
    subst S. destruct sx, sy, sgn; cbn [cond_Zopp]; lia. }
  apply binary_normalize_tame; [lia | lia |].
  intros HS0.
  destruct S as [| p | p]; [congruence | |]; cbn [Zdigits2];
    (assert (Hd := digits2_pos_le p (54 + U - ez) ltac:(cbn [Z.abs] in HS; lia)));
    assert (0 < Zpos (digits2_pos p)) by lia; subst ez; lia.
Qed.

Lemma SFadd_tame (L U : Z) (x y : spec_float) :
  tame L U x -> tame L U y -> -1022 <= L -> U <= 969 ->
  tame (L - 52) (U + 2) (SFadd prec emax x y).
Proof.
  intros Hx Hy HL HU.
  destruct x as [sx | sx | | sx mx ex], y as [sy | sy | | sy my ey];
    cbn [tame] in Hx, Hy; try contradiction.
  - cbn. destruct sx, sy; exact I.
  - cbn [SFadd tame]. lia.
  - cbn [SFadd tame]. lia.
  - destruct Hx as [Hmx Hex], Hy as [Hmy Hey]. cbn [SFadd].
    exact (aligned_sum_tame sx sy mx my ex ey L U Hmx Hmy Hex Hey HL HU false).
Qed.

Lemma SFsub_tame (L U : Z) (x y : spec_float) :
  tame L U x -> tame L U y -> -1022 <= L -> U <= 969 ->
  tame (L - 52) (U + 2) (SFsub prec emax x y).
Proof.
  intros Hx Hy HL HU.
  destruct x as [sx | sx | | sx mx ex], y as [sy | sy | | sy my ey];
    cbn [tame] in Hx, Hy; try contradiction.
  - cbn. destruct sx, sy; exact I.
  - cbn [SFsub tame]. lia.
  - cbn [SFsub tame]. lia.
  - destruct Hx as [Hmx Hex], Hy as [Hmy Hey]. cbn [SFsub].
    assert (H := aligned_sum_tame sx sy mx my ex ey L U Hmx Hmy Hex Hey HL HU true).
    replace (cond_Zopp sx (Zpos (fst (shl_align mx ex (Z.min ex ey))))
             - cond_Zopp sy (Zpos (fst (shl_align my ey (Z.min ex ey)))))
      with (cond_Zopp sx (Zpos (fst (shl_align mx ex (Z.min ex ey))))
            + cond_Zopp true (cond_Zopp sy (Zpos (fst (shl_align my ey (Z.min ex ey))))))
      by (cbn [cond_Zopp]; lia).
    exact H.
Qed.

Lemma SFmul_tame (L1 U1 L2 U2 : Z) (x y : spec_float) :
  tame L1 U1 x -> tame L2 U2 y -> -1126 <= L1 + L2 -> U1 + U2 <= 917 ->
  tame (L1 + L2 + 52) (U1 + U2 + 54) (SFmul prec emax x y).
Proof.
  intros Hx Hy HL HU.
  destruct x as [sx | sx | | sx mx ex], y as [sy | sy | | sy my ey];
    cbn [tame] in Hx, Hy; try contradiction; try exact I.
  destruct Hx as [Hmx Hex], Hy as [Hmy Hey]. cbn [SFmul].
  destruct (digits2_pos_bounds (mx * my)) as [Bl Bh].
  rewrite Pos2Z.inj_mul in Bl, Bh.
  assert (D : 105 <= Zpos (digits2_pos (mx * my)) <= 106).
  { set (d := Zpos (digits2_pos (mx * my))) in *.
    assert (2 ^ 104 <= Zpos mx * Zpos my < 2 ^ 106) by nia.
    split.
    - destruct (Z_lt_le_dec d 105) as [Hlt |]; [| assumption].
      assert (2 ^ d <= 2 ^ 104) by (apply Z.pow_le_mono_r; lia). lia.
    - destruct (Z_lt_le_dec 106 d) as [Hlt |]; [| assumption].
      assert (2 ^ 106 <= 2 ^ (d - 1)) by (apply Z.pow_le_mono_r; lia). lia. }
  destruct (binary_round_aux_faithful (xorb sx sy) (mx * my) (ex + ey) loc_Exact)
    as (M & E & HE & HM & HEe & _); try lia.
  rewrite HE. cbn [tame]. split; [exact HM | lia].
Qed.

Lemma tamef_mul (L1 U1 L2 U2 : Z) (x y : float) :
  tamef L1 U1 x -> tamef L2 U2 y -> -1126 <= L1 + L2 -> U1 + U2 <= 917 ->
  tamef (L1 + L2 + 52) (U1 + U2 + 54) (x * y).
Proof. unfold tamef. rewrite mul_spec. apply SFmul_tame. Qed.

Lemma tamef_add (L U : Z) (x y : float) :
  tamef L U x -> tamef L U y -> -1022 <= L -> U <= 969 ->
  tamef (L - 52) (U + 2) (x + y).
Proof. unfold tamef. rewrite add_spec. apply SFadd_tame. Qed.

Lemma tamef_sub (L U : Z) (x y : float) :
  tamef L U x -> tamef L U y -> -1022 <= L -> U <= 969 ->
  tamef (L - 52) (U + 2) (x - y).
Proof. unfold tamef. rewrite sub_spec. apply SFsub_tame. Qed.

Lemma tamef_weaken (L U L' U' : Z) (x : float) :
  tamef L U x -> L' <= L -> U <= U' -> tamef L' U' x.
Proof. apply tame_weaken. Qed.

Lemma tamef_finite (L U : Z) (x : float) : tamef L U x -> is_Some (finite_parts x).
Proof.
  unfold tamef, finite_parts.
  destruct (Prim2SF x); cbn [tame]; intros H; try contradiction; eexists; reflexivity.
Qed.

Lemma tame_valid (L U : Z) (x : spec_float) :
  tame L U x -> -1074 <= L -> U <= 971 -> valid_binary x = true.
Proof.
  destruct x as [s | s | | s m e]; cbn [tame]; try contradiction; try reflexivity.
  intros [Hm He] HL HU. cbn [SpecFloat.valid_binary]. unfold bounded, canonical_mantissa.
  rewrite (digits2_pos_unique m 53) by (change (53 - 1) with 52; lia).
  unfold fexp, SpecFloat.emin, prec, emax.
  apply andb_true_intro. split; [apply Z.eqb_eq | apply Z.leb_le]; lia.
Qed.

(** A float that is not an infinity, a NaN or a zero. *)
Lemma finite_not_infinity (x : float) :
  is_Some (finite_parts x) -> is_infinity x = false.
Proof.
  unfold finite_parts, is_infinity. rewrite FloatAxioms.eqb_spec, abs_spec.
  change (Prim2SF infinity) with (S754_infinity false).
  destruct (Prim2SF x) as [s | s | | s m e]; intros [y Hy]; try discriminate Hy;
    reflexivity.
Qed.

Lemma nonzero_finite_truthy (x : float) (s : bool) (m : positive) (e : Z) :
  Prim2SF x = S754_finite s m e -> (x =? 0)%float = false.
Proof.
  intros H. rewrite FloatAxioms.eqb_spec, H.
  change (Prim2SF 0) with (S754_zero false). destruct s; reflexivity.
Qed.

(** An [int] below [2^K] in magnitude converts without overflow. *)
Lemma int_to_float_small (n K : Z) :
  1 <= K <= 1000 -> - 2 ^ K < n < 2 ^ K ->
  exists f : float, Py.int_to_float n = Ok f /\ tamef (-52) (K - 52) f.
Proof.
  intros HK Hn. unfold Py.int_to_float.
  assert (T : tame (-52) (K - 52) (binary_normalize prec emax n 0 false)).
  { apply binary_normalize_tame; [lia | lia |].
    intros Hn0. destruct n as [| p | p]; [congruence | |]; cbn [Zdigits2];
      (assert (Hd := digits2_pos_le p K ltac:(lia)));
      assert (0 < Zpos (digits2_pos p)) by lia; lia. }
  assert (V := tame_valid _ _ _ T ltac:(lia) ltac:(lia)).
  assert (P : Prim2SF (SF2Prim (binary_normalize prec emax n 0 false))
              = binary_normalize prec emax n 0 false)
    by (apply Prim2SF_SF2Prim; exact V).
  assert (F : tamef (-52) (K - 52) (SF2Prim (binary_normalize prec emax n 0 false)))
    by (unfold tamef; rewrite P; exact T).
  rewrite (finite_not_infinity _ (tamef_finite _ _ _ F)).
  eexists. split; [reflexivity | exact F].
Qed.

(** The six activity multipliers. *)
Lemma activity_multiplier_tame (act : option string) :
  tamef (-52) (-52) (activity_multiplier act).
Proof.
  rewrite activity_multiplier_spec. unfold spec_multiplier.
  destruct act as [k |]; [| tame_literal].
  repeat match goal with
         | |- context [if String.eqb k ?s then _ else _] => destruct (String.eqb k s)
         end; tame_literal.
Qed.

(** * Profiles in a plausible range *)

(** The unrounded BMR of tame operands is tame. *)
Lemma bmr_float_tame (h w : float) (a U : Z) (s : string) :
  -50 <= U <= 280 ->
  tamef (-385) U h -> tamef (-385) U w ->
  - 2 ^ (U + 59) < 5 * a < 2 ^ (U + 59) ->
  exists b : float, bmr_float w h a s = Ok b /\ tamef (-593) (U + 16) b.
Proof.
  intros HU Th Tw Ha.
  destruct (int_to_float_small (5 * a) (U + 59)) as (a5 & Ha5 & Ta5); [lia | lia |].
  assert (T10 : tamef (-49) (-49) 10) by tame_literal.
  assert (T625 : tamef (-50) (-50) 6.25) by tame_literal.
  assert (T1 : tamef (-437) (U + 8) (10 * w)%float).
  { eapply tamef_weaken; [apply (tamef_mul _ _ _ _ _ _ T10 Tw) | |]; lia. }
  assert (T2 : tamef (-437) (U + 8) (6.25 * h)%float).
  { eapply tamef_weaken; [apply (tamef_mul _ _ _ _ _ _ T625 Th) | |]; lia. }
  assert (T3 : tamef (-489) (U + 10) (10 * w + 6.25 * h)%float).
  { eapply tamef_weaken; [apply (tamef_add _ _ _ _ T1 T2); lia | |]; lia. }
  assert (Ta : tamef (-489) (U + 10) a5).
  { eapply tamef_weaken; [exact Ta5 | |]; lia. }
  assert (T4 : tamef (-541) (U + 12) (10 * w + 6.25 * h - a5)%float).
  { eapply tamef_weaken; [apply (tamef_sub _ _ _ _ T3 Ta); lia | |]; lia. }
  set (c := (if String.eqb s "M" then 5 else -161)%float).
  assert (Tc : tamef (-541) (U + 12) c)
    by (subst c; destruct (String.eqb s "M"); tame_literal).
  exists (10 * w + 6.25 * h - a5 + c)%float. split.
  - unfold bmr_float. rewrite Ha5. reflexivity.
  - eapply tamef_weaken; [apply (tamef_add _ _ _ _ T4 Tc); lia | |]; lia.
Qed.

Section Plausible.

Variables (h w : float) (a : Z).
Hypothesis h_lo : (1e-100 <=? h)%float = true.
Hypothesis h_hi : (h <=? 1e100)%float = true.
Hypothesis w_lo : (1e-100 <=? w)%float = true.
Hypothesis w_hi : (w <=? 1e100)%float = true.
Hypothesis a_range : - 2 ^ 63 <= a < 2 ^ 63.

Lemma plausible_height :
  exists (m : positive) (e : Z),
    Prim2SF h = S754_finite false m e /\ 2 ^ 52 <= Zpos m < 2 ^ 53 /\ -385 <= e <= 280.
Proof.
  apply (normal_between 1e-100 1e100 h 7880401239278896 5147557589468029);
    [reflexivity | reflexivity | lia | exact h_lo | exact h_hi].
Qed.

Lemma plausible_weight :
  exists (m : positive) (e : Z),
    Prim2SF w = S754_finite false m e /\ 2 ^ 52 <= Zpos m < 2 ^ 53 /\ -385 <= e <= 280.
Proof.
  apply (normal_between 1e-100 1e100 w 7880401239278896 5147557589468029);
    [reflexivity | reflexivity | lia | exact w_lo | exact w_hi].
Qed.

(** The square of the height in metres is a positive normal double. *)
Lemma plausible_height_squared :
  exists (M : positive) (E : Z),
    Prim2SF (cm_to_m h * cm_to_m h)%float = S754_finite false M E.
Proof.
  destruct plausible_height as (mh & eh & Ph & Hmh & Heh).
  unfold cm_to_m. rewrite mul_spec, div_spec, Ph.
  change (Prim2SF 100) with (S754_finite false 7036874417766400 (-46)).
  destruct (SFdiv_faithful mh 7036874417766400 eh (-46))
    as (M1 & E1 & H1 & HM1 & HE1 & _); try lia.
  unfold SF64div, SF64mul. rewrite H1.
  destruct (SFmul_faithful M1 M1 E1 E1) as (M2 & E2 & H2 & _); try lia.
  exists M2, E2. exact H2.
Qed.

(** The unrounded BMR is computed without overflow. *)
Lemma plausible_bmr (s : string) :
  exists b : float, bmr_float w h a s = Ok b /\ tamef (-593) 296 b.
Proof.
  destruct plausible_height as (mh & eh & Ph & Hmh & Heh).
  destruct plausible_weight as (mw & ew & Pw & Hmw & Hew).
  apply (bmr_float_tame h w a 280); try lia.
  - unfold tamef; rewrite Ph; cbn [tame]; lia.
  - unfold tamef; rewrite Pw; cbn [tame]; lia.
Qed.

End Plausible.

(** A profile in the plausible range has every step of its metrics
    computed. *)
Lemma plausible_metrics_of (h w : float) (a : Z) (sx : string)
    (act g : option string) :
  (1e-100 <=? h)%float = true -> (h <=? 1e100)%float = true ->
  (1e-100 <=? w)%float = true -> (w <=? 1e100)%float = true ->
  - 2 ^ 63 <= a < 2 ^ 63 ->
  exists (x : float) (rb rt t : Z),
    metrics_of h w a sx act g = Ok (mkMetrics (Some x) (Some rb) (Some rt) (Some t)).
Proof.
  intros Lh Uh Lw Uw Ha.
  destruct (plausible_height_squared h Lh Uh) as (M2 & E2 & Hx).
  destruct (plausible_bmr h w a Lh Uh Lw Uw Ha (Py.upper sx)) as (b & Hb & Tb).
  assert (Tt : tamef (-593) 298 (b * activity_multiplier act)%float).
  { eapply tamef_weaken;
      [apply (tamef_mul _ _ _ _ _ _ Tb (activity_multiplier_tame act)) | |]; lia. }
  assert (T500 : tamef (-593) 298 500) by tame_literal.
  assert (Td : tamef (-645) 300 (b * activity_multiplier act - 500)%float)
    by (apply (tamef_sub _ _ _ _ Tt T500); lia).
  destruct (metrics_of_returns h w a sx act g (cm_to_m h * cm_to_m h)%float b)
    as [m Hm].
  - unfold Py.pow2.
    rewrite (finite_not_infinity (cm_to_m h * cm_to_m h)%float), andb_false_r;
      [reflexivity |].
    unfold finite_parts. rewrite Hx. eexists; reflexivity.
  - exact (nonzero_finite_truthy _ _ _ _ Hx).
  - exact Hb.
  - exact (tamef_finite _ _ _ Tb).
  - exact (tamef_finite _ _ _ Tt).
  - exact (tamef_finite _ _ _ Td).
  - rewrite Hm. apply metrics_of_ok in Hm.
    destruct Hm as (b' & t & rb & rt & _ & _ & _ & _ & _ & ->).
    eexists _, rb, rt, t. reflexivity.
Qed.

(** A height or weight in the plausible range is truthy. *)
Lemma plausible_truthy (v : float) :
  (1e-100 <=? v)%float = true -> (v <=? 1e100)%float = true ->
  Py.float_truthy v = true.
Proof.
  intros L U. destruct (plausible_height v L U) as (m & e & P & _).
  unfold Py.float_truthy. rewrite (nonzero_finite_truthy v _ _ _ P). reflexivity.
Qed.

(** X14.  A profile whose height and weight lie between 1e-100 and 1e100,
    whose age is a non-zero 64-bit integer and whose sex is not empty never
    makes [calculate_metrics] raise, whatever the activity and the goal: it
    returns a [Metrics] with its four fields known. *)
Theorem plausible_profile_never_raises (h w : float) (a : Z) (sx : string)
    (act g : option string) :
  (1e-100 <=? h)%float = true -> (h <=? 1e100)%float = true ->
  (1e-100 <=? w)%float = true -> (w <=? 1e100)%float = true ->
  a <> 0 -> - 2 ^ 63 <= a < 2 ^ 63 -> sx <> "" ->
  exists (x : float) (rb rt t : Z),
    calculate_metrics (Some (mkProfile (Some h) (Some w) (Some a) (Some sx) act g))
    = Ok (mkMetrics (Some x) (Some rb) (Some rt) (Some t)).
Proof.
  intros Lh Uh Lw Uw Ha0 Ha Hsx.
  assert (Hc : complete (mkProfile (Some h) (Some w) (Some a) (Some sx) act g) = true).
  { unfold complete. cbn [height_in weight_lb age sex].
    rewrite (plausible_truthy h Lh Uh), (plausible_truthy w Lw Uw).
    destruct (Z.eqb_spec a 0); [contradiction |].
    destruct (String.eqb_spec sx ""); [contradiction | reflexivity]. }
  rewrite calculate_metrics_complete by exact Hc.
  apply plausible_metrics_of; assumption.
Qed.

Lemma plausible_profile_never_raises_witness :
  exists (x : float) (rb rt t : Z),
    calculate_metrics
      (Some (mkProfile (Some 170%float) (Some 70%float) (Some 30) (Some "F") None None))
    = Ok (mkMetrics (Some x) (Some rb) (Some rt) (Some t)).
Proof.
  apply (plausible_profile_never_raises 170 70 30 "F" None None);
    try reflexivity; try lia; discriminate.
Defined.

(** * Rounding keeps the order *)

(** [round_half_even_mag] does not depend on the scale the value is written
    at. *)
Lemma round_half_even_mag_scale (m e s : Z) :
  0 < m -> s <= e -> s <= 0 ->
  Py.round_half_even_mag m e = Py.round_half_even_mag (m * 2 ^ (e - s)) s.
Proof.
  intros Hm Hse Hs. unfold Py.round_half_even_mag.
  destruct (Z.leb_spec 0 s) as [Hs0 | Hs0].
  - assert (s = 0) by lia. subst s.
    replace (0 <=? e) with true by (symmetry; apply Z.leb_le; lia).
    rewrite Z.sub_0_r, Z.pow_0_r. lia.
  - cbv zeta.
    assert (D2 : 0 < 2 ^ (- s)) by (apply Z.pow_pos_nonneg; lia).
    destruct (Z.leb_spec 0 e) as [He | He].
    + replace (m * 2 ^ (e - s)) with (m * 2 ^ e * 2 ^ (- s))
        by (rewrite <- Z.mul_assoc, <- Z.pow_add_r by lia; do 2 f_equal; lia).
      rewrite Z.div_mul, Z.mod_mul by lia.
      replace (2 * 0 ?= 2 ^ (- s)) with Lt by (symmetry; apply Z.compare_lt_iff; lia).
      reflexivity.
    + assert (C0 : 0 < 2 ^ (e - s)) by (apply Z.pow_pos_nonneg; lia).
      assert (D1 : 0 < 2 ^ (- e)) by (apply Z.pow_pos_nonneg; lia).
      replace (2 ^ (- s)) with (2 ^ (- e) * 2 ^ (e - s))
        by (rewrite <- Z.pow_add_r by lia; f_equal; lia).
      rewrite Z.div_mul_cancel_r, Z.mul_mod_distr_r by lia.
      replace (2 * (m mod 2 ^ (- e) * 2 ^ (e - s)) ?= 2 ^ (- e) * 2 ^ (e - s))
        with (2 * (m mod 2 ^ (- e)) ?= 2 ^ (- e)); [reflexivity |].
      rewrite Z.mul_assoc. apply Zmult_compare_compat_r. lia.
Qed.

(** At one scale it is monotone. *)
Lemma round_half_even_mag_mono_scale (V1 V2 s : Z) :
  0 <= V1 <= V2 -> s <= 0 ->
  Py.round_half_even_mag V1 s <= Py.round_half_even_mag V2 s.
Proof.
  intros HV Hs. unfold Py.round_half_even_mag.
  destruct (Z.leb_spec 0 s) as [Hs0 | Hs0].
  - assert (s = 0) by lia. subst s. rewrite Z.pow_0_r. lia.
  - cbv zeta.
    assert (D : 0 < 2 ^ (- s)) by (apply Z.pow_pos_nonneg; lia).
    assert (E1 := Z.div_mod V1 (2 ^ (- s)) ltac:(lia)).
    assert (E2 := Z.div_mod V2 (2 ^ (- s)) ltac:(lia)).
    assert (R1 := Z.mod_pos_bound V1 (2 ^ (- s)) D).
    assert (R2 := Z.mod_pos_bound V2 (2 ^ (- s)) D).
    set (d := 2 ^ (- s)) in *.
    set (q1 := V1 / d) in *. set (r1 := V1 mod d) in *.
    set (q2 := V2 / d) in *. set (r2 := V2 mod d) in *.
    assert (Hq : q1 < q2 \/ (q1 = q2 /\ r1 <= r2)) by nia.
    destruct Hq as [Hq | [Hq Hr]].
    + destruct (2 * r1 ?= d); [destruct (Z.even q1) | |];
        (destruct (2 * r2 ?= d); [destruct (Z.even q2) | |]); lia.
    + rewrite Hq.
      destruct (Z.compare_spec (2 * r1) d), (Z.compare_spec (2 * r2) d);
        try destruct (Z.even q2); lia.
Qed.

Lemma round_half_even_mag_mono (m1 e1 m2 e2 s : Z) :
  0 < m1 -> 0 < m2 -> s <= e1 -> s <= e2 -> s <= 0 ->
  m1 * 2 ^ (e1 - s) <= m2 * 2 ^ (e2 - s) ->
  Py.round_half_even_mag m1 e1 <= Py.round_half_even_mag m2 e2.
Proof.
  intros H1 H2 S1 S2 S0 H.
  rewrite (round_half_even_mag_scale m1 e1 s), (round_half_even_mag_scale m2 e2 s) by lia.
  apply round_half_even_mag_mono_scale; [| exact S0].
  split; [| exact H].
  apply Z.mul_nonneg_nonneg; [lia | apply Z.pow_nonneg; lia].
Qed.

Lemma round_half_even_mag_nonneg (m e : Z) : 0 <= m -> 0 <= Py.round_half_even_mag m e.
Proof.
  intros Hm. destruct (Z_lt_le_dec e 0) as [He | He].
  - apply round_half_even_mag_nearest; lia.
  - unfold Py.round_half_even_mag.
    replace (0 <=? e) with true by (symmetry; apply Z.leb_le; lia).
    apply Z.mul_nonneg_nonneg; [lia | apply Z.pow_nonneg; lia].
Qed.

(** A product by a factor of at least 1.2 is not below the other factor. *)
Lemma SFmul_grows (mb mc : positive) (eb : Z) :
  2 ^ 52 <= Zpos mb < 2 ^ 53 -> 5404319552844595 <= Zpos mc < 2 ^ 53 ->
  -1074 <= eb <= 969 ->
  exists (M : positive) (E : Z),
    SFmul prec emax (S754_finite false mb eb) (S754_finite false mc (-52))
    = S754_finite false M E /\
    2 ^ 52 <= Zpos M < 2 ^ 53 /\
    eb <= E <= eb + 2 /\ Zpos mb <= Zpos M * 2 ^ (E - eb).
Proof.
  intros Hb Hc He.
  destruct (SFmul_faithful mb mc eb (-52)) as (M & E & HE & HM & HEe & _ & Hu);
    try lia.
  exists M, E. split; [exact HE |]. split; [exact HM |]. split; [lia |].
  replace (E - (eb + -52)) with ((E - eb) + 52) in Hu by lia.
  rewrite Z.pow_add_r in Hu by lia.
  assert (U1 : 1 <= 2 ^ (E - eb)) by (apply (Z.pow_le_mono_r 2 0); lia).
  set (u := 2 ^ (E - eb)) in *.
  assert (Hprod : Zpos mb * 5404319552844595 <= Zpos mb * Zpos mc) by nia.
  nia.
Qed.

(** The multipliers are normal doubles of at least 1.2. *)
Lemma activity_multiplier_normal (act : option string) :
  exists mc : positive,
    Prim2SF (activity_multiplier act) = S754_finite false mc (-52) /\
    5404319552844595 <= Zpos mc < 2 ^ 53.
Proof.
  rewrite activity_multiplier_spec. unfold spec_multiplier.
  destruct act as [k |];
    repeat match goal with
           | |- context [if String.eqb k ?s then _ else _] => destruct (String.eqb k s)
           end;
    match goal with
    | |- context [Prim2SF ?c] =>
        let v := eval vm_compute in (Prim2SF c) in change (Prim2SF c) with v
    end;
    eexists; (split; [reflexivity | lia]).
Qed.

Lemma positive_tame (L U : Z) (x : float) :
  tamef L U x -> (0 <? x)%float = true ->
  exists (m : positive) (e : Z),
    Prim2SF x = S754_finite false m e /\ 2 ^ 52 <= Zpos m < 2 ^ 53 /\ L <= e <= U.
Proof.
  unfold tamef. rewrite ltb_spec.
  change (Prim2SF 0) with (S754_zero false).
  destruct (Prim2SF x) as [s | s | | s m e]; cbn [tame]; try contradiction.
  - discriminate.
  - destruct s; [discriminate |]. intros [Hm He] _. exists m, e. auto.
Qed.

(** X15.  For a profile in the plausible range whose unrounded BMR is
    positive, the [tdee] field is never below the [bmr] field. *)
Theorem tdee_at_least_bmr (h w : float) (a : Z) (sx : string)
    (act g : option string) (b : float) (m : Metrics) :
  (1e-100 <=? h)%float = true -> (h <=? 1e100)%float = true ->
  (1e-100 <=? w)%float = true -> (w <=? 1e100)%float = true ->
  - 2 ^ 63 <= a < 2 ^ 63 ->
  complete (mkProfile (Some h) (Some w) (Some a) (Some sx) act g) = true ->
  bmr_float w h a (Py.upper sx) = Ok b -> (0 <? b)%float = true ->
  calculate_metrics (Some (mkProfile (Some h) (Some w) (Some a) (Some sx) act g)) = Ok m ->
  exists rb rt : Z, bmr m = Some rb /\ tdee m = Some rt /\ 0 <= rb <= rt.
Proof.
  intros Lh Uh Lw Uw Ha Hc Hb Hpos Hm.
  destruct (plausible_bmr h w a Lh Uh Lw Uw Ha (Py.upper sx)) as (b' & Hb' & Tb).
  assert (b' = b) by congruence. subst b'.
  destruct (positive_tame _ _ _ Tb Hpos) as (mb & eb & Pb & Hmb & Heb).
  destruct (activity_multiplier_normal act) as (mc & Pc & Hmc).
  destruct (SFmul_grows mb mc eb Hmb Hmc ltac:(lia)) as (M & E & HME & _ & HE & Hge).
  rewrite calculate_metrics_complete in Hm by exact Hc.
  apply metrics_of_ok in Hm.
  destruct Hm as (b2 & t & rb & rt & _ & Hb2 & _ & Hrb & Hrt & ->).
  assert (b2 = b) by congruence. subst b2.
  exists rb, rt. split; [reflexivity |]. split; [reflexivity |].
  unfold Py.round in Hrb, Hrt.
  rewrite mul_spec, Pb, Pc in Hrt. unfold SF64mul in Hrt. rewrite HME in Hrt.
  rewrite Pb in Hrb.
  inversion Hrb; inversion Hrt; subst; clear Hrb Hrt. cbn [cond_Zopp].
  split; [apply round_half_even_mag_nonneg; lia |].
  apply (round_half_even_mag_mono _ _ _ _ (Z.min eb 0)); try lia.
  replace (E - Z.min eb 0) with ((E - eb) + (eb - Z.min eb 0)) by lia.
  rewrite Z.pow_add_r by lia.
  assert (0 < 2 ^ (eb - Z.min eb 0)) by (apply Z.pow_pos_nonneg; lia).
  nia.
Qed.

Lemma tdee_at_least_bmr_witness :
  exists rb rt : Z,
    bmr (mkMetrics (Some 24.2%float) (Some 1618) (Some 2224) (Some 2224)) = Some rb /\
    tdee (mkMetrics (Some 24.2%float) (Some 1618) (Some 2224) (Some 2224)) = Some rt /\
    0 <= rb <= rt.
Proof.
  apply (tdee_at_least_bmr 170 70 30 "M" (Some "lightly_active") None 1617.5);
    try reflexivity; lia.
Defined.

(** * The target and the TDEE *)

(** Rounding a mantissa of any length, in the normal range: the result is
    at most one unit in the last place above the value. *)
Lemma binary_round_upper (s : bool) (m : positive) (e : Z) :
  -1074 <= Zpos (digits2_pos m) + e - 53 ->
  Zpos (digits2_pos m) + e <= 1023 ->
  exists (M : positive) (E : Z),
    binary_round prec emax s m e = S754_finite s M E /\
    2 ^ 52 <= Zpos M < 2 ^ 53 /\
    ((e <= E /\ (Zpos M - 1) * 2 ^ (E - e) <= Zpos m) \/
     (E <= e /\ Zpos M - 1 <= Zpos m * 2 ^ (e - E))).
Proof.
  intros Hlo Hhi. unfold binary_round, shl_align.
  unfold fexp, SpecFloat.emin, prec, emax.
  rewrite Z.max_l by lia.
  set (d := Zpos (digits2_pos m)) in *.
  destruct (d + e - 53 - e) as [| k | k] eqn:Hk.
  - destruct (binary_round_aux_faithful s m e loc_Exact) as (M & E & HE & HM & HEe & Hl & _);
      try (fold d; lia).
    exists M, E. fold d in HEe. split; [exact HE |]. split; [exact HM |].
    left. split; [lia | exact Hl].
  - destruct (binary_round_aux_faithful s m e loc_Exact) as (M & E & HE & HM & HEe & Hl & _);
      try (fold d; lia).
    exists M, E. fold d in HEe. split; [exact HE |]. split; [exact HM |].
    left. split; [lia | exact Hl].
  - assert (Hv := iter_xO_value m k).
    destruct (digits2_pos_bounds m) as [Bl Bh]. fold d in Bl, Bh.
    assert (Hk' : Zpos k = 53 - d) by lia.
    assert (P1 : 2 ^ 52 = 2 ^ (d - 1) * 2 ^ Zpos k)
      by (rewrite <- Z.pow_add_r by lia; f_equal; lia).
    assert (P2 : 2 ^ 53 = 2 ^ d * 2 ^ Zpos k)
      by (rewrite <- Z.pow_add_r by lia; f_equal; lia).
    assert (P0 : 0 < 2 ^ Zpos k) by (apply Z.pow_pos_nonneg; lia).
    assert (D : Zpos (digits2_pos (Pos.iter xO m k)) = 53)
      by (apply digits2_pos_unique; [lia |]; change (53 - 1) with 52; nia).
    destruct (binary_round_aux_faithful s (Pos.iter xO m k) (d + e - 53) loc_Exact)
      as (M & E & HE & HM & HEe & Hl & _); try (rewrite D; lia).
    exists M, E. rewrite D in HEe. split; [exact HE |]. split; [exact HM |].
    right. split; [lia |].
    rewrite Hv in Hl.
    assert (E = d + e - 53 \/ E = d + e - 53 + 1) as [-> | ->] by lia.
    + rewrite Z.sub_diag, Z.pow_0_r, Z.mul_1_r in Hl.
      replace (e - (d + e - 53)) with (Zpos k) by lia. exact Hl.
    + replace (d + e - 53 + 1 - (d + e - 53)) with 1 in Hl by lia.
      change (2 ^ 1) with 2 in Hl.
      assert (Hk1 : 1 <= Zpos k) by lia.
      replace (Zpos k) with ((e - (d + e - 53 + 1)) + 1) in Hl by lia.
      rewrite Z.pow_add_r in Hl by lia. change (2 ^ 1) with 2 in Hl. lia.
Qed.

(** Taking 500 from a positive double below [2^60] does not give more. *)
Lemma SFsub_500_le (M : positive) (E : Z) :
  2 ^ 52 <= Zpos M < 2 ^ 53 -> -600 <= E <= 7 ->
  match SFsub prec emax (S754_finite false M E)
                        (S754_finite false 8796093022208000 (-44)) with
  | S754_zero _ | S754_finite true _ _ => True
  | S754_finite false M' E' =>
      Zpos M' * 2 ^ (E' - Z.min E' (Z.min E (-44)))
      <= Zpos M * 2 ^ (E - Z.min E' (Z.min E (-44)))
  | _ => False
  end.
Proof.
  intros HM HE. cbn [SFsub cond_Zopp].
  rewrite !shl_align_value by lia.
  set (ez := Z.min E (-44)).
  assert (PX : 0 < 2 ^ (E - ez)) by (apply Z.pow_pos_nonneg; subst ez; lia).
  assert (PY : 0 < 2 ^ (-44 - ez)) by (apply Z.pow_pos_nonneg; subst ez; lia).
  assert (HXY : Zpos M * 2 ^ (E - ez) <= 2 ^ 52 * (8796093022208000 * 2 ^ (-44 - ez))).
  { destruct (Z_lt_le_dec E (-44)) as [Hlt | Hge].
    - replace (E - ez) with 0 by (subst ez; lia). rewrite Z.pow_0_r. nia.
    - replace (-44 - ez) with 0 by (subst ez; lia). rewrite Z.pow_0_r.
      assert (2 ^ (E - ez) <= 2 ^ 51) by (apply Z.pow_le_mono_r; subst ez; lia).
      nia. }
  assert (HX : Zpos M * 2 ^ (E - ez) < 2 ^ 104).
  { assert (2 ^ (E - ez) <= 2 ^ 51) by (apply Z.pow_le_mono_r; subst ez; lia).
    change (2 ^ 104) with (2 ^ 53 * 2 ^ 51). nia. }
  assert (HY : 8796093022208000 * 2 ^ (-44 - ez) < 2 ^ (609 + 53)).
  { assert (2 ^ (-44 - ez) <= 2 ^ 609) by (apply Z.pow_le_mono_r; subst ez; lia).
    rewrite Z.pow_add_r by lia. nia. }
  set (X := Zpos M * 2 ^ (E - ez)) in *.
  set (Y := 8796093022208000 * 2 ^ (-44 - ez)) in *.
  unfold binary_normalize.
  destruct (X - Y) as [| p | p] eqn:Hp; [exact I | |].
  - destruct (binary_round_upper false p ez) as (M' & E' & HR & HM' & Hval).
    + assert (0 < Zpos (digits2_pos p)) by lia. subst ez. lia.
    + assert (Hd := digits2_pos_le p 104 ltac:(lia)). subst ez. lia.
    + rewrite HR.
      destruct Hval as [[He Hv] | [He Hv]].
      * replace (Z.min E' ez) with ez by lia.
        assert (U1 : 0 < 2 ^ (E' - ez)) by (apply Z.pow_pos_nonneg; lia).
        fold X. set (u := 2 ^ (E' - ez)) in *. nia.
      * replace (Z.min E' ez) with E' by lia.
        rewrite Z.sub_diag, Z.pow_0_r, Z.mul_1_r.
        replace (E - E') with ((E - ez) + (ez - E')) by lia.
        rewrite Z.pow_add_r, Z.mul_assoc by (subst ez; lia). fold X.
        assert (A1 : 0 < 2 ^ (ez - E')) by (apply Z.pow_pos_nonneg; lia).
        set (A := 2 ^ (ez - E')) in *.
        assert (1 <= Y) by (subst Y; lia). nia.
  - destruct (binary_round_normal true p ez) as (M' & E' & HR & _).
    + assert (0 < Zpos (digits2_pos p)) by lia. subst ez. lia.
    + assert (Hd := digits2_pos_le p (609 + 53) ltac:(lia)). subst ez. lia.
    + rewrite HR. exact I.
Qed.

(** For a positive double, [int] is not above [round]. *)
Lemma shiftl_le_round (m : positive) (e : Z) :
  Z.shiftl (Zpos m) e <= Py.round_half_even_mag (Zpos m) e.
Proof.
  unfold Py.round_half_even_mag.
  destruct (Z.leb_spec 0 e) as [He | He].
  - rewrite Z.shiftl_mul_pow2 by lia. lia.
  - rewrite Z.shiftl_div_pow2 by lia. cbv zeta.
    destruct (2 * (Zpos m mod 2 ^ (- e)) ?= 2 ^ (- e));
      [destruct (Z.even (Zpos m / 2 ^ (- e))) | |]; lia.
Qed.

(** X16.  For a profile with height and weight between 1e-100 and 1e12, a
    32-bit age and a positive unrounded BMR, and with goal "lose", the
    target is never above the [tdee] field (nor more than one below the
    [bmr] field). *)
Theorem lose_target_at_most_tdee (h w : float) (a : Z) (sx : string)
    (act g : option string) (b : float) (m : Metrics) :
  (1e-100 <=? h)%float = true -> (h <=? 1e12)%float = true ->
  (1e-100 <=? w)%float = true -> (w <=? 1e12)%float = true ->
  - 2 ^ 31 <= a < 2 ^ 31 ->
  complete (mkProfile (Some h) (Some w) (Some a) (Some sx) act g) = true ->
  bmr_float w h a (Py.upper sx) = Ok b -> (0 <? b)%float = true ->
  goal_is_lose g = true ->
  calculate_metrics (Some (mkProfile (Some h) (Some w) (Some a) (Some sx) act g)) = Ok m ->
  exists rb rt t : Z,
    bmr m = Some rb /\ tdee m = Some rt /\ target_calories m = Some t /\
    rb - 1 <= t <= rt.
Proof.
  intros Lh Uh Lw Uw Ha Hc Hb Hpos Hl Hm.
  destruct (normal_between 1e-100 1e12 h 7880401239278896 8192000000000000 (-385) (-13))
    as (mh & eh & Ph & Hmh & Heh); [reflexivity | reflexivity | lia | exact Lh | exact Uh |].
  destruct (normal_between 1e-100 1e12 w 7880401239278896 8192000000000000 (-385) (-13))
    as (mw & ew & Pw & Hmw & Hew); [reflexivity | reflexivity | lia | exact Lw | exact Uw |].
  destruct (bmr_float_tame h w a (-13) (Py.upper sx)) as (b' & Hb' & Tb); try lia.
  { unfold tamef; rewrite Ph; cbn [tame]; lia. }
  { unfold tamef; rewrite Pw; cbn [tame]; lia. }
  assert (b' = b) by congruence. subst b'.
  destruct (positive_tame _ _ _ Tb Hpos) as (mb & eb & Pb & Hmb & Heb).
  destruct (activity_multiplier_normal act) as (mc & Pc & Hmc).
  destruct (SFmul_grows mb mc eb Hmb Hmc ltac:(lia)) as (M & E & HME & HM & HE & Hge).
  rewrite calculate_metrics_complete in Hm by exact Hc.
  apply metrics_of_ok in Hm.
  destruct Hm as (b2 & t & rb & rt & _ & Hb2 & Ht & Hrb & Hrt & ->).
  assert (b2 = b) by congruence. subst b2.
  rewrite Hl in Ht. unfold target_of in Ht.
  bind_inv Ht t1 Ht1. bind_inv Ht tb Htb. inversion Ht; subst t; clear Ht.
  exists rb, rt, (Z.max t1 tb).
  split; [reflexivity |]. split; [reflexivity |]. split; [reflexivity |].
  assert (Hclose := round_int_close b rb tb Hrb Htb).
  (* the three roundings, on mantissas and exponents *)
  assert (Pt : Prim2SF (b * activity_multiplier act)%float = S754_finite false M E)
    by (rewrite mul_spec, Pb, Pc; exact HME).
  unfold Py.round in Hrb, Hrt, Ht1. unfold Py.int in Htb.
  rewrite Pb in Hrb, Htb. rewrite Pt in Hrt.
  inversion Hrb; inversion Hrt; inversion Htb; subst; clear Hrb Hrt Htb.
  cbn [cond_Zopp] in *.
  assert (Hbt : Py.round_half_even_mag (Zpos mb) eb <= Py.round_half_even_mag (Zpos M) E).
  { apply (round_half_even_mag_mono _ _ _ _ (Z.min eb 0)); try lia.
    replace (E - Z.min eb 0) with ((E - eb) + (eb - Z.min eb 0)) by lia.
    rewrite Z.pow_add_r by lia.
    assert (0 < 2 ^ (eb - Z.min eb 0)) by (apply Z.pow_pos_nonneg; lia).
    nia. }
  assert (Htb := shiftl_le_round mb eb).
  assert (Hnn : 0 <= Py.round_half_even_mag (Zpos M) E)
    by (apply round_half_even_mag_nonneg; lia).
  assert (Ht1' : t1 <= Py.round_half_even_mag (Zpos M) E).
  { rewrite sub_spec, Pt in Ht1.
    change (Prim2SF 500) with (S754_finite false 8796093022208000 (-44)) in Ht1.
    unfold SF64sub in Ht1.
    assert (Hs := SFsub_500_le M E HM ltac:(lia)).
    destruct (SFsub prec emax (S754_finite false M E)
                (S754_finite false 8796093022208000 (-44))) as [s | s | | s M' E'];
      try contradiction.
    - inversion Ht1. lia.
    - inversion Ht1. destruct s; cbn [cond_Zopp].
      + assert (0 <= Py.round_half_even_mag (Zpos M') E')
          by (apply round_half_even_mag_nonneg; lia).
        lia.
      + apply (round_half_even_mag_mono _ _ _ _ (Z.min E' (Z.min E (-44)))); lia. }
  lia.
Qed.

Lemma lose_target_at_most_tdee_witness :
  exists rb rt t : Z,
    bmr (mkMetrics (Some 24.2%float) (Some 1618) (Some 1941) (Some 1617)) = Some rb /\
    tdee (mkMetrics (Some 24.2%float) (Some 1618) (Some 1941) (Some 1617)) = Some rt /\
    target_calories (mkMetrics (Some 24.2%float) (Some 1618) (Some 1941) (Some 1617))
    = Some t /\
    rb - 1 <= t <= rt.
Proof.
  apply (lose_target_at_most_tdee 170 70 30 "M" (Some "sedentary") (Some "lose") 1617.5);
    try reflexivity; lia.
Defined.

(** * From the form to the page *)

(** Every height of the form's grid is stored in the plausible range. *)
Lemma height_grid_plausible :
  forallb (fun f =>
             forallb (fun k =>
                        (f =? 0) && (k =? 0)
                        || (1e-100 <=? ft_in_to_cm (PyFloat.of_int f) (decimal1 k))%float
                           && (ft_in_to_cm (PyFloat.of_int f) (decimal1 k) <=? 1e100)%float)
                     (Zrange 120 0))
          (Zrange 10 0) = true.
Proof. vm_compute. reflexivity. Qed.

(** Every weight of the form's range is stored in the plausible range. *)
Lemma weight_range_plausible :
  forallb (fun k => (1e-100 <=? lbs_to_kg (decimal1 k))%float
                    && (lbs_to_kg (decimal1 k) <=? 1e100)%float)
          (Zrange (Z.to_nat 10000) 1) = true.
Proof. vm_compute. reflexivity. Qed.

Lemma upper_nonempty (s : string) : s <> "" -> Py.upper s <> "".
Proof. destruct s as [| c s]; [congruence | discriminate]. Qed.

(** X17.  A form filled in with a height of 0 to 9 feet and 0.0 to 11.9
    inches (not zero altogether), a weight of 0.1 to 1000.0 pounds, both in
    tenths, a non-zero 64-bit age and a sex, whatever the activity and the
    goal, is stored so that the profile page then renders without raising,
    with the four metrics known and with the feet, the inches and the
    pounds exactly as typed. *)
Theorem typed_profile_renders (f k j age_raw : Z) (sx : string)
    (act g : option string) :
  0 <= f <= 9 -> 0 <= k <= 119 -> f <> 0 \/ k <> 0 -> 1 <= j <= 10000 ->
  age_raw <> 0 -> - 2 ^ 63 <= age_raw < 2 ^ 63 -> sx <> "" ->
  exists (x : float) (rb rt t : Z),
    profile_view
      (Some (profile_update (PyFloat.of_int f) (decimal1 k) (decimal1 j)
                            age_raw (Some sx) act g))
    = Ok (mkProfileView (mkMetrics (Some x) (Some rb) (Some rt) (Some t))
                        (Some f) (Some (decimal1 k)) (Some (decimal1 j))).
Proof.
  intros Hf Hk Hnz Hj Ha0 Ha Hsx.
  (* the stored height *)
  assert (G := height_comes_back_grid).
  rewrite forallb_forall in G.
  specialize (G f (In_Zrange 10 0 f ltac:(lia))).
  rewrite forallb_forall in G.
  specialize (G k (In_Zrange 120 0 k ltac:(lia))).
  apply orb_prop in G. destruct G as [G | G].
  { apply andb_prop in G. destruct G as [G1 G2]. lia. }
  assert (P := height_grid_plausible).
  rewrite forallb_forall in P.
  specialize (P f (In_Zrange 10 0 f ltac:(lia))).
  rewrite forallb_forall in P.
  specialize (P k (In_Zrange 120 0 k ltac:(lia))).
  apply orb_prop in P. destruct P as [P | P].
  { apply andb_prop in P. destruct P as [P1 P2]. lia. }
  apply andb_prop in P. destruct P as [Lh Uh].
  unfold height_comes_back in G. cbv zeta in G.
  set (h := ft_in_to_cm (PyFloat.of_int f) (decimal1 k)) in *.
  apply andb_prop in G. destruct G as [G G4].
  apply andb_prop in G. destruct G as [G G3].
  apply andb_prop in G. destruct G as [G1 G2].
  destruct (PyFloat.floordiv (h / 2.54)%float 12) as [q |] eqn:Hq; [| discriminate].
  destruct (PyFloat.mod_ (h / 2.54)%float 12) as [r |] eqn:Hr; [| discriminate].
  destruct (Py.int q) as [n |] eqn:Hn; [| discriminate].
  apply andb_prop in G4. destruct G4 as [E1 E2].
  apply Z.eqb_eq in E1. apply Leibniz.eqb_spec in E2. subst n.
  (* the stored weight *)
  assert (W := weight_comes_back_range).
  rewrite forallb_forall in W.
  specialize (W j (In_Zrange (Z.to_nat 10000) 1 j ltac:(lia))).
  unfold weight_comes_back in W.
  apply andb_prop in W. destruct W as [W W3].
  apply andb_prop in W. destruct W as [W1 W2].
  apply Leibniz.eqb_spec in W3.
  assert (Q := weight_range_plausible).
  rewrite forallb_forall in Q.
  specialize (Q j (In_Zrange (Z.to_nat 10000) 1 j ltac:(lia))).
  apply andb_prop in Q. destruct Q as [Lw Uw].
  set (w := lbs_to_kg (decimal1 j)) in *.
  (* the stored profile is complete and in the plausible range *)
  assert (Hu : Py.upper sx <> "") by (apply upper_nonempty; exact Hsx).
  assert (Hp : profile_update (PyFloat.of_int f) (decimal1 k) (decimal1 j)
                              age_raw (Some sx) act g
               = mkProfile (Some h) (Some w) (Some age_raw) (Some (Py.upper sx))
                           (Some (Py.str_or act "moderately_active"))
                           (Some (Py.str_or g "maintain"))).
  { unfold profile_update. rewrite G1, W1.
    destruct (Z.eqb_spec age_raw 0); [contradiction |].
    f_equal. destruct sx as [| c sx]; [congruence | reflexivity]. }
  rewrite Hp.
  assert (Hc : complete (mkProfile (Some h) (Some w) (Some age_raw) (Some (Py.upper sx))
                                   (Some (Py.str_or act "moderately_active"))
                                   (Some (Py.str_or g "maintain"))) = true).
  { unfold complete. cbn [height_in weight_lb age sex].
    rewrite G2, W2.
    destruct (Z.eqb_spec age_raw 0); [contradiction |].
    destruct (String.eqb_spec (Py.upper sx) ""); [contradiction | reflexivity]. }
  destruct (plausible_metrics_of h w age_raw (Py.upper sx)
              (Some (Py.str_or act "moderately_active"))
              (Some (Py.str_or g "maintain")) Lh Uh Lw Uw Ha)
    as (x & rb & rt & t & Hm).
  exists x, rb, rt, t.
  unfold profile_view.
  rewrite calculate_metrics_complete by exact Hc.
  rewrite Hm. cbn [mbind result_bind height_in weight_lb].
  rewrite G2, G3. cbn [mbind result_bind].
  rewrite Hq, Hr. cbn [mbind result_bind].
  rewrite Hn. cbn [mbind result_bind].
  rewrite W2, E2, W3. reflexivity.
Qed.

Lemma typed_profile_renders_witness :
  exists (x : float) (rb rt t : Z),
    profile_view
      (Some (profile_update (PyFloat.of_int 5) (decimal1 70) (decimal1 1545)
                            30 (Some "f") None None))
    = Ok (mkProfileView (mkMetrics (Some x) (Some rb) (Some rt) (Some t))
                        (Some 5) (Some (decimal1 70)) (Some (decimal1 1545))).
Proof.
  apply (typed_profile_renders 5 70 1545 30 "f" None None);
    try lia; discriminate.
Defined.

(** * The dashboard as a whole *)

Lemma exercise_recommendations_returns (profile : option Profile) :
  exists recs : list (gmap string value), exercise_recommendations profile = Ok recs.
Proof.
  destruct profile as [p |]; cbn [exercise_recommendations]; [| eexists; reflexivity].
  destruct (goal_is_lose (goal p)); [| eexists; reflexivity].
  rewrite (lose_loop_spec base [] base_loop_ready). cbn [mbind result_bind].
  eexists; reflexivity.
Qed.

Lemma week_totals_returns (today : Z) (recent : list Entry.t) :
  Forall (fun e => Entry.date e <> None) recent ->
  exists wi wo : Z, week_totals today recent = Ok (wi, wo).
Proof.
  intros Hd. unfold week_totals.
  rewrite (week_entries_dated _ _ Hd). cbn [mbind result_bind].
  eexists _, _. reflexivity.
Qed.

(** X18.  The dashboard raises exactly when [calculate_metrics] raises on
    the user's profile, and then the same exception: on the rows its own
    query returned, neither the week's totals nor the recommendations
    raise.  When it renders, it shows the metrics of the profile and the
    rows in the order the query returned them. *)
Theorem dashboard_raises_only_from_metrics (p : option Profile)
    (table recent : list Entry.t) (uid today : Z) :
  Permutation recent (recent_rows table uid (today - 14)) ->
  match calculate_metrics p with
  | Raise e => dashboard p today recent = Raise e
  | Ok m =>
      exists (wi wo : Z) (recs : list (gmap string value)),
        week_totals today recent = Ok (wi, wo) /\
        exercise_recommendations p = Ok recs /\
        dashboard p today recent = Ok (mkDashboardView recent wi wo m recs)
  end.
Proof.
  intros HP. unfold dashboard.
  destruct (calculate_metrics p) as [m | e]; cbn [mbind result_bind]; [| reflexivity].
  assert (Hd : Forall (fun e => Entry.date e <> None) recent).
  { eapply Permutation_Forall; [symmetry; exact HP | apply recent_rows_dated]. }
  destruct (week_totals_returns today recent Hd) as (wi & wo & Hw).
  destruct (exercise_recommendations_returns p) as (recs & Hr).
  exists wi, wo, recs. rewrite Hw, Hr. cbn [mbind result_bind fst snd].
  repeat split.
Qed.

Lemma dashboard_raises_only_from_metrics_witness :
  dashboard (Some (mkProfile (Some 1e-170%float) (Some 70%float) (Some 30) (Some "M")
                             None None))
            739000
            [Entry.mk 1 (Some 739000) (Some 2000) (Some 300)]
  = Raise ZeroDivisionError.
Proof.
  apply (dashboard_raises_only_from_metrics
           (Some (mkProfile (Some 1e-170%float) (Some 70%float) (Some 30) (Some "M")
                            None None))
           [Entry.mk 2 (Some 739000) (Some 900) (Some 900);
            Entry.mk 1 (Some 739000) (Some 2000) (Some 300);
            Entry.mk 1 None (Some 700) None]
           [Entry.mk 1 (Some 739000) (Some 2000) (Some 300)] 1 739000).
  vm_compute. apply Permutation_refl.
Defined.

(** * The C library and the other fields *)

(** X19.  Which C library computes the square matters to the [bmi] field
    alone: two runs of [calculate_metrics] on the same profile that both
    return, with any two [pow] functions, agree on [bmr], [tdee] and
    [target_calories], and have their [bmi] known together. *)
Theorem pow_only_reaches_bmi (c1 c2 : float -> float -> float)
    (profile : option Profile) (m1 m2 : Metrics) :
  calculate_metrics_with c1 profile = Ok m1 ->
  calculate_metrics_with c2 profile = Ok m2 ->
  bmr m1 = bmr m2 /\ tdee m1 = tdee m2 /\ target_calories m1 = target_calories m2 /\
  (bmi m1 = None <-> bmi m2 = None).
Proof.
  destruct profile as [[[h |] [w |] [a |] [sx |] act g] |];
    cbn [calculate_metrics_with height_in weight_lb age sex activity goal];
    intros H1 H2;
    try (inversion H1; inversion H2; subst; repeat split; reflexivity).
  destruct (complete _).
  - apply metrics_of_with_ok in H1, H2.
    destruct H1 as (s1 & b1 & t1 & rb1 & rt1 & _ & _ & Hb1 & Ht1 & Hrb1 & Hrt1 & ->).
    destruct H2 as (s2 & b2 & t2 & rb2 & rt2 & _ & _ & Hb2 & Ht2 & Hrb2 & Hrt2 & ->).
    assert (b1 = b2) by congruence. subst b2.
    cbn [bmi bmr tdee target_calories].
    repeat split; try congruence; discriminate.
  - inversion H1; inversion H2; subst; repeat split; reflexivity.
Qed.

Lemma pow_only_reaches_bmi_witness :
  bmr (mkMetrics (Some 24.2%float) (Some 1560) (Some 2419) (Some 2419))
  = bmr (mkMetrics (Some 24.3%float) (Some 1560) (Some 2419) (Some 2419)) /\
  tdee (mkMetrics (Some 24.2%float) (Some 1560) (Some 2419) (Some 2419))
  = tdee (mkMetrics (Some 24.3%float) (Some 1560) (Some 2419) (Some 2419)) /\
  target_calories (mkMetrics (Some 24.2%float) (Some 1560) (Some 2419) (Some 2419))
  = target_calories (mkMetrics (Some 24.3%float) (Some 1560) (Some 2419) (Some 2419)) /\
  (bmi (mkMetrics (Some 24.2%float) (Some 1560) (Some 2419) (Some 2419)) = None
   <-> bmi (mkMetrics (Some 24.3%float) (Some 1560) (Some 2419) (Some 2419)) = None).
Proof.
  apply (pow_only_reaches_bmi pow_above pow_rounded
           (Some (mkProfile (Some 165.98%float) (Some 66.80719897%float) (Some 30)
                            (Some "M") (Some "moderately_active") (Some "maintain"))));
    vm_compute; reflexivity.
Defined.
